(** * astore_client: the Python client SDK of the artifact store

    A shallow embedding of [astore_client/exceptions.py], [client.py],
    [operations.py] and [supplychain.py], and the properties of the error
    mapper, the progress reporting, the header and JSON codecs and the
    configuration that the specification states.

    Conventions.
    - A Python [str] is a [string]; [bytes] is a [list byte]; an [int] is a [Z].
    - A value decoded from JSON is a [json]; a JSON object is the list of the
      items of the decoded [dict], in order.
    - A call that may raise returns a [result]: [Return v] or [Raise e].
    - What the [requests] and [datetime] libraries compute (sending a request,
      [urljoin], [strptime], [fromisoformat]) is a parameter of the
      operations. *)

From Stdlib Require Import ZArith List String Ascii Lia.
From stdpp Require Import base option list strings pretty.
From Equations Require Import Equations.

Import ListNotations.
Set Warnings "-register-all".
Local Open Scope Z_scope.
Local Open Scope string_scope.

(** ** Python values *)

(** Values produced by [response.json()]. Numbers are the integers: no
    function of the client computes with a fractional number. *)
Inductive json : Type :=
| JNull
| JBool (b : bool)
| JNum (n : Z)
| JStr (s : string)
| JArr (items : list json)
| JObj (items : list (string * json)).

(** Python truthiness, as used by [if x:] and [x or y]. *)
Definition truthy (v : json) : bool :=
  match v with
  | JNull => false
  | JBool b => b
  | JNum n => negb (Z.eqb n 0)
  | JStr s => negb (String.eqb s "")
  | JArr items => negb (Nat.eqb (List.length items) 0)
  | JObj items => negb (Nat.eqb (List.length items) 0)
  end.

(** ** Exceptions: [exceptions.py] and the built-in ones the client lets
    through *)

Inductive error_class : Type :=
| ArtifactStoreError
| BadRequestError
| UnauthorizedError
| ForbiddenError
| NotFoundError
| ConflictError
| InternalServerError
| ServiceUnavailableError.

Inductive exception : Type :=
| StoreError (cls : error_class) (message : json) (status_code : option Z)
    (* an instance of [ArtifactStoreError] or of one of its subclasses, with
       its attributes [message] and [status_code] ([None] is Python's None) *)
| ValueError
| KeyError (key : string)
| TypeError
| AttributeError
| JSONDecodeError      (* [response.json()] on a body that is no JSON *)
| TransportError.      (* what [session.request] raises: connection, timeout, TLS *)

Inductive result (A : Type) : Type :=
| Return (v : A)
| Raise (e : exception).
Arguments Return {A} v.
Arguments Raise {A} e.

(** [result] is a monad in stdpp's sense: [x ← r; k] runs [k] on the value
    [r] returns and passes on the exception [r] raises. *)
#[global] Instance result_ret : MRet result := fun A v => Return v.
#[global] Instance result_bind : MBind result := fun A B k r =>
  match r with
  | Return v => k v
  | Raise e => Raise e
  end.

(** [ArtifactStoreError.__init__(self, message, status_code=None)]. *)
Definition ArtifactStoreError_init (message : json) (status_code : option Z) : exception :=
  StoreError ArtifactStoreError message status_code.

(** The subclasses' [__init__(self, message)], each calling
    [super().__init__(message, <its code>)]. *)
Definition BadRequestError_init (message : json) : exception :=
  StoreError BadRequestError message (Some 400).
Definition UnauthorizedError_init (message : json) : exception :=
  StoreError UnauthorizedError message (Some 401).
Definition ForbiddenError_init (message : json) : exception :=
  StoreError ForbiddenError message (Some 403).
Definition NotFoundError_init (message : json) : exception :=
  StoreError NotFoundError message (Some 404).
Definition ConflictError_init (message : json) : exception :=
  StoreError ConflictError message (Some 409).
Definition InternalServerError_init (message : json) : exception :=
  StoreError InternalServerError message (Some 500).
Definition ServiceUnavailableError_init (message : json) : exception :=
  StoreError ServiceUnavailableError message (Some 503).

(** [error_class(message)]: the call of a class with the message alone. *)
Definition construct (cls : error_class) (message : json) : exception :=
  match cls with
  | ArtifactStoreError => ArtifactStoreError_init message None
  | BadRequestError => BadRequestError_init message
  | UnauthorizedError => UnauthorizedError_init message
  | ForbiddenError => ForbiddenError_init message
  | NotFoundError => NotFoundError_init message
  | ConflictError => ConflictError_init message
  | InternalServerError => InternalServerError_init message
  | ServiceUnavailableError => ServiceUnavailableError_init message
  end.

(** ** Dictionaries and headers *)

(** [d.get(key)] on the items of a dict. *)
Fixpoint dict_lookup {V} (key : string) (items : list (string * V)) : option V :=
  match items with
  | [] => None
  | (k, v) :: rest => if String.eqb k key then Some v else dict_lookup key rest
  end.

(** [d.get(key, default)]. *)
Definition dict_get {V} (key : string) (default : V) (items : list (string * V)) : V :=
  match dict_lookup key items with
  | Some v => v
  | None => default
  end.

(** [x.get(key, default)] on a decoded value: only a dict has [get]. *)
Definition json_get (key : string) (default : json) (v : json) : result json :=
  match v with
  | JObj items => Return (dict_get key default items)
  | _ => Raise AttributeError
  end.

(** [x[key]] with a string key on a decoded value. *)
Definition json_item (key : string) (v : json) : result json :=
  match v with
  | JObj items =>
      match dict_lookup key items with
      | Some w => Return w
      | None => Raise (KeyError key)
      end
  | _ => Raise TypeError
  end.

(** ** Responses *)

(** [requests.Response], as far as the client reads it. [headers] are the
    items of the case-insensitive header dict, with the names as received;
    [json_body] is what [response.json()] returns, [None] when it raises;
    [chunks] is what [iter_content] yields. *)
Record Response : Type := {
  status_code : Z;
  headers : list (string * string);
  text : string;
  json_body : option json;
  chunks : list (list Byte.byte)
}.

Definition response_json (response : Response) : result json :=
  match json_body response with
  | Some v => Return v
  | None => Raise JSONDecodeError
  end.

(** ** [exceptions.raise_for_status] *)

(** [error_map.get(status_code, ArtifactStoreError)]. *)
Definition error_map (code : Z) : option error_class :=
  if Z.eqb code 400 then Some BadRequestError
  else if Z.eqb code 401 then Some UnauthorizedError
  else if Z.eqb code 403 then Some ForbiddenError
  else if Z.eqb code 404 then Some NotFoundError
  else if Z.eqb code 409 then Some ConflictError
  else if Z.eqb code 500 then Some InternalServerError
  else if Z.eqb code 503 then Some ServiceUnavailableError
  else None.

(** The [try] block: [response.json()] then [.get("error", response.text)];
    any exception of either lands in the [except] branch,
    [response.text or f"HTTP {response.status_code}"]. *)
Definition resolve_message (response : Response) : json :=
  let attempt :=
    (error_data ← response_json response;
     json_get "error" (JStr (text response)) error_data) in
  match attempt with
  | Return message => message
  | Raise _ =>
      if String.eqb (text response) ""
      then JStr ("HTTP " +:+ pretty (status_code response))
      else JStr (text response)
  end.

Definition raise_for_status (response : Response) : result unit :=
  if Z.ltb (status_code response) 400 then Return tt
  else
    let message := resolve_message response in
    let error_class :=
      match error_map (status_code response) with
      | Some cls => cls
      | None => ArtifactStoreError
      end in
    Raise (construct error_class message).

(** ** Strings

    A character is a code point below 256. *)

(** [c.lower()]: the letters A-Z and the upper-case letters of Latin-1. *)
Definition lower_char (c : ascii) : ascii :=
  let n := N_of_ascii c in
  if ((65 <=? n) && (n <=? 90))%N then ascii_of_N (n + 32)
  else if ((192 <=? n) && (n <=? 222) && negb (n =? 215))%N then ascii_of_N (n + 32)
  else c.

(** [s.lower()]. *)
Fixpoint lower (s : string) : string :=
  match s with
  | EmptyString => EmptyString
  | String c rest => String (lower_char c) (lower rest)
  end.

(** [s.startswith(prefix)]. *)
Fixpoint startswith (prefix s : string) : bool :=
  match prefix with
  | EmptyString => true
  | String a prefix' =>
      match s with
      | EmptyString => false
      | String b s' => Ascii.eqb a b && startswith prefix' s'
      end
  end.

(** [s[n:]]. *)
Fixpoint slice_from (n : nat) (s : string) : string :=
  match n, s with
  | O, _ => s
  | S _, EmptyString => EmptyString
  | S m, String _ rest => slice_from m rest
  end.

(** [s.lstrip(c)], [s.rstrip(c)] and [s.strip(c)] for a one-character [c]. *)
Fixpoint lstrip (c : ascii) (s : string) : string :=
  match s with
  | EmptyString => EmptyString
  | String a rest => if Ascii.eqb a c then lstrip c rest else s
  end.

Fixpoint rstrip (c : ascii) (s : string) : string :=
  match s with
  | EmptyString => EmptyString
  | String a rest =>
      let r := rstrip c rest in
      if Ascii.eqb a c && String.eqb r "" then EmptyString else String a r
  end.

Definition strip (c : ascii) (s : string) : string := rstrip c (lstrip c s).

(** [s.replace(c, by)] for a one-character [c]. *)
Fixpoint replace (c : ascii) (by_ : string) (s : string) : string :=
  match s with
  | EmptyString => EmptyString
  | String a rest =>
      if Ascii.eqb a c then by_ +:+ replace c by_ rest
      else String a (replace c by_ rest)
  end.

(** [x.replace("Z", "+00:00")] on a decoded value: only a [str] has
    [replace]. *)
Definition json_replace_Z (v : json) : result string :=
  match v with
  | JStr s => Return (replace "Z"%char "+00:00" s)
  | _ => Raise AttributeError
  end.

(** [for x in v] on a decoded value: a list yields its elements, a dict its
    keys, a string its characters; nothing else is iterable. *)
Fixpoint characters (s : string) : list json :=
  match s with
  | EmptyString => []
  | String c rest => JStr (String c EmptyString) :: characters rest
  end.

Definition json_iter (v : json) : result (list json) :=
  match v with
  | JArr items => Return items
  | JObj items => Return (map (fun kv => JStr (fst kv)) items)
  | JStr s => Return (characters s)
  | _ => Raise TypeError
  end.

(** [d[key] = value] on the items of a dict: an existing key keeps its
    place, a new one goes last. *)
Fixpoint dict_set {V} (key : string) (value : V) (items : list (string * V))
  : list (string * V) :=
  match items with
  | [] => [(key, value)]
  | (k, v) :: rest =>
      if String.eqb k key then (k, value) :: rest
      else (k, v) :: dict_set key value rest
  end.

(** [requests.structures.CaseInsensitiveDict], the type of [session.headers]
    and of [response.headers]: entries are found by the lower-cased name, and
    an entry keeps the name it was last set with. *)
Fixpoint ci_lookup (name : string) (items : list (string * string)) : option string :=
  match items with
  | [] => None
  | (k, v) :: rest =>
      if String.eqb (lower k) (lower name) then Some v else ci_lookup name rest
  end.

(** [headers.get(name, default)]. *)
Definition ci_get (name default : string) (items : list (string * string)) : string :=
  match ci_lookup name items with
  | Some v => v
  | None => default
  end.

(** [headers[name] = value]. *)
Fixpoint ci_set (name value : string) (items : list (string * string))
  : list (string * string) :=
  match items with
  | [] => [(name, value)]
  | (k, v) :: rest =>
      if String.eqb (lower k) (lower name) then (name, value) :: rest
      else (k, v) :: ci_set name value rest
  end.

(** [headers.update(d)]: one assignment per item of [d], in [d]'s order. *)
Definition ci_update (d items : list (string * string)) : list (string * string) :=
  fold_left (fun acc kv => ci_set (fst kv) (snd kv) acc) d items.

(** ** Dates and the libraries

    A [datetime]; [utcoffset] is [None] for a naive one. *)
Record datetime : Type := {
  year : Z; month : Z; day : Z;
  hour : Z; minute : Z; second : Z;
  utcoffset : option Z
}.

(** What the client calls in the standard library and in [requests]. A parser
    that raises [ValueError] returns [None]. *)
Class Library : Type := {
  urljoin : string -> string -> string;
  int_of_str : string -> option Z;              (* int(s) *)
  strptime : string -> string -> option datetime;   (* datetime.strptime(s, format) *)
  fromisoformat : string -> option datetime;    (* datetime.fromisoformat(s) *)
  session_default_headers : list (string * string)  (* requests.Session().headers *)
}.

Definition or_ValueError {A} (o : option A) : result A :=
  match o with
  | Some v => Return v
  | None => Raise ValueError
  end.

(** ** [models.py]

    The dataclasses do not check the types of their fields: a field filled
    from a decoded response holds whatever value the response had. *)

Module Object.
Record t : Type := {
  key : json;
  size : json;
  last_modified : datetime;
  etag : json;
  content_type : json;
  metadata : list (string * string)
}.
End Object.

Module ListObjectsResult.
Record t : Type := {
  objects : list Object.t;
  prefix : json;
  max_keys : json;
  is_truncated : json
}.
End ListObjectsResult.

Module Signature.
Record t : Type := {
  id : json;
  artifact_digest : json;
  signature : json;
  algorithm : json;
  signed_by : json;
  timestamp : datetime
}.
End Signature.

Module SBOM.
Record t : Type := {
  id : json;
  artifact_digest : json;
  format : json;
  content : json;
  timestamp : datetime
}.
End SBOM.

Module Attestation.
Record t : Type := {
  id : json;
  artifact_digest : json;
  type : json;
  data : json;
  timestamp : datetime
}.
End Attestation.

Module VerificationResult.
Record t : Type := {
  valid : json;
  message : json;
  signatures : list Signature.t
}.
End VerificationResult.

Module CompletedPart.
Record t : Type := {
  part_number : Z;
  etag : string
}.
End CompletedPart.

Module Bucket.
Record t : Type := {
  name : json;
  creation_date : datetime
}.
End Bucket.

Module ListBucketsResult.
Record t : Type := {
  buckets : list Bucket.t
}.
End ListBucketsResult.

Module MultipartUpload.
Record t : Type := {
  upload_id : json;
  bucket : string;
  key : string
}.
End MultipartUpload.

(** ** [client.Config] *)

Module Config.
Record t : Type := {
  base_url : string;
  token : option string;
  timeout : Z;
  insecure_skip_verify : bool;
  user_agent : string
}.

(** [Config.__init__]. [base_url] is [None] for Python's None. *)
Definition init (base_url : option string) (token : option string)
    (timeout : Z) (insecure_skip_verify : bool) (user_agent : string)
  : result t :=
  match base_url with
  | None => Raise ValueError
  | Some url =>
      if String.eqb url "" then Raise ValueError
      else Return {| base_url := rstrip "/"%char url;
                     token := token;
                     timeout := timeout;
                     insecure_skip_verify := insecure_skip_verify;
                     user_agent := user_agent |}
  end.
End Config.

(** ** [operations.ProgressReader] *)

(** A value together with the equation that says where it comes from. *)
Definition inspect {A} (a : A) : {b : A | a = b} := exist _ a eq_refl.

(** [stream.read(size)] on a binary stream holding [stream]: the bytes read
    and the bytes left. A negative [size] reads to the end. *)
Definition stream_read (size : Z) (stream : list Byte.byte)
  : list Byte.byte * list Byte.byte :=
  if Z.ltb size 0 then (stream, [])
  else (firstn (Z.to_nat size) stream, skipn (Z.to_nat size) stream).

Module ProgressReader.
(** [data] holds what the wrapped stream has left. The callback is the
    caller's: a method returns the values it called it with. *)
Record t : Type := {
  data : list Byte.byte;
  total_size : Z;
  bytes_read : Z
}.

Definition init (data : list Byte.byte) (total_size : Z) : t :=
  {| data := data; total_size := total_size; bytes_read := 0 |}.

Definition read (size : Z) (self : t) : list Byte.byte * t * list Z :=
  let '(chunk, rest) := stream_read size (data self) in
  match chunk with
  | [] =>
      (chunk,
       {| data := rest; total_size := total_size self;
          bytes_read := bytes_read self |},
       [])
  | _ :: _ =>
      let bytes_read' := bytes_read self + Z.of_nat (List.length chunk) in
      (chunk,
       {| data := rest; total_size := total_size self;
          bytes_read := bytes_read' |},
       [bytes_read'])
  end.

(** The size [__next__] reads with. *)
Definition block_size : Z := 8192.

(** [__next__]: [None] is [StopIteration]. *)
Definition next (self : t) : option (list Byte.byte) * t * list Z :=
  let '(chunk, self', calls) := read block_size self in
  match chunk with
  | [] => (None, self', calls)
  | _ :: _ => (Some chunk, self', calls)
  end.

(** [for chunk in self]: the chunks, the reader at the end and the values
    the callback was called with. The loop ends because a chunk that is not
    empty leaves the stream shorter. *)
#[local] Opaque block_size.
Equations? iterate (self : t) : list (list Byte.byte) * t * list Z
  by wf (List.length (data self)) lt :=
  iterate self with inspect (next self) := {
    | exist _ (None, self', calls) _ := ([], self', calls);
    | exist _ (Some chunk, self', calls) Hnext :=
        let '(chunks, final, calls') := iterate self' in
        (chunk :: chunks, final, (calls ++ calls')%list) }.
Proof.
  revert Hnext. unfold next, read, stream_read.
  destruct (Z.ltb block_size 0).
  - destruct (data self) as [|b rest]; [discriminate|].
    intros [= _ <- _]. cbn [data List.length]. lia.
  - destruct (Z.to_nat block_size) as [|n];
      destruct (data self) as [|b rest]; cbn [firstn skipn]; try discriminate.
    intros [= _ <- _]. cbn [data List.length]. rewrite length_skipn. lia.
Qed.
#[local] Transparent block_size.

(** What a session can do with a body that is a [ProgressReader]: call
    [read(size)], call [next] on it, or loop over it to its end. *)
Inductive access : Type :=
  | Read (size : Z)
  | Next
  | Loop.

(** The reader after the accesses of [how], one after the other: the chunks
    handed out, the reader at the end and the values the callback was called
    with. *)
Fixpoint accesses (how : list access) (self : t)
  : list (list Byte.byte) * t * list Z :=
  match how with
  | [] => ([], self, [])
  | a :: rest =>
      let '(chunks, self', calls) :=
        match a with
        | Read size =>
            let '(chunk, self', calls) := read size self in
            ([chunk], self', calls)
        | Next =>
            let '(chunk, self', calls) := next self in
            (match chunk with Some chunk => [chunk] | None => [] end, self', calls)
        | Loop => iterate self
        end in
      let '(chunks', final, calls') := accesses rest self' in
      ((chunks ++ chunks')%list, final, (calls ++ calls')%list)
  end.
End ProgressReader.

(** ** The session and the effects of a call *)

(** The keyword arguments [Client._request] passes on to
    [session.request]; [None] is a keyword that is not passed. [kw_data] is
    the bytes the stream given as [data] holds; [kw_data_reader] is
    [Some total_size] when [data] is that stream inside a [ProgressReader]
    made with [total_size] and the caller's callback, and [None] when it is
    the stream itself. *)
Record Kwargs : Type := {
  kw_headers : option (list (string * string));
  kw_params : option (list (string * json));
  kw_data : option (list Byte.byte);
  kw_data_reader : option Z;
  kw_json : option json;
  kw_stream : option bool;
  kw_timeout : option Z
}.

Definition no_kwargs : Kwargs :=
  {| kw_headers := None; kw_params := None; kw_data := None;
     kw_data_reader := None;
     kw_json := None; kw_stream := None; kw_timeout := None |}.

(** One call [session.request(method, url, **kwargs)]. *)
Record Request : Type := {
  method : string;
  url : string;
  kwargs : Kwargs
}.

(** What lies outside the client: the session's answer to a request, given
    the requests sent before it; how the session reads the body of that
    request before it answers or raises, when the body is a
    [ProgressReader] (not at all, in part or to the end, with calls and
    sizes of its own); and the clock, read by [datetime.now()]. *)
Record World : Type := {
  session_request : list Request -> Request -> result Response;
  session_reads : list Request -> Request -> list ProgressReader.access;
  clock : nat -> datetime
}.

(** What a call has done so far: the requests it sent, how often it read the
    clock, the values it called the progress callback with, and the bytes it
    wrote to the caller's writer. *)
Record Effects : Type := {
  sent : list Request;
  ticks : nat;
  progress : list Z;
  written : list Byte.byte
}.

Definition no_effects : Effects :=
  {| sent := []; ticks := 0%nat; progress := []; written := [] |}.

(** A method of the client: it runs in a world, adds to the effects and
    returns or raises. An exception ends the method; the effects stay. *)
Definition IO (A : Type) : Type := World -> Effects -> Effects * result A.

#[global] Instance IO_ret : MRet IO := fun A v _ s => (s, Return v).
#[global] Instance IO_bind : MBind IO := fun A B k m w s =>
  match m w s with
  | (s', Return v) => k v w s'
  | (s', Raise e) => (s', Raise e)
  end.

Definition lift {A} (r : result A) : IO A := fun _ s => (s, r).

(** The values the caller's callback is called with while the session reads
    the body of [request]: a [ProgressReader] calls it in each [read] that
    hands out bytes. *)
Definition body_calls (w : World) (history : list Request) (request : Request)
  : list Z :=
  match kw_data (kwargs request), kw_data_reader (kwargs request) with
  | Some data, Some total_size =>
      snd (ProgressReader.accesses (session_reads w history request)
             (ProgressReader.init data total_size))
  | _, _ => []
  end.

(** [session.request(method, url, **kwargs)]. *)
Definition send (request : Request) : IO Response := fun w s =>
  ({| sent := sent s ++ [request]; ticks := ticks s;
      progress := match kw_data_reader (kwargs request) with
                  | Some _ => progress s ++ body_calls w (sent s) request
                  | None => progress s
                  end;
      written := written s |},
   session_request w (sent s) request).

(** [datetime.now()]. *)
Definition datetime_now : IO datetime := fun w s =>
  ({| sent := sent s; ticks := S (ticks s);
      progress := progress s; written := written s |},
   Return (clock w (ticks s))).

(** The caller's progress callback, called once with each value of [values]. *)
Definition report (values : list Z) : IO unit := fun _ s =>
  ({| sent := sent s; ticks := ticks s;
      progress := progress s ++ values; written := written s |},
   Return tt).

(** [writer.write(chunk)]. *)
Definition writer_write (chunk : list Byte.byte) : IO unit := fun _ s =>
  ({| sent := sent s; ticks := ticks s;
      progress := progress s; written := written s ++ chunk |},
   Return tt).

(** ** [client.Client] *)

Module Client.
Record t : Type := {
  config : Config.t;
  session_headers : list (string * string)
}.

Section WithLibrary.
Context `{Library}.

(** [Client.__init__]: the session's headers. *)
Definition init (config : Config.t) : t :=
  let headers := ci_update [("User-Agent", Config.user_agent config)]
                           session_default_headers in
  let headers :=
    match Config.token config with
    | Some token =>
        if String.eqb token "" then headers
        else ci_update [("Authorization", "Bearer " +:+ token)] headers
    | None => headers
    end in
  {| config := config; session_headers := headers |}.

(** [Client.set_token]: the client after the call. *)
Definition set_token (self : t) (token : string) : t :=
  {| config := {| Config.base_url := Config.base_url (config self);
                  Config.token := Some token;
                  Config.timeout := Config.timeout (config self);
                  Config.insecure_skip_verify :=
                    Config.insecure_skip_verify (config self);
                  Config.user_agent := Config.user_agent (config self) |};
     session_headers :=
       ci_update [("Authorization", "Bearer " +:+ token)] (session_headers self) |}.

Definition _url (self : t) (path : string) : string :=
  urljoin (Config.base_url (config self)) (lstrip "/"%char path).

(** [Client._request(method, url, headers=None, **kwargs)]. A dict of
    headers is the list of its items; an empty one is falsy. *)
Definition _request (self : t) (method url : string)
    (headers : option (list (string * string))) (kwargs : Kwargs)
  : IO Response :=
  let kw_headers' :=
    match headers with
    | Some (item :: items) =>
        let request_headers := session_headers self in
        Some (ci_update (item :: items) request_headers)
    | _ => None
    end in
  let kw_timeout' :=
    match kw_timeout kwargs with
    | Some t => Some t
    | None => Some (Config.timeout (config self))
    end in
  response ← send {| method := method; url := url;
                     kwargs := {| kw_headers := kw_headers';
                                  kw_params := kw_params kwargs;
                                  kw_data := kw_data kwargs;
                                  kw_data_reader := kw_data_reader kwargs;
                                  kw_json := kw_json kwargs;
                                  kw_stream := kw_stream kwargs;
                                  kw_timeout := kw_timeout' |} |};
  lift (raise_for_status response);;
  mret response.
End WithLibrary.
End Client.

(** ** [operations.Operations] *)

Module Operations.
Section WithLibrary.
Context `{Library}.

(** The loop of [upload] and of [initiate_multipart_upload] over
    [metadata.items()], on the items of [headers]. *)
Definition add_metadata (metadata headers : list (string * string))
  : list (string * string) :=
  fold_left (fun headers kv => dict_set ("X-Amz-Meta-" +:+ fst kv) (snd kv) headers)
            metadata headers.

(** The headers [upload] builds. [metadata] is the list of the items of the
    dict, [None] for Python's None; an empty dict is falsy. *)
Definition upload_headers (content_type : string)
    (metadata : option (list (string * string))) : list (string * string) :=
  let headers := [("Content-Type", content_type)] in
  match metadata with
  | Some (item :: items) => add_metadata (item :: items) headers
  | _ => headers
  end.

(** [upload]. [data] is what the caller's stream holds; [progress_callback]
    says whether the caller gave one. With a callback the session is given
    the stream inside a [ProgressReader]: nothing is read or reported before
    the session reads it. *)
Definition upload (client : Client.t) (bucket key : string)
    (data : list Byte.byte) (size : Z) (content_type : string)
    (metadata : option (list (string * string))) (progress_callback : bool)
  : IO unit :=
  let url := Client._url client ("/s3/" +:+ bucket +:+ "/" +:+ key) in
  let headers := upload_headers content_type metadata in
  let reader := if progress_callback then Some size else None in
  Client._request client "PUT" url (Some headers)
    {| kw_headers := None; kw_params := None; kw_data := Some data;
       kw_data_reader := reader; kw_json := None; kw_stream := None;
       kw_timeout := None |};;
  mret tt.

(** [int(response.headers.get("Content-Length", 0))]. *)
Definition content_length (response : Response) : result Z :=
  match ci_lookup "Content-Length" (headers response) with
  | Some s => or_ValueError (int_of_str s)
  | None => Return 0
  end.

(** The loop of [download] over [response.iter_content]; returns
    [bytes_transferred]. *)
Fixpoint download_loop (progress_callback : bool) (chunks : list (list Byte.byte))
    (bytes_transferred : Z) : IO Z :=
  match chunks with
  | [] => mret bytes_transferred
  | chunk :: rest =>
      match chunk with
      | [] => download_loop progress_callback rest bytes_transferred
      | _ :: _ =>
          writer_write chunk;;
          let bytes_transferred := bytes_transferred + Z.of_nat (List.length chunk) in
          (if progress_callback then report [bytes_transferred] else mret tt);;
          download_loop progress_callback rest bytes_transferred
      end
  end.

Definition download (client : Client.t) (bucket key : string)
    (byte_range : option string) (progress_callback : bool) : IO unit :=
  let url := Client._url client ("/s3/" +:+ bucket +:+ "/" +:+ key) in
  let headers :=
    match byte_range with
    | Some r => if String.eqb r "" then [] else [("Range", r)]
    | None => []
    end in
  response ← Client._request client "GET" url (Some headers)
    {| kw_headers := None; kw_params := None; kw_data := None;
     kw_data_reader := None;
       kw_json := None; kw_stream := Some true; kw_timeout := None |};
  total_size ← lift (content_length response);
  download_loop progress_callback (chunks response) 0;;
  mret tt.

(** The loop of [get_object_metadata] over [response.headers.items()]. *)
Definition extract_metadata (items : list (string * string)) : list (string * string) :=
  fold_left
    (fun metadata item =>
       let '(header_name, header_value) := item in
       if startswith "x-amz-meta-" (lower header_name)
       then dict_set (slice_from 11 header_name) header_value metadata
       else metadata)
    items [].

Definition get_object_metadata (client : Client.t) (bucket key : string)
  : IO Object.t :=
  let url := Client._url client ("/s3/" +:+ bucket +:+ "/" +:+ key) in
  response ← Client._request client "HEAD" url None no_kwargs;
  let metadata := extract_metadata (headers response) in
  size ← lift (content_length response);
  let last_modified_str := ci_get "Last-Modified" "" (headers response) in
  last_modified ←
    (if String.eqb last_modified_str "" then datetime_now
     else lift (or_ValueError
                  (strptime last_modified_str "%a, %d %b %Y %H:%M:%S %Z")));
  mret {| Object.key := JStr key;
          Object.size := JNum size;
          Object.last_modified := last_modified;
          Object.etag := JStr (strip "034"%char (ci_get "ETag" "" (headers response)));
          Object.content_type := JStr (ci_get "Content-Type" "" (headers response));
          Object.metadata := metadata |}.

(** One turn of the loop of [list_objects]: the [Object] of an entry of
    [contents]. *)
Definition object_of (obj : json) : IO Object.t :=
  key ← lift (json_item "key" obj);
  size ← lift (json_get "size" (JNum 0) obj);
  given ← lift (json_get "lastModified" JNull obj);
  last_modified ←
    (if truthy given
     then s ← lift (v ← json_get "lastModified" (JStr "") obj; json_replace_Z v);
          lift (or_ValueError (fromisoformat s))
     else datetime_now);
  etag ← lift (json_get "etag" (JStr "") obj);
  content_type ← lift (json_get "contentType" (JStr "") obj);
  mret {| Object.key := key;
          Object.size := size;
          Object.last_modified := last_modified;
          Object.etag := etag;
          Object.content_type := content_type;
          Object.metadata := [] |}.

(** The query parameters of [list_objects]. *)
Definition list_objects_params (prefix : string) (max_keys : Z)
  : list (string * json) :=
  let params := [] in
  let params := if String.eqb prefix "" then params
                else dict_set "prefix" (JStr prefix) params in
  let params := if Z.eqb max_keys 0 then params
                else dict_set "max-keys" (JNum max_keys) params in
  params.

Definition list_objects (client : Client.t) (bucket prefix : string) (max_keys : Z)
  : IO ListObjectsResult.t :=
  let url := Client._url client ("/s3/" +:+ bucket) in
  let params := list_objects_params prefix max_keys in
  response ← Client._request client "GET" url None
    {| kw_headers := None; kw_params := Some params; kw_data := None;
       kw_data_reader := None;
       kw_json := None; kw_stream := None; kw_timeout := None |};
  data ← lift (response_json response);
  contents ← lift (v ← json_get "contents" (JArr []) data; json_iter v);
  objects ← mapM object_of contents;
  prefix' ← lift (json_get "prefix" (JStr "") data);
  max_keys' ← lift (json_get "maxKeys" (JNum 1000) data);
  is_truncated ← lift (json_get "isTruncated" (JBool false) data);
  mret {| ListObjectsResult.objects := objects;
          ListObjectsResult.prefix := prefix';
          ListObjectsResult.max_keys := max_keys';
          ListObjectsResult.is_truncated := is_truncated |}.

(** [upload_part]. [data] is what the caller's stream holds. *)
Definition upload_part (client : Client.t) (bucket key upload_id : string)
    (part_number : Z) (data : list Byte.byte) (size : Z) : IO string :=
  let url := Client._url client ("/s3/" +:+ bucket +:+ "/" +:+ key) in
  let params := [("uploadId", JStr upload_id); ("partNumber", JNum part_number)] in
  response ← Client._request client "PUT" url None
    {| kw_headers := None; kw_params := Some params; kw_data := Some data;
       kw_data_reader := None;
       kw_json := None; kw_stream := None; kw_timeout := None |};
  mret (strip "034"%char (ci_get "ETag" "" (headers response))).

(** The body of [complete_multipart_upload]. *)
Definition parts_data (parts : list CompletedPart.t) : json :=
  JObj [("parts",
         JArr (map (fun p => JObj [("partNumber", JNum (CompletedPart.part_number p));
                                   ("etag", JStr (CompletedPart.etag p))])
                   parts))].

Definition complete_multipart_upload (client : Client.t)
    (bucket key upload_id : string) (parts : list CompletedPart.t) : IO unit :=
  let url := Client._url client ("/s3/" +:+ bucket +:+ "/" +:+ key) in
  let params := [("uploadId", JStr upload_id)] in
  Client._request client "POST" url None
    {| kw_headers := None; kw_params := Some params; kw_data := None;
       kw_data_reader := None;
       kw_json := Some (parts_data parts); kw_stream := None;
       kw_timeout := None |};;
  mret tt.

Definition create_bucket (client : Client.t) (bucket : string) : IO unit :=
  let url := Client._url client ("/s3/" +:+ bucket) in
  Client._request client "PUT" url None no_kwargs;;
  mret tt.

Definition delete_bucket (client : Client.t) (bucket : string) : IO unit :=
  let url := Client._url client ("/s3/" +:+ bucket) in
  Client._request client "DELETE" url None no_kwargs;;
  mret tt.

(** The [Bucket(...)] expression of [list_buckets]. *)
Definition bucket_of (b : json) : result Bucket.t :=
  name ← json_item "name" b;
  creation_date ← (x ← json_item "creationDate" b;
                   s ← json_replace_Z x;
                   or_ValueError (fromisoformat s));
  mret {| Bucket.name := name; Bucket.creation_date := creation_date |}.

Definition list_buckets (client : Client.t) : IO ListBucketsResult.t :=
  let url := Client._url client "/s3" in
  response ← Client._request client "GET" url None no_kwargs;
  data ← lift (response_json response);
  entries ← lift (v ← json_get "buckets" (JArr []) data; json_iter v);
  buckets ← lift (mapM bucket_of entries);
  mret {| ListBucketsResult.buckets := buckets |}.

Definition delete_object (client : Client.t) (bucket key : string) : IO unit :=
  let url := Client._url client ("/s3/" +:+ bucket +:+ "/" +:+ key) in
  Client._request client "DELETE" url None no_kwargs;;
  mret tt.

Definition copy_object (client : Client.t)
    (source_bucket source_key dest_bucket dest_key : string) : IO unit :=
  let url := Client._url client ("/s3/" +:+ dest_bucket +:+ "/" +:+ dest_key) in
  let headers :=
    [("X-Amz-Copy-Source", "/" +:+ source_bucket +:+ "/" +:+ source_key)] in
  Client._request client "PUT" url (Some headers) no_kwargs;;
  mret tt.

(** [initiate_multipart_upload]; the headers are those of [upload]. *)
Definition initiate_multipart_upload (client : Client.t) (bucket key : string)
    (content_type : string) (metadata : option (list (string * string)))
  : IO MultipartUpload.t :=
  let url := Client._url client ("/s3/" +:+ bucket +:+ "/" +:+ key) in
  let headers := upload_headers content_type metadata in
  response ← Client._request client "POST" url (Some headers)
    {| kw_headers := None; kw_params := Some [("uploads", JStr "")];
       kw_data := None; kw_data_reader := None; kw_json := None;
       kw_stream := None;
       kw_timeout := None |};
  data ← lift (response_json response);
  upload_id ← lift (json_item "uploadId" data);
  mret {| MultipartUpload.upload_id := upload_id;
          MultipartUpload.bucket := bucket;
          MultipartUpload.key := key |}.

Definition abort_multipart_upload (client : Client.t)
    (bucket key upload_id : string) : IO unit :=
  let url := Client._url client ("/s3/" +:+ bucket +:+ "/" +:+ key) in
  let params := [("uploadId", JStr upload_id)] in
  Client._request client "DELETE" url None
    {| kw_headers := None; kw_params := Some params; kw_data := None;
       kw_data_reader := None;
       kw_json := None; kw_stream := None; kw_timeout := None |};;
  mret tt.

End WithLibrary.
End Operations.

(** ** [supplychain.SupplyChain] *)

Module SupplyChain.
Section WithLibrary.
Context `{Library}.

(** [datetime.fromisoformat(x.replace("Z", "+00:00"))]. *)
Definition timestamp_of (x : json) : result datetime :=
  s ← json_replace_Z x;
  or_ValueError (fromisoformat s).

(** The [Signature(...)] expression of [sign_artifact], [get_signatures] and
    [verify_signatures]; the arguments are evaluated in the order written. *)
Definition signature_of (sig : json) : result Signature.t :=
  id ← json_item "id" sig;
  artifact_digest ← json_item "artifactDigest" sig;
  signature ← json_item "signature" sig;
  algorithm ← json_item "algorithm" sig;
  signed_by ← json_item "signedBy" sig;
  timestamp ← (x ← json_item "timestamp" sig; timestamp_of x);
  mret {| Signature.id := id;
          Signature.artifact_digest := artifact_digest;
          Signature.signature := signature;
          Signature.algorithm := algorithm;
          Signature.signed_by := signed_by;
          Signature.timestamp := timestamp |}.

(** The [SBOM(...)] expression of [attach_sbom] and [get_sbom]. *)
Definition sbom_of (data : json) : result SBOM.t :=
  id ← json_item "id" data;
  artifact_digest ← json_item "artifactDigest" data;
  format ← json_item "format" data;
  content ← json_item "content" data;
  timestamp ← (x ← json_item "timestamp" data; timestamp_of x);
  mret {| SBOM.id := id;
          SBOM.artifact_digest := artifact_digest;
          SBOM.format := format;
          SBOM.content := content;
          SBOM.timestamp := timestamp |}.

(** The [Attestation(...)] expression of [add_attestation] and
    [get_attestations]. *)
Definition attestation_of (att : json) : result Attestation.t :=
  id ← json_item "id" att;
  artifact_digest ← json_item "artifactDigest" att;
  type ← json_item "type" att;
  data ← json_item "data" att;
  timestamp ← (x ← json_item "timestamp" att; timestamp_of x);
  mret {| Attestation.id := id;
          Attestation.artifact_digest := artifact_digest;
          Attestation.type := type;
          Attestation.data := data;
          Attestation.timestamp := timestamp |}.

Definition json_kwargs (payload : json) : Kwargs :=
  {| kw_headers := None; kw_params := None; kw_data := None;
     kw_data_reader := None;
     kw_json := Some payload; kw_stream := None; kw_timeout := None |}.

Definition sign_artifact (client : Client.t) (bucket key private_key : string)
  : IO Signature.t :=
  let url := Client._url client ("/supplychain/sign/" +:+ bucket +:+ "/" +:+ key) in
  let payload := JObj [("privateKey", JStr private_key)] in
  response ← Client._request client "POST" url None (json_kwargs payload);
  data ← lift (response_json response);
  lift (signature_of data).

Definition get_signatures (client : Client.t) (bucket key : string)
  : IO (list Signature.t) :=
  let url := Client._url client ("/supplychain/signatures/" +:+ bucket +:+ "/" +:+ key) in
  response ← Client._request client "GET" url None no_kwargs;
  data ← lift (response_json response);
  sigs ← lift (v ← json_get "signatures" (JArr []) data; json_iter v);
  lift (mapM signature_of sigs).

Definition verify_signatures (client : Client.t) (bucket key : string)
    (public_keys : list string) : IO VerificationResult.t :=
  let url := Client._url client ("/supplychain/verify/" +:+ bucket +:+ "/" +:+ key) in
  let payload := JObj [("publicKeys", JArr (map JStr public_keys))] in
  response ← Client._request client "POST" url None (json_kwargs payload);
  data ← lift (response_json response);
  sigs ← lift (v ← json_get "signatures" (JArr []) data; json_iter v);
  signatures ← lift (mapM signature_of sigs);
  valid ← lift (json_item "valid" data);
  message ← lift (json_item "message" data);
  mret {| VerificationResult.valid := valid;
          VerificationResult.message := message;
          VerificationResult.signatures := signatures |}.

Definition attach_sbom (client : Client.t) (bucket key format content : string)
  : IO SBOM.t :=
  let url := Client._url client ("/supplychain/sbom/" +:+ bucket +:+ "/" +:+ key) in
  let payload := JObj [("format", JStr format); ("content", JStr content)] in
  response ← Client._request client "POST" url None (json_kwargs payload);
  data ← lift (response_json response);
  lift (sbom_of data).

Definition get_sbom (client : Client.t) (bucket key : string) : IO SBOM.t :=
  let url := Client._url client ("/supplychain/sbom/" +:+ bucket +:+ "/" +:+ key) in
  response ← Client._request client "GET" url None no_kwargs;
  data ← lift (response_json response);
  lift (sbom_of data).

Definition add_attestation (client : Client.t) (bucket key attestation_type : string)
    (data : json) : IO Attestation.t :=
  let url := Client._url client ("/supplychain/attestations/" +:+ bucket +:+ "/" +:+ key) in
  let payload := JObj [("type", JStr attestation_type); ("data", data)] in
  response ← Client._request client "POST" url None (json_kwargs payload);
  resp_data ← lift (response_json response);
  lift (attestation_of resp_data).

Definition get_attestations (client : Client.t) (bucket key : string)
  : IO (list Attestation.t) :=
  let url := Client._url client ("/supplychain/attestations/" +:+ bucket +:+ "/" +:+ key) in
  response ← Client._request client "GET" url None no_kwargs;
  resp_data ← lift (response_json response);
  atts ← lift (v ← json_get "attestations" (JArr []) resp_data; json_iter v);
  lift (mapM attestation_of atts).

End WithLibrary.
End SupplyChain.

(** ** A reference library

    One behaviour of the library functions, for running the operations on
    concrete inputs: the parsers accept the canonical spelling of their
    format and nothing else, which is less than Python's accept. *)

Definition digit_of (c : ascii) : option Z :=
  let n := N_of_ascii c in
  if ((48 <=? n) && (n <=? 57))%N then Some (Z.of_N n - 48) else None.

Fixpoint digits_of (acc : Z) (s : string) : option Z :=
  match s with
  | EmptyString => Some acc
  | String c rest =>
      match digit_of c with
      | Some d => digits_of (10 * acc + d) rest
      | None => None
      end
  end.

(** A string of one or more decimal digits. *)
Definition number_of (s : string) : option Z :=
  match s with
  | EmptyString => None
  | _ => digits_of 0 s
  end.

Fixpoint index_of (x : string) (l : list string) (i : Z) : option Z :=
  match l with
  | [] => None
  | y :: rest => if String.eqb x y then Some i else index_of x rest (i + 1)
  end.

Definition in_range (lo hi : Z) (o : option Z) : option Z :=
  match o with
  | Some v => if Z.leb lo v && Z.leb v hi then Some v else None
  | None => None
  end.

(** [Www, DD Mon YYYY HH:MM:SS GMT] for the format
    ["%a, %d %b %Y %H:%M:%S %Z"]; the result is naive. *)
Definition strptime_rfc1123 (s format : string) : option datetime :=
  if negb (String.eqb format "%a, %d %b %Y %H:%M:%S %Z") then None
  else if negb (Nat.eqb (String.length s) 29) then None
  else
    _ ← index_of (substring 0 3 s) ["Mon"; "Tue"; "Wed"; "Thu"; "Fri"; "Sat"; "Sun"] 0;
    day ← in_range 1 31 (number_of (substring 5 2 s));
    month ← index_of (substring 8 3 s)
              ["Jan"; "Feb"; "Mar"; "Apr"; "May"; "Jun";
               "Jul"; "Aug"; "Sep"; "Oct"; "Nov"; "Dec"] 1;
    year ← number_of (substring 12 4 s);
    hour ← in_range 0 23 (number_of (substring 17 2 s));
    minute ← in_range 0 59 (number_of (substring 20 2 s));
    second ← in_range 0 59 (number_of (substring 23 2 s));
    if String.eqb (substring 3 2 s) ", " && String.eqb (substring 7 1 s) " "
       && String.eqb (substring 11 1 s) " " && String.eqb (substring 16 1 s) " "
       && String.eqb (substring 19 1 s) ":" && String.eqb (substring 22 1 s) ":"
       && String.eqb (substring 25 4 s) " GMT"
    then Some {| year := year; month := month; day := day; hour := hour;
                 minute := minute; second := second; utcoffset := None |}
    else None.

(** [YYYY-MM-DDTHH:MM:SS+00:00]; the result is aware, at offset 0. *)
Definition fromisoformat_utc (s : string) : option datetime :=
  if negb (Nat.eqb (String.length s) 25) then None
  else
    year ← number_of (substring 0 4 s);
    month ← in_range 1 12 (number_of (substring 5 2 s));
    day ← in_range 1 31 (number_of (substring 8 2 s));
    hour ← in_range 0 23 (number_of (substring 11 2 s));
    minute ← in_range 0 59 (number_of (substring 14 2 s));
    second ← in_range 0 59 (number_of (substring 17 2 s));
    if String.eqb (substring 4 1 s) "-" && String.eqb (substring 7 1 s) "-"
       && String.eqb (substring 10 1 s) "T" && String.eqb (substring 13 1 s) ":"
       && String.eqb (substring 16 1 s) ":" && String.eqb (substring 19 6 s) "+00:00"
    then Some {| year := year; month := month; day := day; hour := hour;
                 minute := minute; second := second; utcoffset := Some 0 |}
    else None.

(** [urljoin] for a base that has no path. *)
Definition urljoin_root (base path : string) : string := base +:+ "/" +:+ path.

Definition reference_library : Library :=
  {| urljoin := urljoin_root;
     int_of_str := number_of;
     strptime := strptime_rfc1123;
     fromisoformat := fromisoformat_utc;
     session_default_headers :=
       [("User-Agent", "python-requests/2.31.0");
        ("Accept-Encoding", "gzip, deflate");
        ("Accept", "*/*");
        ("Connection", "keep-alive")] |}.

(** A world whose server gives one answer to every request, whose session
    reads a body that is a [ProgressReader] by looping over it to its end,
    and whose clock shows the first second of 2024 plus the number of
    earlier readings. *)
Definition world_answering (answer : result Response) : World :=
  {| session_request := fun _ _ => answer;
     session_reads := fun _ _ => [ProgressReader.Loop];
     clock := fun n => {| year := 2024; month := 1; day := 1; hour := 0;
                          minute := 0; second := Z.of_nat n; utcoffset := None |} |}.

(** The client of the tests: [Config(base_url="https://test.example.com",
    token="test-token")]. *)
Definition test_config : Config.t :=
  {| Config.base_url := "https://test.example.com";
     Config.token := Some "test-token";
     Config.timeout := 60;
     Config.insecure_skip_verify := false;
     Config.user_agent := "astore-python/1.0.0" |}.

Definition test_client : Client.t := Client.init (H := reference_library) test_config.

(** * The vocabulary of the properties, and inputs to run the client on *)

(** The table of the specification: status code and error kind. *)
Definition status_kinds : list (Z * error_class) :=
  [(400, BadRequestError); (401, UnauthorizedError); (403, ForbiddenError);
   (404, NotFoundError); (409, ConflictError); (500, InternalServerError);
   (503, ServiceUnavailableError)].

(** [s] between double quotes. *)
Definition quoted (s : string) : string :=
  String "034"%char (s +:+ String "034"%char EmptyString).

(** The 409 of the tests: [{"error": "Bucket already exists"}]. *)
Definition conflict_response : Response :=
  {| status_code := 409; headers := [];
     text := "{" +:+ quoted "error" +:+ ": " +:+ quoted "Bucket already exists" +:+ "}";
     json_body := Some (JObj [("error", JStr "Bucket already exists")]);
     chunks := [] |}.

Definition created_response : Response :=
  {| status_code := 201; headers := []; text := ""; json_body := None;
     chunks := [] |}.

Fixpoint total (sizes : list Z) : Z :=
  match sizes with
  | [] => 0
  | x :: rest => x + total rest
  end.

(** The running totals of [sizes], counted from [start]. *)
Fixpoint totals (start : Z) (sizes : list Z) : list Z :=
  match sizes with
  | [] => []
  | x :: rest => (start + x) :: totals (start + x) rest
  end.

Definition size_of (chunk : list Byte.byte) : Z := Z.of_nat (List.length chunk).

(** The words of the specification. [sizes] are the sizes of the units of
    data transferred, in order; [calls] the values the callback was called
    with, in order. *)

(** One call per unit, each with the total transferred so far. *)
Definition cumulative (sizes calls : list Z) : Prop :=
  List.length calls = List.length sizes
  /\ forall (i : nat) v, calls !! i = Some v -> v = total (take (S i) sizes).

Definition non_decreasing (calls : list Z) : Prop :=
  forall (i j : nat) a b,
    (i <= j)%nat -> calls !! i = Some a -> calls !! j = Some b -> a <= b.

(** The last call, if there is one, has the value [n]; there is none only
    when [n] is 0. *)
Definition ends_at (n : Z) (calls : list Z) : Prop :=
  (calls = [] /\ n = 0) \/ last calls = Some n.

Definition non_empty (chunk : list Byte.byte) : bool :=
  match chunk with
  | [] => false
  | _ :: _ => true
  end.

(** Between [self] and [final] the reader handed out [units], the next
    bytes of its stream, and called the callback with [calls]: the running
    total of the bytes read so far, once for each unit that is not empty. *)
Definition hands_out (self : ProgressReader.t) (units : list (list Byte.byte))
    (final : ProgressReader.t) (calls : list Z) : Prop :=
  ProgressReader.data self = (concat units ++ ProgressReader.data final)%list
  /\ ProgressReader.total_size final = ProgressReader.total_size self
  /\ ProgressReader.bytes_read final
     = ProgressReader.bytes_read self + size_of (concat units)
  /\ calls = totals (ProgressReader.bytes_read self)
                    (map size_of (List.filter non_empty units)).

(** A session that reads a body in two calls of [read(4)] and then fails:
    the connection breaks in the middle of an upload. *)
Definition world_breaking : World :=
  {| session_request := fun _ _ => Raise TransportError;
     session_reads := fun _ _ => [ProgressReader.Read 4; ProgressReader.Read 4];
     clock := fun n => {| year := 2024; month := 1; day := 1; hour := 0;
                          minute := 0; second := Z.of_nat n; utcoffset := None |} |}.

Definition add_sent (request : Request) (s : Effects) : Effects :=
  {| sent := sent s ++ [request]; ticks := ticks s;
     progress := progress s; written := written s |}.

(** The effects after the session was given [request]: the request is sent,
    and the callback was called as the session read a body that is a
    [ProgressReader]. *)
Definition after_send (w : World) (request : Request) (s : Effects) : Effects :=
  {| sent := sent s ++ [request]; ticks := ticks s;
     progress := match kw_data_reader (kwargs request) with
                 | Some _ => progress s ++ body_calls w (sent s) request
                 | None => progress s
                 end;
     written := written s |}.

(** The session answers the next request, whatever it is, with [response]. *)
Definition answers (w : World) (s : Effects) (response : Response) : Prop :=
  forall request, session_request w (sent s) request = Return response.

Definition teapot_response (body : string) : Response :=
  {| status_code := 418; headers := []; text := body; json_body := None;
     chunks := [] |}.

Definition download_response : Response :=
  {| status_code := 200;
     headers := [("Content-Length", "15")];
     text := "downloaded data";
     json_body := None;
     chunks := [list_byte_of_string "downloaded data"] |}.

(** The header named [name], whatever the case of its letters. *)
Definition same_name (name : string) (item : string * string) : bool :=
  String.eqb (lower (fst item)) (lower name).

Definition ci_mem (name : string) (items : list (string * string)) : bool :=
  existsb (same_name name) items.

(** No two items have the same name up to case: what a dict of
    case-insensitive names keeps true of its items. *)
Fixpoint ci_distinct (items : list (string * string)) : bool :=
  match items with
  | [] => true
  | item :: rest => negb (ci_mem (fst item) rest) && ci_distinct rest
  end.

(** The header [upload] makes of a metadata entry. *)
Definition meta_header (entry : string * string) : string * string :=
  ("X-Amz-Meta-" +:+ fst entry, snd entry).

(** The HEAD response of the tests. *)
Definition head_response : Response :=
  {| status_code := 200;
     headers := [("Content-Length", "1024");
                 ("Content-Type", "application/gzip");
                 ("ETag", quoted "abc123");
                 ("Last-Modified", "Mon, 15 Jan 2024 10:30:00 GMT");
                 ("X-Amz-Meta-version", "1.0.0")];
     text := EmptyString;
     json_body := None;
     chunks := [] |}.

(** A HEAD response whose [Last-Modified] is [value]. *)
Definition head_response_dated (value : string) : Response :=
  {| status_code := 200;
     headers := [("Content-Length", "1024"); ("Last-Modified", value)];
     text := EmptyString;
     json_body := None;
     chunks := [] |}.

(** The kinds of failure of the specification. *)
Definition is_status_error (e : exception) : bool :=
  match e with
  | StoreError _ _ _ => true
  | _ => false
  end.

Definition is_transport_error (e : exception) : bool :=
  match e with
  | TransportError => true
  | _ => false
  end.

(** A decoded object without the field [timestamp]. *)
Definition lacks_timestamp (v : json) : Prop :=
  exists items, v = JObj items /\ dict_lookup "timestamp" items = None.

(** The call raises [KeyError]: a required field is missing. *)
Definition missing_field {A} (r : result A) : Prop :=
  exists key, r = Raise (KeyError key).

Definition decodes {A} (f : json -> result A) (v : json) : Prop :=
  exists x, f v = Return x.

(** An SBOM and a list of signatures as in the tests, with a [timestamp]
    left out. *)
Definition sbom_without_timestamp : json :=
  JObj [("id", JStr "sbom-123");
        ("artifactDigest", JStr "sha256:abc123");
        ("format", JStr "spdx");
        ("content", JStr "{}")].

Definition signed (id : string) (rest : list (string * json)) : json :=
  JObj ([("id", JStr id);
         ("artifactDigest", JStr "sha256:abc123");
         ("signature", JStr "base64-signature");
         ("algorithm", JStr "RSA-SHA256");
         ("signedBy", JStr "test-user")] ++ rest).

Definition signatures_without_timestamp : list (string * json) :=
  [("signatures",
    JArr ([signed "sig-1" [("timestamp", JStr "2024-01-15T10:30:00Z")]]
            ++ signed "sig-2" [] :: []))].

Definition json_response (body : json) : Response :=
  {| status_code := 200; headers := []; text := EmptyString;
     json_body := Some body; chunks := [] |}.

(** The entry of the body for a part. *)
Definition part_entry (p : CompletedPart.t) : json :=
  JObj [("partNumber", JNum (CompletedPart.part_number p));
        ("etag", JStr (CompletedPart.etag p))].

(** Two parts given out of order stay out of order. *)
Definition parts_out_of_order : list CompletedPart.t :=
  [{| CompletedPart.part_number := 7; CompletedPart.etag := "etag-7" |};
   {| CompletedPart.part_number := 2; CompletedPart.etag := "etag-2" |}].

(** The listing of the tests under the prefix [app/]; the second entry has
    no [lastModified]. *)
Definition listing_fields : list (string * json) :=
  [("contents",
    JArr [JObj [("key", JStr "app/file1.txt"); ("size", JNum 1024);
                ("lastModified", JStr "2024-01-15T10:30:00Z");
                ("etag", JStr "abc123")];
          JObj [("key", JStr "app/file2.txt"); ("size", JNum 2048)]]);
   ("prefix", JStr "app/");
   ("maxKeys", JNum 1000);
   ("isTruncated", JBool false)].

(** [n] times the character [c]. *)
Fixpoint repeated (c : ascii) (n : nat) : string :=
  match n with
  | O => EmptyString
  | S m => String c (repeated c m)
  end.

(** The last character of [s] is [c]. *)
Fixpoint ends_with (c : ascii) (s : string) : bool :=
  match s with
  | EmptyString => false
  | String a EmptyString => Ascii.eqb a c
  | String _ rest => ends_with c rest
  end.

(** The first character of [s] is [c]. *)
Definition begins_with (c : ascii) (s : string) : bool :=
  match s with
  | EmptyString => false
  | String a _ => Ascii.eqb a c
  end.

(** The session raises [e] on the next request, whatever it is. *)
Definition fails (w : World) (s : Effects) (e : exception) : Prop :=
  forall request, session_request w (sent s) request = Raise e.

(** The exception [raise_for_status] raises for [response]. *)
Definition status_error (response : Response) : exception :=
  construct (match error_map (status_code response) with
             | Some cls => cls
             | None => ArtifactStoreError
             end)
            (resolve_message response).

(** A world whose session raises [TransportError] on every request, before
    it reads anything of a body. *)
Definition world_unreachable : World :=
  {| session_request := fun _ _ => Raise TransportError;
     session_reads := fun _ _ => [];
     clock := clock (world_answering (Raise TransportError)) |}.

(** A 404 whose body is no JSON. *)
Definition not_found_response : Response :=
  {| status_code := 404; headers := []; text := "no such key";
     json_body := None; chunks := [] |}.

(** The request [_request] makes of its arguments. *)
Definition request_of (client : Client.t) (m u : string)
    (headers : option (list (string * string))) (kw : Kwargs) : Request :=
  {| method := m;
     url := u;
     kwargs :=
       {| kw_headers :=
            match headers with
            | Some (item :: items) =>
                Some (ci_update (item :: items) (Client.session_headers client))
            | _ => None
            end;
          kw_params := kw_params kw;
          kw_data := kw_data kw;
          kw_data_reader := kw_data_reader kw;
          kw_json := kw_json kw;
          kw_stream := kw_stream kw;
          kw_timeout := Some (match kw_timeout kw with
                              | Some t => t
                              | None => Config.timeout (Client.config client)
                              end) |} |}.

(** The next request does not get a response below 400: the session raises
    [e], or it answers with a response of 400 or more whose error is [e]. *)
Definition refused (w : World) (s : Effects) (e : exception) : Prop :=
  fails w s e
  \/ exists response,
       answers w s response /\ 400 <= status_code response
       /\ e = status_error response.

(** The call sends one request and raises [e]. *)
Definition raises {A} (w : World) (s : Effects) (e : exception) (op : IO A) : Prop :=
  snd (op w s) = Raise e
  /\ exists request, sent (fst (op w s)) = (sent s ++ [request])%list.

(** A reader read with the sizes of [sizes], one after the other: the
    chunks, the reader at the end and the values the callback was called
    with. *)
Fixpoint reads (sizes : list Z) (self : ProgressReader.t)
  : list (list Byte.byte) * ProgressReader.t * list Z :=
  match sizes with
  | [] => ([], self, [])
  | size :: rest =>
      let '(chunk, self', calls) := ProgressReader.read size self in
      let '(chunks, final, calls') := reads rest self' in
      (chunk :: chunks, final, (calls ++ calls')%list)
  end.

(** A response whose [Content-Length] is no number. *)
Definition download_response_unsized : Response :=
  {| status_code := 200;
     headers := [("Content-Length", "fifteen")];
     text := "downloaded data";
     json_body := None;
     chunks := [list_byte_of_string "downloaded data"] |}.

(** The effects after one more reading of the clock. *)
Definition tick (s : Effects) : Effects :=
  {| sent := sent s; ticks := S (ticks s); progress := progress s;
     written := written s |}.

(** An entry of [contents] that is an object with a [key] and without a
    [lastModified] that counts: absent, null, empty, 0 or false. *)
Definition undated (entry : json) : Prop :=
  exists items key,
    entry = JObj items
    /\ dict_lookup "key" items = Some key
    /\ truthy (dict_get "lastModified" JNull items) = false.

(** The fields of an [Object] of a listing that come from its entry. *)
Definition entry_fields (entry : json) (object : Object.t) : Prop :=
  json_item "key" entry = Return (Object.key object)
  /\ json_get "size" (JNum 0) entry = Return (Object.size object)
  /\ json_get "etag" (JStr "") entry = Return (Object.etag object)
  /\ json_get "contentType" (JStr "") entry = Return (Object.content_type object)
  /\ Object.metadata object = [].

(** The loop of [list_objects] gets past [entry], whatever came before it. *)
Definition listed `{Library} (w : World) (entry : json) : Prop :=
  forall s, exists s' object, Operations.object_of entry w s = (s', Return object).

(** A listing whose second entry has no [key]. *)
Definition listing_with_a_nameless_entry : list (string * json) :=
  [("contents",
    JArr [JObj [("key", JStr "app/file1.txt"); ("size", JNum 1024)];
          JObj [("size", JNum 2048)];
          JObj [("key", JStr "app/file3.txt")]])].

(** The field [name] of [v] is a string that [fromisoformat] reads as
    [time] once its [Z] are replaced by [+00:00]. *)
Definition dated_by `{Library} (name : string) (v : json) (time : datetime) : Prop :=
  exists text,
    json_item name v = Return (JStr text)
    /\ fromisoformat (replace "Z"%char "+00:00" text) = Some time.

(** The fields of a decoded value and of the response it comes from, under
    their names on the wire. *)
Definition signature_fields `{Library} (v : json) (x : Signature.t) : Prop :=
  json_item "id" v = Return (Signature.id x)
  /\ json_item "artifactDigest" v = Return (Signature.artifact_digest x)
  /\ json_item "signature" v = Return (Signature.signature x)
  /\ json_item "algorithm" v = Return (Signature.algorithm x)
  /\ json_item "signedBy" v = Return (Signature.signed_by x)
  /\ dated_by "timestamp" v (Signature.timestamp x).

Definition sbom_fields `{Library} (v : json) (x : SBOM.t) : Prop :=
  json_item "id" v = Return (SBOM.id x)
  /\ json_item "artifactDigest" v = Return (SBOM.artifact_digest x)
  /\ json_item "format" v = Return (SBOM.format x)
  /\ json_item "content" v = Return (SBOM.content x)
  /\ dated_by "timestamp" v (SBOM.timestamp x).

Definition attestation_fields `{Library} (v : json) (x : Attestation.t) : Prop :=
  json_item "id" v = Return (Attestation.id x)
  /\ json_item "artifactDigest" v = Return (Attestation.artifact_digest x)
  /\ json_item "type" v = Return (Attestation.type x)
  /\ json_item "data" v = Return (Attestation.data x)
  /\ dated_by "timestamp" v (Attestation.timestamp x).

Definition bucket_fields `{Library} (v : json) (x : Bucket.t) : Prop :=
  json_item "name" v = Return (Bucket.name x)
  /\ dated_by "creationDate" v (Bucket.creation_date x).

(** [for x in data.get(name, [])]: the values the loop runs over. *)
Definition listed_under (name : string) (data : json) : result (list json) :=
  v ← json_get name (JArr []) data; json_iter v.

(** [v] has the fields of [names]. *)
Definition has_fields (names : list string) (v : json) : Prop :=
  Forall (fun name => exists x, json_item name v = Return x) names.

(** A value under [timestamp] that no decoder reads, and the exception it
    gives: what is no string has no [replace], and a string that is no date
    is refused by [fromisoformat]. *)
Definition bad_timestamp `{Library} (v : json) (e : exception) : Prop :=
  ((forall text, v <> JStr text) /\ e = AttributeError)
  \/ (exists text,
        v = JStr text
        /\ fromisoformat (replace "Z"%char "+00:00" text) = None
        /\ e = ValueError).

(** A verification as the server answers it: two signatures, in this
    order, and the verdict; and the two signatures decoded. *)
Definition verification_body : json :=
  JObj [("valid", JBool true);
        ("message", JStr "all signatures verified");
        ("signatures",
         JArr [signed "sig-1" [("timestamp", JStr "2024-01-15T10:30:00Z")];
               signed "sig-2" [("timestamp", JStr "2024-01-16T08:00:00Z")]])].

Definition signature_at (id : string) (day hour minute : Z) : Signature.t :=
  {| Signature.id := JStr id;
     Signature.artifact_digest := JStr "sha256:abc123";
     Signature.signature := JStr "base64-signature";
     Signature.algorithm := JStr "RSA-SHA256";
     Signature.signed_by := JStr "test-user";
     Signature.timestamp :=
       {| year := 2024; month := 1; day := day; hour := hour; minute := minute;
          second := 0; utcoffset := Some 0 |} |}.

(** The SBOM of the tests, and the same with a number for its time. *)
Definition sbom_body (timestamp : json) : json :=
  JObj [("id", JStr "sbom-123");
        ("artifactDigest", JStr "sha256:abc123");
        ("format", JStr "spdx");
        ("content", JStr "{}");
        ("timestamp", timestamp)].

(** A list of buckets as in the tests, and one whose second bucket has no
    [creationDate]. *)
Definition bucket_entry (name : string) (rest : list (string * json)) : json :=
  JObj (("name", JStr name) :: rest).

Definition buckets_body : json :=
  JObj [("buckets",
         JArr [bucket_entry "bucket1" [("creationDate", JStr "2024-01-15T10:30:00Z")];
               bucket_entry "bucket2" []])].

(** The call returns nothing after one request with the method [m], and has
    no other effect. *)
Definition done_with (m : string) (w : World) (s : Effects) (op : IO unit) : Prop :=
  snd (op w s) = Return tt
  /\ exists request, fst (op w s) = add_sent request s /\ method request = m.

(** A 204 with nothing in it. *)
Definition no_content_response : Response :=
  {| status_code := 204; headers := []; text := EmptyString;
     json_body := None; chunks := [] |}.

(** * Properties *)

(** ** The string methods on the inputs of the tests *)

Example lower_of_header_name : lower "X-Amz-Meta-Version" = "x-amz-meta-version".
Proof. reflexivity. Qed.

Example rstrip_of_base_url :
  rstrip "/"%char "https://test.example.com//" = "https://test.example.com"
  /\ rstrip "/"%char "///" = EmptyString
  /\ rstrip "/"%char "a/b" = "a/b".
Proof. repeat split. Qed.

Example lstrip_of_path : lstrip "/"%char "/s3/mybucket" = "s3/mybucket".
Proof. reflexivity. Qed.

Example strip_of_etag :
  strip "034"%char (quoted "abc123") = "abc123"
  /\ strip "034"%char (quoted (quoted "abc123")) = "abc123"
  /\ strip "034"%char (quoted EmptyString) = EmptyString.
Proof. repeat split. Qed.

Example replace_of_timestamp :
  replace "Z"%char "+00:00" "2024-01-15T10:30:00Z" = "2024-01-15T10:30:00+00:00".
Proof. reflexivity. Qed.

Example slice_of_header_name : slice_from 11 "X-Amz-Meta-version" = "version".
Proof. reflexivity. Qed.

(** ** Running a method *)

Lemma IO_bind_run {A B} (m : IO A) (k : A -> IO B) w s :
  (m ≫= k) w s
  = match m w s with
    | (s', Return v) => k v w s'
    | (s', Raise e) => (s', Raise e)
    end.
Proof. reflexivity. Qed.

Lemma request_returns `{Library} client m u headers kw w s response :
  kw_data_reader kw = None ->
  answers w s response ->
  status_code response < 400 ->
  exists request,
    Client._request client m u headers kw w s
    = (add_sent request s, Return response).
Proof.
  intros Hplain Hanswer Hok. eexists.
  unfold Client._request, mbind, IO_bind, send. rewrite Hanswer.
  unfold lift, raise_for_status. cbn [kwargs kw_data_reader]. rewrite Hplain.
  destruct (Z.ltb_spec (status_code response) 400); [reflexivity | lia].
Qed.

(** What [_request] hands to the session, whatever the session answers. *)
Lemma request_sends `{Library} client m u headers kw w s :
  exists request,
    sent (fst (Client._request client m u headers kw w s))
    = (sent s ++ [request])%list
    /\ method request = m
    /\ url request = u
    /\ kw_headers (kwargs request)
       = match headers with
         | Some (item :: items) =>
             Some (ci_update (item :: items) (Client.session_headers client))
         | _ => None
         end
    /\ kw_params (kwargs request) = kw_params kw
    /\ kw_data (kwargs request) = kw_data kw
    /\ kw_json (kwargs request) = kw_json kw.
Proof.
  eexists. unfold Client._request. rewrite !IO_bind_run. unfold send, lift.
  destruct (session_request w (sent s) _) as [response|e].
  - destruct (raise_for_status response); cbn; repeat split; reflexivity.
  - cbn. repeat split; reflexivity.
Qed.

Lemma request_keeps_progress `{Library} client m u headers kw w s :
  kw_data_reader kw = None ->
  progress (fst (Client._request client m u headers kw w s)) = progress s
  /\ written (fst (Client._request client m u headers kw w s)) = written s.
Proof.
  intros Hplain.
  unfold Client._request, mbind, IO_bind, send, lift.
  cbn [kwargs kw_data_reader]. rewrite Hplain.
  destruct (session_request w (sent s) _) as [response|e]; [|now split].
  destruct (raise_for_status response); now split.
Qed.

Ltac run_request w s response Hanswer Hok :=
  match goal with
  | |- context [Client._request ?c ?m ?u ?h ?k] =>
      let request := fresh "request" in
      let Hrequest := fresh "Hrequest" in
      destruct (request_returns c m u h k w s response eq_refl Hanswer Hok)
        as [request Hrequest];
      rewrite IO_bind_run, Hrequest
  end.

Ltac run_lift :=
  rewrite IO_bind_run; unfold lift at 1;
  match goal with
  | |- context [match ?r with Return _ => _ | Raise _ => _ end] =>
      destruct r; [|reflexivity]
  end.

(** ** The error mapper *)

Lemma error_map_status_kinds code cls :
  In (code, cls) status_kinds -> error_map code = Some cls.
Proof.
  unfold status_kinds. simpl.
  intros Hin. repeat destruct Hin as [[= <- <-]|Hin]; solve [reflexivity | contradiction].
Qed.

Lemma status_kinds_at_least_400 code cls :
  In (code, cls) status_kinds -> 400 <= code.
Proof.
  unfold status_kinds. simpl.
  intros Hin. repeat destruct Hin as [[= <- <-]|Hin]; solve [lia | contradiction].
Qed.

Lemma resolve_message_error response items message :
  json_body response = Some (JObj items) ->
  dict_lookup "error" items = Some message ->
  resolve_message response = message.
Proof.
  intros Hbody Herr. unfold resolve_message, response_json.
  rewrite Hbody. cbn. unfold dict_get. now rewrite Herr.
Qed.

(** The class a status raises carries the code of that class: the code of
    the response for a status of the table. *)
Lemma construct_status_kinds code cls message :
  In (code, cls) status_kinds ->
  construct cls message = StoreError cls message (Some code).
Proof.
  unfold status_kinds. simpl.
  intros Hin. repeat destruct Hin as [[= <- <-]|Hin]; solve [reflexivity | contradiction].
Qed.

(** C1. A response below 400 makes [raise_for_status] return. A response
    whose status is one of 400, 401, 403, 404, 409, 500, 503 and whose body
    is a JSON object with the string [msg] under ["error"] makes it raise the
    error kind the table gives for the status, with the message [msg]; the
    seven kinds are pairwise distinct. *)
Theorem raise_for_status_kinds :
  (forall response,
      status_code response < 400 -> raise_for_status response = Return tt)
  /\ (forall response items msg code cls,
        json_body response = Some (JObj items) ->
        dict_lookup "error" items = Some (JStr msg) ->
        status_code response = code ->
        In (code, cls) status_kinds ->
        raise_for_status response = Raise (StoreError cls (JStr msg) (Some code)))
  /\ NoDup (map snd status_kinds)
  /\ map fst status_kinds = [400; 401; 403; 404; 409; 500; 503].
Proof.
  split; [|split; [|split]].
  - intros response Hlt. unfold raise_for_status.
    destruct (Z.ltb_spec (status_code response) 400); [reflexivity | lia].
  - intros response items msg code cls Hbody Herr Hcode Hin.
    unfold raise_for_status.
    pose proof (status_kinds_at_least_400 _ _ Hin) as Hge.
    destruct (Z.ltb_spec (status_code response) 400); [lia|].
    rewrite Hcode, (error_map_status_kinds _ _ Hin).
    rewrite (resolve_message_error _ _ _ Hbody Herr).
    now rewrite (construct_status_kinds _ _ _ Hin).
  - cbn. repeat (apply NoDup_cons; split;
                 [rewrite ?elem_of_cons, elem_of_nil; intuition discriminate|]).
    apply NoDup_nil_2.
  - reflexivity.
Qed.

Lemma raise_for_status_kinds_witness :
  raise_for_status created_response = Return tt
  /\ raise_for_status conflict_response
     = Raise (StoreError ConflictError (JStr "Bucket already exists") (Some 409)).
Proof.
  split.
  - apply (proj1 raise_for_status_kinds created_response). cbn. lia.
  - apply (proj1 (proj2 raise_for_status_kinds) conflict_response
             [("error", JStr "Bucket already exists")]
             "Bucket already exists" 409 ConflictError);
      try reflexivity.
    cbn. tauto.
Defined.

(** C2. A response with the unmapped status 418 raises the generic
    [ArtifactStoreError] with the raw body, or with [HTTP 418] when the body
    is empty, and with no status code: [status_code] is [None], not 418. *)
Theorem raise_for_status_unmapped_has_no_status_code :
  raise_for_status (teapot_response "I'm a teapot")
  = Raise (StoreError ArtifactStoreError (JStr "I'm a teapot") None)
  /\ raise_for_status (teapot_response EmptyString)
     = Raise (StoreError ArtifactStoreError (JStr "HTTP 418") None).
Proof. split; vm_compute; reflexivity. Qed.

(** ** Progress reporting *)

Lemma read_chunk size self :
  let '(chunk, self', calls) := ProgressReader.read size self in
  ProgressReader.data self = (chunk ++ ProgressReader.data self')%list
  /\ ProgressReader.bytes_read self' = ProgressReader.bytes_read self + size_of chunk
  /\ calls = match chunk with
             | [] => []
             | _ :: _ => [ProgressReader.bytes_read self + size_of chunk]
             end.
Proof.
  unfold ProgressReader.read, stream_read.
  destruct (Z.ltb size 0).
  - destruct (ProgressReader.data self) as [|b rest] eqn:E; cbn.
    + repeat split; unfold size_of; cbn; lia.
    + rewrite app_nil_r. repeat split.
  - pose proof (firstn_skipn (Z.to_nat size) (ProgressReader.data self)) as Hsplit.
    destruct (firstn (Z.to_nat size) (ProgressReader.data self)) as [|b rest] eqn:E;
      cbn [ProgressReader.data ProgressReader.bytes_read].
    + repeat split; [now symmetry | unfold size_of; cbn; lia].
    + repeat split. now symmetry.
Qed.

Lemma block_size_positive : exists n, Z.to_nat ProgressReader.block_size = S n.
Proof. exists (Z.to_nat 8191). unfold ProgressReader.block_size. lia. Qed.

Lemma next_chunk self chunk self' calls :
  ProgressReader.next self = (Some chunk, self', calls) ->
  chunk <> []
  /\ ProgressReader.data self = (chunk ++ ProgressReader.data self')%list
  /\ ProgressReader.bytes_read self' = ProgressReader.bytes_read self + size_of chunk
  /\ calls = [ProgressReader.bytes_read self + size_of chunk].
Proof.
  unfold ProgressReader.next.
  pose proof (read_chunk ProgressReader.block_size self) as Hread.
  destruct (ProgressReader.read ProgressReader.block_size self) as [[c r] cs].
  destruct c as [|b rest]; [discriminate|].
  intros [= <- <- <-]. destruct Hread as (Hd & Hb & Hc). now repeat split.
Qed.

Lemma next_stop self self' calls :
  ProgressReader.next self = (None, self', calls) ->
  ProgressReader.data self = [] /\ calls = [].
Proof.
  unfold ProgressReader.next, ProgressReader.read, stream_read.
  change (Z.ltb ProgressReader.block_size 0) with false. cbv iota.
  destruct block_size_positive as [n ->].
  destruct (ProgressReader.data self) as [|b rest]; cbn [firstn skipn].
  - now intros [= <- <-].
  - discriminate.
Qed.

Lemma iterate_totals self :
  let '(chunks, final, calls) := ProgressReader.iterate self in
  concat chunks = ProgressReader.data self
  /\ Forall (fun chunk => chunk <> []) chunks
  /\ calls = totals (ProgressReader.bytes_read self) (map size_of chunks).
Proof.
  funelim (ProgressReader.iterate self).
  - destruct (next_chunk _ _ _ _ Hnext) as (Hne & Hdata & Hread & ->).
    destruct (ProgressReader.iterate self') as [[chunks final] calls'].
    destruct H as (Hconcat & Hall & ->).
    cbn. rewrite Hconcat, Hdata, Hread. repeat split.
    now constructor.
  - destruct (next_stop _ _ _ e) as [-> ->]. now repeat split.
Qed.

Lemma total_app xs ys : total (xs ++ ys) = total xs + total ys.
Proof. induction xs as [|x xs IH]; cbn; [reflexivity | rewrite IH; lia]. Qed.

Lemma total_sizes (units : list (list Byte.byte)) :
  total (map size_of units) = size_of (concat units).
Proof.
  induction units as [|u units IH]; [reflexivity|].
  cbn. rewrite IH. unfold size_of. rewrite length_app. lia.
Qed.

Lemma totals_length start sizes : List.length (totals start sizes) = List.length sizes.
Proof.
  revert start. induction sizes as [|x sizes IH]; intros start; cbn;
    [reflexivity | now rewrite IH].
Qed.

Lemma totals_lookup sizes : forall start (i : nat) v,
  totals start sizes !! i = Some v -> v = start + total (take (S i) sizes).
Proof.
  induction sizes as [|x sizes IH]; intros start i v; [discriminate|].
  destruct i as [|i]; cbn.
  - intros [= <-]. rewrite take_0. cbn. lia.
  - intros Hi. apply IH in Hi. cbn in Hi. lia.
Qed.

Lemma totals_bound sizes : forall start (i : nat) v,
  Forall (fun x => 0 <= x) sizes ->
  totals start sizes !! i = Some v -> start <= v.
Proof.
  induction sizes as [|x sizes IH]; intros start i v Hpos; [discriminate|].
  inversion Hpos as [|? ? Hx Hrest]; subst.
  destruct i as [|i]; cbn.
  - intros [= <-]. lia.
  - intros Hi. apply (IH _ _ _ Hrest) in Hi. lia.
Qed.

Lemma totals_last start sizes :
  sizes <> [] -> last (totals start sizes) = Some (start + total sizes).
Proof.
  revert start. induction sizes as [|x sizes IH]; intros start Hne; [done|].
  destruct sizes as [|y sizes].
  - cbn. f_equal. lia.
  - change (totals start (x :: y :: sizes))
      with ((start + x) :: totals (start + x) (y :: sizes)).
    rewrite last_cons, IH by discriminate. cbn. f_equal. lia.
Qed.

Lemma sizes_nonnegative (units : list (list Byte.byte)) :
  Forall (fun x => 0 <= x) (map size_of units).
Proof.
  induction units; constructor; [unfold size_of; lia | assumption].
Qed.

Lemma totals_non_decreasing sizes : forall start,
  Forall (fun x => 0 <= x) sizes -> non_decreasing (totals start sizes).
Proof.
  induction sizes as [|x sizes IH]; intros start Hpos i j a b Hij Hi Hj;
    [discriminate|].
  inversion Hpos as [|? ? Hx Hrest]; subst.
  destruct i as [|i], j as [|j]; cbn in Hi, Hj.
  - injection Hi as <-. injection Hj as <-. lia.
  - injection Hi as <-. now apply (totals_bound _ _ _ _ Hrest Hj).
  - lia.
  - apply (IH (start + x) Hrest i j); [lia | assumption..].
Qed.

Lemma totals_progress sizes :
  Forall (fun x => 0 <= x) sizes ->
  cumulative sizes (totals 0 sizes)
  /\ non_decreasing (totals 0 sizes)
  /\ ends_at (total sizes) (totals 0 sizes).
Proof.
  intros Hpos. repeat split.
  - apply totals_length.
  - intros i v Hi. apply totals_lookup in Hi. lia.
  - now apply totals_non_decreasing.
  - destruct sizes as [|x sizes]; [now left | right].
    now rewrite totals_last.
Qed.

Lemma concat_non_empty (chunks : list (list Byte.byte)) :
  concat (List.filter non_empty chunks) = concat chunks.
Proof.
  induction chunks as [|[|b chunk] chunks IH]; cbn; [reflexivity | assumption |].
  now rewrite IH.
Qed.

Lemma download_loop_run `{Library} chunks : forall bytes_transferred w s,
  Operations.download_loop true chunks bytes_transferred w s
  = ({| sent := sent s; ticks := ticks s;
        progress :=
          progress s
            ++ totals bytes_transferred (map size_of (List.filter non_empty chunks));
        written := written s ++ concat chunks |},
     Return (bytes_transferred + total (map size_of chunks))).
Proof.
  induction chunks as [|chunk chunks IH]; intros bt w s.
  - cbn. rewrite !app_nil_r, Z.add_0_r. now destruct s.
  - destruct chunk as [|b chunk].
    + cbn [Operations.download_loop]. rewrite IH. cbn. do 2 f_equal.
    + cbn [Operations.download_loop]. unfold mbind, IO_bind, writer_write, report.
      rewrite IH. cbn [sent ticks progress written List.filter non_empty map totals concat].
      f_equal.
      * f_equal; now rewrite <- app_assoc.
      * f_equal. cbn [total]. unfold size_of. lia.
Qed.

Lemma totals_app sizes sizes' : forall start,
  totals start (sizes ++ sizes')
  = (totals start sizes ++ totals (start + total sizes) sizes')%list.
Proof.
  induction sizes as [|x sizes IH]; intros start; cbn.
  - now rewrite Z.add_0_r.
  - rewrite IH. do 3 f_equal. lia.
Qed.

Lemma hands_out_nothing self : hands_out self [] self [].
Proof. unfold hands_out, size_of. cbn. repeat split. lia. Qed.

Lemma hands_out_more self units self' calls units' final calls' :
  hands_out self units self' calls ->
  hands_out self' units' final calls' ->
  hands_out self (units ++ units') final (calls ++ calls').
Proof.
  intros (Hdata & Hsize & Hread & ->) (Hdata' & Hsize' & Hread' & ->).
  unfold hands_out.
  rewrite concat_app, List.filter_app, map_app, totals_app, total_sizes.
  rewrite concat_non_empty.
  repeat split.
  - now rewrite Hdata, Hdata', app_assoc.
  - congruence.
  - rewrite Hread', Hread. unfold size_of. rewrite length_app. lia.
  - now rewrite Hread.
Qed.

Lemma read_hands_out size self :
  let '(chunk, self', calls) := ProgressReader.read size self in
  hands_out self [chunk] self' calls.
Proof.
  pose proof (read_chunk size self) as Hread.
  assert (ProgressReader.total_size (snd (fst (ProgressReader.read size self)))
          = ProgressReader.total_size self) as Hsize.
  { unfold ProgressReader.read.
    destruct (stream_read size (ProgressReader.data self)) as [chunk rest].
    now destruct chunk. }
  destruct (ProgressReader.read size self) as [[chunk self'] calls].
  destruct Hread as (Hdata & Hbytes & ->). cbn in Hsize.
  unfold hands_out. cbn [concat]. rewrite app_nil_r.
  repeat split; try assumption.
  destruct chunk; reflexivity.
Qed.

Lemma next_keeps self chunk self' calls :
  ProgressReader.next self = (chunk, self', calls) ->
  ProgressReader.total_size self' = ProgressReader.total_size self
  /\ (chunk = None ->
      ProgressReader.bytes_read self' = ProgressReader.bytes_read self
      /\ ProgressReader.data self' = []).
Proof.
  unfold ProgressReader.next, ProgressReader.read, stream_read.
  change (Z.ltb ProgressReader.block_size 0) with false. cbv iota.
  destruct block_size_positive as [n ->].
  destruct (ProgressReader.data self) as [|b rest]; cbn [firstn skipn].
  - intros [= <- <- <-]. now repeat split.
  - intros [= <- <- <-]. split; [reflexivity | discriminate].
Qed.

Lemma next_hands_out self :
  let '(chunk, self', calls) := ProgressReader.next self in
  hands_out self (match chunk with Some chunk => [chunk] | None => [] end) self' calls
  /\ (chunk = None -> ProgressReader.data self' = []).
Proof.
  destruct (ProgressReader.next self) as [[chunk self'] calls] eqn:Hnext.
  destruct (next_keeps _ _ _ _ Hnext) as [Hsize Hstop].
  destruct chunk as [chunk|].
  - destruct (next_chunk _ _ _ _ Hnext) as (Hne & Hdata & Hbytes & ->).
    clear Hnext Hstop. split; [|discriminate].
    unfold hands_out. cbn [concat]. rewrite app_nil_r.
    split; [exact Hdata | split; [exact Hsize | split; [exact Hbytes|]]].
    destruct chunk; [contradiction | reflexivity].
  - destruct (next_stop _ _ _ Hnext) as [Hempty ->]. clear Hnext.
    destruct (Hstop eq_refl) as [Hbytes Hend]. split; [|intros _; exact Hend].
    unfold hands_out. cbn [concat app List.filter map totals].
    change (size_of []) with 0. rewrite Hempty, Hend, Hbytes, Z.add_0_r.
    repeat split; try reflexivity. exact Hsize.
Qed.

Lemma iterate_hands_out self :
  let '(chunks, final, calls) := ProgressReader.iterate self in
  hands_out self chunks final calls /\ ProgressReader.data final = [].
Proof.
  funelim (ProgressReader.iterate self).
  - pose proof (next_hands_out self) as Hstep. rewrite Hnext in Hstep.
    destruct Hstep as [Hstep _].
    destruct (ProgressReader.iterate self') as [[chunks final] calls'].
    destruct H as [Hrest Hend]. split; [|assumption].
    apply (hands_out_more self [chunk] self' calls chunks final calls' Hstep Hrest).
  - pose proof (next_hands_out self) as Hstep. rewrite e in Hstep.
    destruct Hstep as [Hstep Hend]. split; [assumption | now apply Hend].
Qed.

Lemma accesses_hands_out how : forall self,
  let '(units, final, calls) := ProgressReader.accesses how self in
  hands_out self units final calls.
Proof.
  induction how as [|a how IH]; intros self; [apply hands_out_nothing|].
  cbn [ProgressReader.accesses].
  assert (let '(units, self', calls) :=
            match a with
            | ProgressReader.Read size =>
                let '(chunk, self', calls) := ProgressReader.read size self in
                ([chunk], self', calls)
            | ProgressReader.Next =>
                let '(chunk, self', calls) := ProgressReader.next self in
                (match chunk with Some chunk => [chunk] | None => [] end, self', calls)
            | ProgressReader.Loop => ProgressReader.iterate self
            end in
          hands_out self units self' calls) as Hstep.
  { destruct a as [size| |].
    - pose proof (read_hands_out size self) as Hread.
      now destruct (ProgressReader.read size self) as [[chunk self'] calls].
    - pose proof (next_hands_out self) as Hnext.
      destruct (ProgressReader.next self) as [[chunk self'] calls].
      apply Hnext.
    - pose proof (iterate_hands_out self) as Hloop.
      destruct (ProgressReader.iterate self) as [[chunks final] calls].
      apply Hloop. }
  destruct (match a with
            | ProgressReader.Read size => _
            | ProgressReader.Next => _
            | ProgressReader.Loop => _
            end) as [[units self'] calls].
  specialize (IH self').
  destruct (ProgressReader.accesses how self') as [[units' final] calls'].
  now apply (hands_out_more self units self' calls units' final calls').
Qed.

(** What the callback is told while a reader hands out [units]. *)
Lemma hands_out_progress data size units final calls :
  hands_out (ProgressReader.init data size) units final calls ->
  data = (concat units ++ ProgressReader.data final)%list
  /\ cumulative (map size_of (List.filter non_empty units)) calls
  /\ non_decreasing calls
  /\ ends_at (size_of (concat units)) calls
  /\ (ProgressReader.data final = [] -> ends_at (size_of data) calls).
Proof.
  intros (Hdata & _ & _ & ->). cbn in Hdata.
  set (sizes := map size_of (List.filter non_empty units)).
  destruct (totals_progress sizes (sizes_nonnegative _)) as (Hcum & Hmono & Hend).
  unfold sizes in Hend at 1. rewrite total_sizes, concat_non_empty in Hend.
  repeat split; try assumption; try apply Hcum.
  intros Hfinal. rewrite Hdata at 1. now rewrite Hfinal, app_nil_r.
Qed.

(** What [_request] leaves behind, whatever the session answers. *)
Lemma request_effects `{Library} client m u headers kw w s :
  fst (Client._request client m u headers kw w s)
  = after_send w (request_of client m u headers kw) s.
Proof.
  unfold Client._request, request_of. rewrite !IO_bind_run. unfold send, lift.
  assert (match kw_timeout kw with
          | Some t => Some t
          | None => Some (Config.timeout (Client.config client))
          end
          = Some (match kw_timeout kw with
                  | Some t => t
                  | None => Config.timeout (Client.config client)
                  end)) as -> by now destruct (kw_timeout kw).
  destruct (session_request w (sent s) _) as [response|e]; [|reflexivity].
  now destruct (raise_for_status response).
Qed.

(** C3. With a progress callback, every call of the callback gets the total
    number of bytes transferred so far, the values never decrease, and the
    last one is the size of the transfer: for a [read] of a [ProgressReader];
    for an upload, whose body is the [ProgressReader] the session is given
    and reads as it sees fit, so that the bytes transferred are those the
    session read of that request, all of the stream when it read to the end;
    and for a download, whose chunks [iter_content] yields. *)
Theorem progress_is_cumulative `{Library} :
  (forall size self,
      let '(chunk, self', calls) := ProgressReader.read size self in
      ProgressReader.bytes_read self'
      = ProgressReader.bytes_read self + size_of chunk
      /\ calls = match chunk with
                 | [] => []
                 | _ :: _ => [ProgressReader.bytes_read self']
                 end)
  /\ (forall client bucket key data size content_type metadata w s,
        let run := Operations.upload client bucket key data size content_type
                     metadata true w s in
        exists request,
          sent (fst run) = (sent s ++ [request])%list
          /\ method request = "PUT"
          /\ kw_data (kwargs request) = Some data
          /\ let '(units, final, calls) :=
               ProgressReader.accesses (session_reads w (sent s) request)
                 (ProgressReader.init data size) in
             progress (fst run) = (progress s ++ calls)%list
             /\ data = (concat units ++ ProgressReader.data final)%list
             /\ cumulative (map size_of (List.filter non_empty units)) calls
             /\ non_decreasing calls
             /\ ends_at (size_of (concat units)) calls
             /\ (ProgressReader.data final = [] -> ends_at (size_of data) calls))
  /\ (forall client bucket key byte_range w s response n,
        answers w s response ->
        status_code response < 400 ->
        Operations.content_length response = Return n ->
        let run := Operations.download client bucket key byte_range true w s in
        exists calls,
          snd run = Return tt
          /\ written (fst run) = (written s ++ concat (chunks response))%list
          /\ progress (fst run) = (progress s ++ calls)%list
          /\ cumulative (map size_of (List.filter non_empty (chunks response))) calls
          /\ non_decreasing calls
          /\ ends_at (size_of (concat (chunks response))) calls).
Proof.
  split; [|split].
  - intros size self. pose proof (read_chunk size self) as Hread.
    destruct (ProgressReader.read size self) as [[chunk self'] calls].
    destruct Hread as (_ & Hbytes & Hcalls). split; [assumption|].
    rewrite Hcalls. destruct chunk; [reflexivity | now rewrite Hbytes].
  - intros client bucket key data size content_type metadata w s. cbv zeta.
    unfold Operations.upload. rewrite IO_bind_run.
    match goal with
    | |- context [Client._request ?c ?m ?u ?h ?k w s] =>
        pose proof (request_effects c m u h k w s) as Heffects;
        exists (request_of c m u h k);
        destruct (Client._request c m u h k w s) as [s1 [response|e]]
    end; cbn [fst mret IO_ret] in Heffects |- *; rewrite Heffects;
      (split; [reflexivity | split; [reflexivity | split; [reflexivity|]]]);
      cbn [after_send progress request_of kwargs kw_data_reader];
      unfold body_calls; cbn [request_of kwargs kw_data kw_data_reader];
      match goal with
      | |- context [ProgressReader.accesses ?how ?self] =>
          pose proof (accesses_hands_out how self) as Hreads;
          destruct (ProgressReader.accesses how self) as [[units final] calls]
      end; (split; [reflexivity | now apply (hands_out_progress data size)]).
  - intros client bucket key byte_range w s response n Hanswer Hok Hlength run.
    subst run. unfold Operations.download.
    match goal with
    | |- context [Client._request ?c ?m ?u ?h ?k] =>
        destruct (request_returns c m u h k w s response eq_refl Hanswer Hok)
          as [request Hrequest]
    end.
    rewrite !IO_bind_run, Hrequest. unfold lift. rewrite Hlength.
    rewrite !IO_bind_run, download_loop_run. cbn.
    set (units := List.filter non_empty (chunks response)).
    exists (totals 0 (map size_of units)).
    destruct (totals_progress (map size_of units) (sizes_nonnegative units))
      as (Hcum & Hmono & Hend).
    rewrite total_sizes in Hend. unfold units in Hend at 1.
    rewrite concat_non_empty in Hend.
    repeat split; try assumption; apply Hcum.
Qed.

Lemma progress_is_cumulative_witness :
  let up := Operations.upload (H := reference_library) test_client
              "mybucket" "myfile.tar.gz" (list_byte_of_string "test data") 9
              "application/octet-stream" None true in
  let down := Operations.download (H := reference_library) test_client
                "mybucket" "myfile.tar.gz" None true
                (world_answering (Return download_response)) no_effects in
  (exists request,
      sent (fst (up (world_answering (Return created_response)) no_effects))
      = [request]
      /\ progress (fst (up (world_answering (Return created_response)) no_effects))
         = [9])
  /\ (exists request,
        sent (fst (up world_breaking no_effects)) = [request]
        /\ progress (fst (up world_breaking no_effects)) = [4; 8])
  /\ (exists request,
        sent (fst (up world_unreachable no_effects)) = [request]
        /\ progress (fst (up world_unreachable no_effects)) = [])
  /\ progress (fst down) = [15]
  /\ exists calls,
       snd down = Return tt
       /\ written (fst down) = ([] ++ concat (chunks download_response))%list
       /\ progress (fst down) = ([] ++ calls)%list
       /\ cumulative (map size_of (List.filter non_empty (chunks download_response)))
            calls
       /\ non_decreasing calls
       /\ ends_at (size_of (concat (chunks download_response))) calls.
Proof.
  cbv zeta.
  pose proof (proj1 (proj2 (@progress_is_cumulative reference_library))
                test_client "mybucket" "myfile.tar.gz"
                (list_byte_of_string "test data") 9 "application/octet-stream" None)
    as Hup.
  split; [|split; [|split; [|split]]].
  - destruct (Hup (world_answering (Return created_response)) no_effects)
      as (request & Hsent & _ & _ & Hreads).
    exists request. split; [exact Hsent|].
    destruct (ProgressReader.accesses _ _) as [[units final] calls] eqn:Hrun.
    destruct Hreads as [-> _]. vm_compute in Hrun. now injection Hrun as _ _ <-.
  - destruct (Hup world_breaking no_effects) as (request & Hsent & _ & _ & Hreads).
    exists request. split; [exact Hsent|].
    destruct (ProgressReader.accesses _ _) as [[units final] calls] eqn:Hrun.
    destruct Hreads as [-> _]. vm_compute in Hrun. now injection Hrun as _ _ <-.
  - destruct (Hup world_unreachable no_effects) as (request & Hsent & _ & _ & Hreads).
    exists request. split; [exact Hsent|].
    destruct (ProgressReader.accesses _ _) as [[units final] calls] eqn:Hrun.
    destruct Hreads as [-> _]. vm_compute in Hrun. now injection Hrun as _ _ <-.
  - reflexivity.
  - apply (proj2 (proj2 (@progress_is_cumulative reference_library))
             test_client "mybucket" "myfile.tar.gz" None
             (world_answering (Return download_response)) no_effects
             download_response 15).
    + intros request. reflexivity.
    + cbn. lia.
    + reflexivity.
Defined.

(** The two progress tests of the repository: 9 bytes up, 15 bytes down. *)
Example upload_progress_of_test :
  progress (fst (Operations.upload (H := reference_library) test_client
                   "mybucket" "myfile.tar.gz" (list_byte_of_string "test data") 9
                   "application/octet-stream" None true
                   (world_answering (Return created_response)) no_effects))
  = [9].
Proof. vm_compute. reflexivity. Qed.

Example download_progress_of_test :
  progress (fst (Operations.download (H := reference_library) test_client
                   "mybucket" "myfile.tar.gz" None true
                   (world_answering (Return download_response)) no_effects))
  = [15].
Proof. vm_compute. reflexivity. Qed.

(** ** Metadata headers *)

Lemma lower_app a b : lower (a +:+ b) = lower a +:+ lower b.
Proof. induction a as [|c a IH]; simpl; [reflexivity | now rewrite IH]. Qed.

Lemma append_inj_l a b c : a +:+ b = a +:+ c -> b = c.
Proof. induction a as [|x a IH]; simpl; [trivial | intros [= E]; auto]. Qed.

Lemma startswith_app p s : startswith p (p +:+ s) = true.
Proof.
  induction p as [|c p IH]; simpl; [reflexivity|].
  now rewrite Ascii.eqb_refl.
Qed.

Lemma startswith_split p s :
  startswith p s = true -> s = p +:+ slice_from (String.length p) s.
Proof.
  revert s. induction p as [|c p IH]; intros s; simpl.
  - reflexivity.
  - destruct s as [|d s]; [discriminate|].
    destruct (Ascii.eqb_spec c d) as [->|]; [|discriminate].
    intros Hp. simpl in Hp. apply IH in Hp.
    change (String d s = String d (p +:+ slice_from (String.length p) s)).
    now f_equal.
Qed.

Lemma slice_from_app p s : slice_from (String.length p) (p +:+ s) = s.
Proof. induction p as [|c p IH]; simpl; [reflexivity | assumption]. Qed.

Lemma lower_slice_from n : forall s, lower (slice_from n s) = slice_from n (lower s).
Proof.
  induction n as [|n IH]; intros s; [reflexivity|].
  destruct s as [|c s]; cbn; [reflexivity | apply IH].
Qed.

(** Two names that start with [x-amz-meta-] up to case and have the same
    rest are the same name up to case. *)
Lemma same_rest_same_name n1 n2 :
  startswith "x-amz-meta-" (lower n1) = true ->
  startswith "x-amz-meta-" (lower n2) = true ->
  slice_from 11 n1 = slice_from 11 n2 ->
  lower n1 = lower n2.
Proof.
  intros H1 H2 Hrest.
  rewrite (startswith_split _ _ H1), (startswith_split _ _ H2).
  change (String.length "x-amz-meta-") with 11%nat.
  now rewrite <- !lower_slice_from, Hrest.
Qed.

Lemma ci_mem_false name items :
  ci_mem name items = false ->
  forall item, In item items -> lower (fst item) <> lower name.
Proof.
  unfold ci_mem. intros Hmem item Hin Heq.
  assert (existsb (same_name name) items = true) as Hex; [|congruence].
  apply existsb_exists. exists item. split; [assumption|].
  unfold same_name. now apply String.eqb_eq.
Qed.

Lemma ci_mem_lower k n items : lower k = lower n -> ci_mem k items = ci_mem n items.
Proof. intros E. unfold ci_mem, same_name. now rewrite E. Qed.

Lemma filter_none name items :
  ci_mem name items = false -> List.filter (same_name name) items = [].
Proof.
  induction items as [|item items IH]; cbn; [reflexivity|].
  destruct (same_name name item); [discriminate | exact IH].
Qed.

Lemma same_name_iff name item :
  same_name name item = true <-> lower (fst item) = lower name.
Proof. unfold same_name. apply String.eqb_eq. Qed.

Lemma ci_set_same name value items :
  ci_distinct items = true ->
  List.filter (same_name name) (ci_set name value items) = [(name, value)].
Proof.
  assert (Hself : same_name name (name, value) = true)
    by now apply same_name_iff.
  induction items as [|[k v] items IH]; cbn [ci_set ci_distinct fst].
  - intros _. cbn [List.filter]. now rewrite Hself.
  - intros [Hk Hrest]%andb_prop. apply negb_true_iff in Hk.
    destruct (String.eqb_spec (lower k) (lower name)) as [E|E];
      cbn [List.filter].
    + rewrite Hself, filter_none; [reflexivity|].
      now rewrite <- (ci_mem_lower k name).
    + destruct (same_name name (k, v)) eqn:Hsame.
      * apply same_name_iff in Hsame. contradiction.
      * now apply IH.
Qed.

Lemma ci_set_other name value other items :
  lower name <> lower other ->
  List.filter (same_name other) (ci_set name value items)
  = List.filter (same_name other) items.
Proof.
  intros Hne.
  assert (Hnot : forall v, same_name other (name, v) = false).
  { intros v. destruct (same_name other (name, v)) eqn:Hs; [|reflexivity].
    apply same_name_iff in Hs. contradiction. }
  induction items as [|[k v] items IH]; cbn [ci_set].
  - cbn [List.filter]. now rewrite Hnot.
  - destruct (String.eqb_spec (lower k) (lower name)) as [E|E];
      cbn [List.filter].
    + rewrite Hnot. destruct (same_name other (k, v)) eqn:Hs; [|reflexivity].
      apply same_name_iff in Hs. cbn [fst] in Hs. congruence.
    + now rewrite IH.
Qed.

Lemma ci_mem_filter name items :
  ci_mem name items = false <-> List.filter (same_name name) items = [].
Proof.
  split; [apply filter_none|].
  induction items as [|item items IH]; cbn; [reflexivity|].
  destruct (same_name name item); [discriminate | exact IH].
Qed.

Lemma ci_set_distinct name value items :
  ci_distinct items = true -> ci_distinct (ci_set name value items) = true.
Proof.
  induction items as [|[k v] items IH]; cbn [ci_set ci_distinct fst];
    [reflexivity|].
  intros [Hk Hrest]%andb_prop. apply negb_true_iff in Hk.
  destruct (String.eqb_spec (lower k) (lower name)) as [E|E];
    cbn [ci_distinct fst]; apply andb_true_intro; split.
  - apply negb_true_iff. now rewrite <- (ci_mem_lower k name).
  - assumption.
  - apply negb_true_iff, ci_mem_filter.
    rewrite ci_set_other by congruence. now apply ci_mem_filter.
  - now apply IH.
Qed.

Lemma ci_update_other other d : forall items,
  ci_mem other d = false ->
  List.filter (same_name other) (ci_update d items)
  = List.filter (same_name other) items.
Proof.
  unfold ci_update.
  induction d as [|[n v] d IH]; intros items Hmem; [reflexivity|].
  cbn [ci_mem existsb] in Hmem. apply orb_false_elim in Hmem as [Hn Hd].
  cbn [fold_left fst snd]. rewrite (IH _ Hd). apply ci_set_other.
  intros E. assert (same_name other (n, v) = true) by now apply same_name_iff.
  congruence.
Qed.

Lemma ci_update_distinct d : forall items,
  ci_distinct items = true -> ci_distinct (ci_update d items) = true.
Proof.
  unfold ci_update.
  induction d as [|[n v] d IH]; intros items Hitems; [assumption|].
  cbn [fold_left fst snd]. now apply IH, ci_set_distinct.
Qed.

Lemma ci_update_same d : forall items,
  ci_distinct d = true ->
  ci_distinct items = true ->
  forall n v, In (n, v) d ->
    List.filter (same_name n) (ci_update d items) = [(n, v)].
Proof.
  induction d as [|[n0 v0] d IH]; intros items Hd Hitems n v Hin; [contradiction|].
  cbn [ci_distinct fst] in Hd. apply andb_prop in Hd as [Hfresh Hd].
  apply negb_true_iff in Hfresh.
  change (ci_update ((n0, v0) :: d) items) with (ci_update d (ci_set n0 v0 items)).
  destruct Hin as [[= <- <-]|Hin].
  - rewrite (ci_update_other _ _ _ Hfresh). now apply ci_set_same.
  - apply IH; [assumption | now apply ci_set_distinct | assumption].
Qed.

Lemma dict_lookup_app {V} key (items more : list (string * V)) :
  dict_lookup key (items ++ more)
  = match dict_lookup key items with
    | Some v => Some v
    | None => dict_lookup key more
    end.
Proof.
  induction items as [|[k v] items IH]; cbn; [reflexivity|].
  now destruct (String.eqb k key).
Qed.

Lemma dict_set_fresh {V} key (value : V) items :
  dict_lookup key items = None -> dict_set key value items = (items ++ [(key, value)])%list.
Proof.
  induction items as [|[k v] items IH]; cbn; [reflexivity|].
  destruct (String.eqb k key); [discriminate|].
  intros Hnone. now rewrite IH.
Qed.

Lemma dict_lookup_set_same {V} key (value : V) items :
  dict_lookup key (dict_set key value items) = Some value.
Proof.
  induction items as [|[k v] items IH]; cbn.
  - now rewrite String.eqb_refl.
  - destruct (String.eqb k key) eqn:E; cbn; now rewrite E.
Qed.

Lemma dict_lookup_set_other {V} key other (value : V) items :
  key <> other ->
  dict_lookup other (dict_set key value items) = dict_lookup other items.
Proof.
  intros Hne. induction items as [|[k v] items IH]; cbn.
  - now destruct (String.eqb_spec key other).
  - destruct (String.eqb_spec k key) as [->|]; cbn.
    + now destruct (String.eqb_spec key other).
    + now rewrite IH.
Qed.

Lemma same_name_meta_header k entry :
  same_name ("X-Amz-Meta-" +:+ k) (meta_header entry) = same_name k entry.
Proof.
  unfold same_name, meta_header. cbn [fst]. rewrite !lower_app.
  destruct (String.eqb_spec (lower (fst entry)) (lower k)) as [->|Hne].
  - apply String.eqb_refl.
  - apply String.eqb_neq. intros E. now apply append_inj_l in E.
Qed.

Lemma ci_mem_meta_header k entries :
  ci_mem ("X-Amz-Meta-" +:+ k) (map meta_header entries) = ci_mem k entries.
Proof.
  unfold ci_mem. induction entries as [|e entries IH]; [reflexivity|].
  cbn [map existsb]. now rewrite same_name_meta_header, IH.
Qed.

Lemma ci_distinct_meta_header entries :
  ci_distinct entries = true -> ci_distinct (map meta_header entries) = true.
Proof.
  induction entries as [|e entries IH]; [reflexivity|].
  cbn [map ci_distinct]. intros [He Hrest]%andb_prop.
  apply andb_true_intro. split; [|now apply IH].
  unfold meta_header at 1. cbn [fst]. now rewrite ci_mem_meta_header.
Qed.

Lemma content_type_is_no_meta_header entries :
  ci_mem "Content-Type" (map meta_header entries) = false.
Proof.
  unfold ci_mem. induction entries as [|e entries IH]; [reflexivity|].
  cbn [map existsb]. rewrite IH, orb_false_r.
  unfold same_name, meta_header. cbn [fst]. rewrite lower_app. reflexivity.
Qed.

(** With names distinct up to case, [upload] adds one header per entry, in
    the order of the entries. *)
Lemma add_metadata_fresh entries : forall headers,
  ci_distinct entries = true ->
  (forall e, In e entries -> dict_lookup (fst (meta_header e)) headers = None) ->
  Operations.add_metadata entries headers = (headers ++ map meta_header entries)%list.
Proof.
  unfold Operations.add_metadata.
  induction entries as [|e entries IH]; intros headers Hdistinct Hfresh.
  - cbn. now rewrite app_nil_r.
  - cbn [ci_distinct] in Hdistinct. apply andb_prop in Hdistinct as [He Hrest].
    apply negb_true_iff in He.
    cbn [fold_left map].
    rewrite dict_set_fresh by (apply (Hfresh e); now left).
    rewrite IH; [now rewrite <- app_assoc | assumption |].
    intros e' Hin. rewrite dict_lookup_app, (Hfresh e') by now right.
    cbn. destruct (String.eqb_spec ("X-Amz-Meta-" +:+ fst e) ("X-Amz-Meta-" +:+ fst e'))
      as [E|]; [|reflexivity].
    apply append_inj_l in E.
    pose proof (ci_mem_false _ _ He e' Hin) as Hne. congruence.
Qed.

Lemma extract_metadata_step items : forall (acc : list (string * string)) key,
  (forall item, In item items ->
     startswith "x-amz-meta-" (lower (fst item)) = true ->
     slice_from 11 (fst item) <> key) ->
  dict_lookup key
    (fold_left
       (fun metadata item =>
          let '(header_name, header_value) := item in
          if startswith "x-amz-meta-" (lower header_name)
          then dict_set (slice_from 11 header_name) header_value metadata
          else metadata)
       items acc)
  = dict_lookup key acc.
Proof.
  induction items as [|[name value] items IH]; intros acc key Hother;
    [reflexivity|].
  cbn [fold_left]. rewrite IH by (intros item Hin; apply Hother; now right).
  destruct (startswith "x-amz-meta-" (lower name)) eqn:Hmeta; [|reflexivity].
  apply dict_lookup_set_other. apply (Hother (name, value)); [now left | assumption].
Qed.

Lemma extract_metadata_lookup items :
  ci_distinct items = true ->
  forall name value,
    In (name, value) items ->
    startswith "x-amz-meta-" (lower name) = true ->
    dict_lookup (slice_from 11 name) (Operations.extract_metadata items) = Some value.
Proof.
  unfold Operations.extract_metadata. generalize (@nil (string * string)).
  induction items as [|[n0 v0] items IH]; intros acc Hdistinct name value Hin Hmeta;
    [contradiction|].
  cbn [ci_distinct fst] in Hdistinct. apply andb_prop in Hdistinct as [Hfresh Hrest].
  apply negb_true_iff in Hfresh. cbn [fold_left].
  destruct Hin as [[= -> ->]|Hin].
  - rewrite Hmeta, extract_metadata_step; [apply dict_lookup_set_same|].
    intros item Hitem Hitem_meta Hsame.
    apply (ci_mem_false _ _ Hfresh item Hitem).
    now apply same_rest_same_name.
  - now apply IH.
Qed.

(** What [get_object_metadata] does when the session answers with a
    response below 400 whose [Content-Length] is absent or a number. *)
Lemma get_object_metadata_result `{Library} client bucket key w s response n :
  answers w s response ->
  status_code response < 400 ->
  Operations.content_length response = Return n ->
  let given := ci_get "Last-Modified" "" (headers response) in
  snd (Operations.get_object_metadata client bucket key w s)
  = match (if String.eqb given "" then Some (clock w (ticks s))
           else strptime given "%a, %d %b %Y %H:%M:%S %Z") with
    | Some last_modified =>
        Return {| Object.key := JStr key;
                  Object.size := JNum n;
                  Object.last_modified := last_modified;
                  Object.etag :=
                    JStr (strip "034"%char (ci_get "ETag" "" (headers response)));
                  Object.content_type :=
                    JStr (ci_get "Content-Type" "" (headers response));
                  Object.metadata := Operations.extract_metadata (headers response) |}
    | None => Raise ValueError
    end.
Proof.
  intros Hanswer Hok Hlength given.
  unfold Operations.get_object_metadata.
  match goal with
  | |- context [Client._request ?c ?m ?u ?h ?k] =>
      destruct (request_returns c m u h k w s response eq_refl Hanswer Hok)
        as [request Hrequest]
  end.
  rewrite IO_bind_run, Hrequest, IO_bind_run. unfold lift at 1. rewrite Hlength.
  rewrite IO_bind_run. fold given.
  destruct (String.eqb given ""); [reflexivity|].
  unfold lift. now destruct (strptime given _).
Qed.

Lemma upload_sends `{Library} client bucket key data size content_type metadata
    progress_callback w s :
  exists request,
    sent (fst (Operations.upload client bucket key data size content_type
                 metadata progress_callback w s))
    = (sent s ++ [request])%list
    /\ kw_headers (kwargs request)
       = match Operations.upload_headers content_type metadata with
         | item :: items =>
             Some (ci_update (item :: items) (Client.session_headers client))
         | [] => None
         end.
Proof.
  unfold Operations.upload. rewrite IO_bind_run.
  match goal with
  | |- context [Client._request ?c ?m ?u ?h ?k w s] =>
      destruct (request_sends c m u h k w s) as (request & Hsent & _ & _ & Hheaders & _);
      destruct (Client._request c m u h k w s) as [s' [response|e]]
  end; exists request; split; try exact Hsent; exact Hheaders.
Qed.

(** C4, as the code has it. The session keeps its headers in a dict of
    case-insensitive names, so do the headers of a response. When the keys
    of [metadata] are pairwise distinct up to case, [upload] sends for each
    entry [(k, v)] exactly one header named [X-Amz-Meta-k], up to case, and
    it is [X-Amz-Meta-k: v]. [get_object_metadata] stores, for every response
    header whose lower-cased name starts with [x-amz-meta-], the value under
    the name without its first 11 characters; so a header [X-Amz-Meta-k: v]
    that comes back gives [metadata[k] == v]. *)
Theorem metadata_headers_round_trip `{Library} :
  (forall client bucket key data size content_type metadata progress_callback w s,
      ci_distinct (Client.session_headers client) = true ->
      ci_distinct metadata = true ->
      exists request sent_headers,
        sent (fst (Operations.upload client bucket key data size content_type
                     (Some metadata) progress_callback w s))
        = (sent s ++ [request])%list
        /\ kw_headers (kwargs request) = Some sent_headers
        /\ forall k v, In (k, v) metadata ->
             List.filter (same_name ("X-Amz-Meta-" +:+ k)) sent_headers
             = [("X-Amz-Meta-" +:+ k, v)])
  /\ (forall client bucket key w s response n last_modified,
        answers w s response ->
        status_code response < 400 ->
        Operations.content_length response = Return n ->
        (if String.eqb (ci_get "Last-Modified" "" (headers response)) ""
         then Some (clock w (ticks s))
         else strptime (ci_get "Last-Modified" "" (headers response))
                       "%a, %d %b %Y %H:%M:%S %Z") = Some last_modified ->
        ci_distinct (headers response) = true ->
        exists object,
          snd (Operations.get_object_metadata client bucket key w s) = Return object
          /\ (forall name value,
                In (name, value) (headers response) ->
                startswith "x-amz-meta-" (lower name) = true ->
                dict_lookup (slice_from 11 name) (Object.metadata object) = Some value)
          /\ (forall k v,
                In ("X-Amz-Meta-" +:+ k, v) (headers response) ->
                dict_lookup k (Object.metadata object) = Some v)).
Proof.
  split.
  - intros client bucket key data size content_type metadata progress_callback w s
      Hsession Hmetadata.
    destruct (upload_sends client bucket key data size content_type (Some metadata)
                progress_callback w s) as (request & Hsent & Hheaders).
    assert (Operations.upload_headers content_type (Some metadata)
            = ("Content-Type", content_type) :: map meta_header metadata) as Hbuilt.
    { unfold Operations.upload_headers. destruct metadata as [|e metadata];
        [reflexivity|].
      rewrite add_metadata_fresh; [reflexivity | assumption |].
      intros e' _. reflexivity. }
    rewrite Hbuilt in Hheaders. eexists request, _. repeat split; try eassumption.
    intros k v Hin. apply ci_update_same; [|assumption|].
    + cbn [ci_distinct fst]. rewrite content_type_is_no_meta_header.
      now apply ci_distinct_meta_header.
    + right. change ("X-Amz-Meta-" +:+ k, v) with (meta_header (k, v)).
      now apply in_map.
  - intros client bucket key w s response n last_modified
      Hanswer Hok Hlength Hdate Hdistinct.
    eexists. split.
    { rewrite (get_object_metadata_result client bucket key w s response n
                 Hanswer Hok Hlength), Hdate. reflexivity. }
    cbn [Object.metadata]. split.
    + now apply extract_metadata_lookup.
    + intros k v Hin.
      rewrite <- (slice_from_app "X-Amz-Meta-" k) at 1.
      apply (extract_metadata_lookup _ Hdistinct _ _ Hin).
      rewrite lower_app. apply (startswith_app "x-amz-meta-").
Qed.

Lemma metadata_headers_round_trip_witness :
  (exists request sent_headers,
      sent (fst (Operations.upload (H := reference_library) test_client
                   "mybucket" "myfile.tar.gz" (list_byte_of_string "test data") 9
                   "application/octet-stream"
                   (Some [("version", "1.0.0"); ("author", "test")]) false
                   (world_answering (Return created_response)) no_effects))
      = ([] ++ [request])%list
      /\ kw_headers (kwargs request) = Some sent_headers
      /\ forall k v, In (k, v) [("version", "1.0.0"); ("author", "test")] ->
           List.filter (same_name ("X-Amz-Meta-" +:+ k)) sent_headers
           = [("X-Amz-Meta-" +:+ k, v)])
  /\ (exists object,
        snd (Operations.get_object_metadata (H := reference_library) test_client
               "mybucket" "myfile.tar.gz"
               (world_answering (Return head_response)) no_effects)
        = Return object
        /\ dict_lookup "version" (Object.metadata object) = Some "1.0.0").
Proof.
  split.
  - apply (proj1 (@metadata_headers_round_trip reference_library)); reflexivity.
  - destruct (proj2 (@metadata_headers_round_trip reference_library)
                test_client "mybucket" "myfile.tar.gz"
                (world_answering (Return head_response)) no_effects
                head_response 1024
                {| year := 2024; month := 1; day := 15; hour := 10;
                   minute := 30; second := 0; utcoffset := None |})
      as (object & Hreturn & _ & Hecho).
    + intros request. reflexivity.
    + cbn. lia.
    + reflexivity.
    + reflexivity.
    + reflexivity.
    + exists object. split; [exact Hreturn|].
      apply (Hecho "version" "1.0.0"). cbn. tauto.
Defined.

(** C4 as stated fails: two keys that differ by case only. The dict
    [{"a": "1", "A": "2"}] has the entry [("a", "1")], and the request
    carries no header [X-Amz-Meta-a: 1]: the one header of that name is
    [X-Amz-Meta-A: 2]. *)
Lemma metadata_entry_not_emitted :
  let metadata := [("a", "1"); ("A", "2")] in
  let run := Operations.upload (H := reference_library) test_client
               "mybucket" "myfile.tar.gz" (list_byte_of_string "test data") 9
               "application/octet-stream" (Some metadata) false
               (world_answering (Return created_response)) no_effects in
  exists request sent_headers,
    sent (fst run) = [request]
    /\ kw_headers (kwargs request) = Some sent_headers
    /\ NoDup (map fst metadata)
    /\ In ("a", "1") metadata
    /\ ~ In ("X-Amz-Meta-a", "1") sent_headers
    /\ List.filter (same_name "X-Amz-Meta-a") sent_headers = [("X-Amz-Meta-A", "2")].
Proof.
  eexists _, _. split; [vm_compute; reflexivity|].
  split; [reflexivity|]. split; [|split; [|split]].
  - apply NoDup_cons. split; [|apply NoDup_singleton].
    rewrite list_elem_of_singleton. discriminate.
  - now left.
  - cbn. intuition discriminate.
  - vm_compute. reflexivity.
Qed.

(** ** The date of an object *)

(** C5, as the code has it. [get_object_metadata] gives a [Last-Modified]
    that is not empty to [strptime] with the RFC-1123 format: the date it
    returns is the object's [last_modified], and when it raises, so does
    [get_object_metadata], with [ValueError]. Only a header that is absent or
    empty makes [last_modified] the current time. *)
Theorem last_modified_of_header `{Library} client bucket key w s response n
    (Hanswer : answers w s response)
    (Hok : status_code response < 400)
    (Hlength : Operations.content_length response = Return n) :
  let given := ci_get "Last-Modified" "" (headers response) in
  let outcome := snd (Operations.get_object_metadata client bucket key w s) in
  (given = EmptyString ->
     exists object,
       outcome = Return object /\ Object.last_modified object = clock w (ticks s))
  /\ (forall date,
        given <> EmptyString ->
        strptime given "%a, %d %b %Y %H:%M:%S %Z" = Some date ->
        exists object, outcome = Return object /\ Object.last_modified object = date)
  /\ (given <> EmptyString ->
      strptime given "%a, %d %b %Y %H:%M:%S %Z" = None ->
      outcome = Raise ValueError).
Proof.
  intros given outcome. subst outcome.
  rewrite (get_object_metadata_result client bucket key w s response n
             Hanswer Hok Hlength).
  fold given. repeat split.
  - intros ->. cbn. now eexists.
  - intros date Hgiven Hdate.
    destruct (String.eqb_spec given ""); [contradiction|].
    rewrite Hdate. now eexists.
  - intros Hgiven Hdate.
    destruct (String.eqb_spec given ""); [contradiction|].
    now rewrite Hdate.
Qed.

Lemma last_modified_of_header_witness :
  (exists object,
      snd (Operations.get_object_metadata (H := reference_library) test_client
             "mybucket" "myfile.tar.gz"
             (world_answering (Return (head_response_dated EmptyString))) no_effects)
      = Return object
      /\ Object.last_modified object
         = clock (world_answering (Return (head_response_dated EmptyString))) 0)
  /\ (exists object,
        snd (Operations.get_object_metadata (H := reference_library) test_client
               "mybucket" "myfile.tar.gz"
               (world_answering (Return head_response)) no_effects)
        = Return object
        /\ Object.last_modified object
           = {| year := 2024; month := 1; day := 15; hour := 10;
                minute := 30; second := 0; utcoffset := None |}).
Proof.
  split.
  - apply (proj1 (@last_modified_of_header reference_library test_client
                    "mybucket" "myfile.tar.gz"
                    (world_answering (Return (head_response_dated EmptyString)))
                    no_effects (head_response_dated EmptyString) 1024
                    (fun _ => eq_refl) eq_refl eq_refl)).
    reflexivity.
  - apply (proj1 (proj2 (@last_modified_of_header reference_library test_client
                    "mybucket" "myfile.tar.gz"
                    (world_answering (Return head_response))
                    no_effects head_response 1024
                    (fun _ => eq_refl) eq_refl eq_refl))).
    + discriminate.
    + reflexivity.
Defined.

(** C5 as stated fails: a [Last-Modified] that is no date. The call raises
    [ValueError]; it does not return an object dated with the current
    time. *)
Lemma unparseable_last_modified_raises :
  let response := head_response_dated "yesterday" in
  let outcome :=
    snd (Operations.get_object_metadata (H := reference_library) test_client
           "mybucket" "myfile.tar.gz" (world_answering (Return response))
           no_effects) in
  strptime_rfc1123 "yesterday" "%a, %d %b %Y %H:%M:%S %Z" = None
  /\ outcome = Raise ValueError
  /\ ~ (exists object, outcome = Return object).
Proof.
  cbv zeta. split; [reflexivity|]. split; [vm_compute; reflexivity|].
  intros [object Hobject]. vm_compute in Hobject. discriminate.
Qed.

(** ** Decoding the supply-chain responses *)

Ltac next_field items :=
  match goal with
  | |- context [dict_lookup ?k items] =>
      destruct (dict_lookup k items); [cbn | eexists; reflexivity]
  end.

Lemma signature_of_lacks_timestamp `{Library} v :
  lacks_timestamp v -> missing_field (SupplyChain.signature_of v).
Proof.
  intros (items & -> & Hmissing). unfold missing_field, SupplyChain.signature_of.
  cbn. do 5 next_field items. rewrite Hmissing. cbn. now eexists.
Qed.

Lemma sbom_of_lacks_timestamp `{Library} v :
  lacks_timestamp v -> missing_field (SupplyChain.sbom_of v).
Proof.
  intros (items & -> & Hmissing). unfold missing_field, SupplyChain.sbom_of.
  cbn. do 4 next_field items. rewrite Hmissing. cbn. now eexists.
Qed.

Lemma attestation_of_lacks_timestamp `{Library} v :
  lacks_timestamp v -> missing_field (SupplyChain.attestation_of v).
Proof.
  intros (items & -> & Hmissing). unfold missing_field, SupplyChain.attestation_of.
  cbn. do 4 next_field items. rewrite Hmissing. cbn. now eexists.
Qed.

(** With the other fields there, the key of the [KeyError] is [timestamp]. *)
Lemma signature_of_only_timestamp_missing `{Library} id digest sig alg signer :
  SupplyChain.signature_of
    (JObj [("id", id); ("artifactDigest", digest); ("signature", sig);
           ("algorithm", alg); ("signedBy", signer)])
  = Raise (KeyError "timestamp").
Proof. reflexivity. Qed.

(** A loop over the entries stops at the first entry that raises. *)
Lemma mapM_raises {A} (f : json -> result A) before entry after e :
  Forall (decodes f) before ->
  f entry = Raise e ->
  mapM f (before ++ entry :: after) = Raise e.
Proof.
  intros Hbefore Hentry. induction Hbefore as [|x before [y Hy] _ IH]; cbn.
  - now rewrite Hentry.
  - rewrite Hy. cbn. now rewrite IH.
Qed.

Lemma mapM_returns {A} (f : json -> result A) entries values :
  mapM f entries = Return values -> Forall (decodes f) entries.
Proof.
  revert values. induction entries as [|x entries IH]; intros values; cbn.
  - constructor.
  - destruct (f x) as [y|e] eqn:Hx; cbn; [|discriminate].
    destruct (mapM f entries) as [ys|e] eqn:Hrest; cbn; [|discriminate].
    intros _. constructor; [now exists y | now apply (IH ys)].
Qed.

Lemma missing_field_never_decodes {A} (f : json -> result A) v :
  missing_field (f v) -> ~ decodes f v.
Proof. intros [key Hkey] [x Hx]. congruence. Qed.

Section SupplyChainRuns.
Context `{Library}.
Variables (client : Client.t) (bucket key : string) (w : World) (s : Effects).
Variables (response : Response) (body : json).
Hypothesis Hanswer : answers w s response.
Hypothesis Hok : status_code response < 400.
Hypothesis Hbody : json_body response = Some body.

Lemma response_json_body : response_json response = Return body.
Proof. unfold response_json. now rewrite Hbody. Qed.

Lemma sign_artifact_run private_key :
  snd (SupplyChain.sign_artifact client bucket key private_key w s)
  = SupplyChain.signature_of body.
Proof.
  unfold SupplyChain.sign_artifact. run_request w s response Hanswer Hok.
  rewrite IO_bind_run. unfold lift. now rewrite response_json_body.
Qed.

Lemma attach_sbom_run format content :
  snd (SupplyChain.attach_sbom client bucket key format content w s)
  = SupplyChain.sbom_of body.
Proof.
  unfold SupplyChain.attach_sbom. run_request w s response Hanswer Hok.
  rewrite IO_bind_run. unfold lift. now rewrite response_json_body.
Qed.

Lemma get_sbom_run :
  snd (SupplyChain.get_sbom client bucket key w s) = SupplyChain.sbom_of body.
Proof.
  unfold SupplyChain.get_sbom. run_request w s response Hanswer Hok.
  rewrite IO_bind_run. unfold lift. now rewrite response_json_body.
Qed.

Lemma add_attestation_run attestation_type data :
  snd (SupplyChain.add_attestation client bucket key attestation_type data w s)
  = SupplyChain.attestation_of body.
Proof.
  unfold SupplyChain.add_attestation. run_request w s response Hanswer Hok.
  rewrite IO_bind_run. unfold lift. now rewrite response_json_body.
Qed.

Lemma get_signatures_run fields entries :
  body = JObj fields ->
  dict_lookup "signatures" fields = Some (JArr entries) ->
  snd (SupplyChain.get_signatures client bucket key w s)
  = mapM SupplyChain.signature_of entries.
Proof.
  intros Hfields Hentries.
  unfold SupplyChain.get_signatures. run_request w s response Hanswer Hok.
  rewrite IO_bind_run. unfold lift at 1. rewrite response_json_body, Hfields.
  rewrite IO_bind_run. unfold lift. cbn. unfold dict_get. now rewrite Hentries.
Qed.

Lemma verify_signatures_run public_keys fields entries e :
  body = JObj fields ->
  dict_lookup "signatures" fields = Some (JArr entries) ->
  mapM SupplyChain.signature_of entries = Raise e ->
  snd (SupplyChain.verify_signatures client bucket key public_keys w s) = Raise e.
Proof.
  intros Hfields Hentries Hraise.
  unfold SupplyChain.verify_signatures. run_request w s response Hanswer Hok.
  rewrite IO_bind_run. unfold lift at 1. rewrite response_json_body, Hfields.
  rewrite IO_bind_run. unfold lift at 1. cbn. unfold dict_get.
  rewrite Hentries. cbn. rewrite IO_bind_run. unfold lift at 1.
  now rewrite Hraise.
Qed.

Lemma verify_signatures_returns public_keys fields entries result :
  body = JObj fields ->
  dict_lookup "signatures" fields = Some (JArr entries) ->
  snd (SupplyChain.verify_signatures client bucket key public_keys w s)
  = Return result ->
  exists signatures, mapM SupplyChain.signature_of entries = Return signatures.
Proof.
  intros Hfields Hentries Hresult.
  destruct (mapM SupplyChain.signature_of entries) as [signatures|e] eqn:Hloop;
    [now exists signatures|].
  rewrite (verify_signatures_run public_keys fields entries e Hfields Hentries Hloop)
    in Hresult.
  discriminate.
Qed.

Lemma get_attestations_run fields entries :
  body = JObj fields ->
  dict_lookup "attestations" fields = Some (JArr entries) ->
  snd (SupplyChain.get_attestations client bucket key w s)
  = mapM SupplyChain.attestation_of entries.
Proof.
  intros Hfields Hentries.
  unfold SupplyChain.get_attestations. run_request w s response Hanswer Hok.
  rewrite IO_bind_run. unfold lift at 1. rewrite response_json_body, Hfields.
  rewrite IO_bind_run. unfold lift. cbn. unfold dict_get. now rewrite Hentries.
Qed.

End SupplyChainRuns.

(** C6. When the response to a supply-chain call is an object without
    [timestamp] (for the calls that return a list: when an entry of the list
    is), the call does not return: there is no fallback to the current time.
    [sign_artifact], [attach_sbom], [get_sbom] and [add_attestation] raise
    [KeyError]; so do [get_signatures], [verify_signatures] and
    [get_attestations] when the entries before that one decode. A [KeyError]
    is neither an error of the status mapper nor an error of the transport. *)
Theorem missing_timestamp_raises_KeyError `{Library}
    client bucket key w s response body
    (Hanswer : answers w s response)
    (Hok : status_code response < 400)
    (Hbody : json_body response = Some body) :
  (lacks_timestamp body ->
     (forall private_key,
         missing_field (snd (SupplyChain.sign_artifact client bucket key private_key w s)))
     /\ (forall format content,
           missing_field (snd (SupplyChain.attach_sbom client bucket key format content w s)))
     /\ missing_field (snd (SupplyChain.get_sbom client bucket key w s))
     /\ (forall attestation_type data,
           missing_field
             (snd (SupplyChain.add_attestation client bucket key attestation_type data w s))))
  /\ (forall fields before entry after,
        body = JObj fields ->
        dict_lookup "signatures" fields = Some (JArr (before ++ entry :: after)) ->
        lacks_timestamp entry ->
        (~ (exists signatures,
               snd (SupplyChain.get_signatures client bucket key w s) = Return signatures))
        /\ (forall public_keys,
              ~ (exists verdict,
                    snd (SupplyChain.verify_signatures client bucket key public_keys w s)
                    = Return verdict))
        /\ (Forall (decodes SupplyChain.signature_of) before ->
            missing_field (snd (SupplyChain.get_signatures client bucket key w s))
            /\ forall public_keys,
                 missing_field
                   (snd (SupplyChain.verify_signatures client bucket key public_keys w s))))
  /\ (forall fields before entry after,
        body = JObj fields ->
        dict_lookup "attestations" fields = Some (JArr (before ++ entry :: after)) ->
        lacks_timestamp entry ->
        (~ (exists attestations,
               snd (SupplyChain.get_attestations client bucket key w s)
               = Return attestations))
        /\ (Forall (decodes SupplyChain.attestation_of) before ->
            missing_field (snd (SupplyChain.get_attestations client bucket key w s))))
  /\ (forall field,
        is_status_error (KeyError field) = false
        /\ is_transport_error (KeyError field) = false).
Proof.
  split; [|split; [|split]].
  - intros Hlacks. repeat split; intros.
    + rewrite (sign_artifact_run _ _ _ _ _ _ _ Hanswer Hok Hbody).
      now apply signature_of_lacks_timestamp.
    + rewrite (attach_sbom_run _ _ _ _ _ _ _ Hanswer Hok Hbody).
      now apply sbom_of_lacks_timestamp.
    + rewrite (get_sbom_run _ _ _ _ _ _ _ Hanswer Hok Hbody).
      now apply sbom_of_lacks_timestamp.
    + rewrite (add_attestation_run _ _ _ _ _ _ _ Hanswer Hok Hbody).
      now apply attestation_of_lacks_timestamp.
  - intros fields before entry after Hfields Hentries Hlacks.
    pose proof (signature_of_lacks_timestamp entry Hlacks) as Hentry.
    assert (Hnever : forall signatures,
               mapM SupplyChain.signature_of (before ++ entry :: after)
               <> Return signatures).
    { intros signatures Hloop. apply mapM_returns in Hloop.
      apply Forall_app in Hloop as [_ Hloop]. inversion Hloop; subst.
      now apply (missing_field_never_decodes SupplyChain.signature_of entry). }
    split; [|split].
    + intros [signatures Hreturn].
      rewrite (get_signatures_run _ _ _ _ _ _ _ Hanswer Hok Hbody _ _ Hfields Hentries)
        in Hreturn.
      now apply (Hnever signatures).
    + intros public_keys [verdict Hreturn].
      destruct (verify_signatures_returns _ _ _ _ _ _ _ Hanswer Hok Hbody
                  _ _ _ _ Hfields Hentries Hreturn) as [signatures Hloop].
      now apply (Hnever signatures).
    + intros Hbefore. destruct Hentry as [field Hentry].
      pose proof (mapM_raises _ before entry after _ Hbefore Hentry) as Hloop.
      split.
      * exists field.
        now rewrite (get_signatures_run _ _ _ _ _ _ _ Hanswer Hok Hbody
                       _ _ Hfields Hentries).
      * intros public_keys. exists field.
        apply (verify_signatures_run _ _ _ _ _ _ _ Hanswer Hok Hbody
                 _ _ _ _ Hfields Hentries Hloop).
  - intros fields before entry after Hfields Hentries Hlacks.
    pose proof (attestation_of_lacks_timestamp entry Hlacks) as Hentry.
    rewrite (get_attestations_run _ _ _ _ _ _ _ Hanswer Hok Hbody _ _ Hfields Hentries).
    split.
    + intros [attestations Hloop]. apply mapM_returns in Hloop.
      apply Forall_app in Hloop as [_ Hloop]. inversion Hloop; subst.
      now apply (missing_field_never_decodes SupplyChain.attestation_of entry).
    + intros Hbefore. destruct Hentry as [field Hentry]. exists field.
      now apply mapM_raises.
  - intros field. split; reflexivity.
Qed.

Lemma missing_timestamp_raises_KeyError_witness :
  missing_field
    (snd (SupplyChain.get_sbom (H := reference_library) test_client
            "mybucket" "myfile.tar.gz"
            (world_answering (Return (json_response sbom_without_timestamp)))
            no_effects))
  /\ missing_field
       (snd (SupplyChain.get_signatures (H := reference_library) test_client
               "mybucket" "myfile.tar.gz"
               (world_answering
                  (Return (json_response (JObj signatures_without_timestamp))))
               no_effects)).
Proof.
  split.
  - apply (proj1 (@missing_timestamp_raises_KeyError reference_library test_client
                    "mybucket" "myfile.tar.gz"
                    (world_answering (Return (json_response sbom_without_timestamp)))
                    no_effects (json_response sbom_without_timestamp)
                    sbom_without_timestamp
                    (fun _ => eq_refl) eq_refl eq_refl)).
    eexists. split; reflexivity.
  - apply (proj1 (proj2 (@missing_timestamp_raises_KeyError reference_library
                    test_client "mybucket" "myfile.tar.gz"
                    (world_answering
                       (Return (json_response (JObj signatures_without_timestamp))))
                    no_effects (json_response (JObj signatures_without_timestamp))
                    (JObj signatures_without_timestamp)
                    (fun _ => eq_refl) eq_refl eq_refl))
             signatures_without_timestamp
             [signed "sig-1" [("timestamp", JStr "2024-01-15T10:30:00Z")]]
             (signed "sig-2" []) []).
    + reflexivity.
    + reflexivity.
    + eexists. split; reflexivity.
    + constructor; [|constructor]. eexists. vm_compute. reflexivity.
Defined.

(** The key of the error is the missing field. *)
Example get_sbom_without_timestamp :
  snd (SupplyChain.get_sbom (H := reference_library) test_client
         "mybucket" "myfile.tar.gz"
         (world_answering (Return (json_response sbom_without_timestamp)))
         no_effects)
  = Raise (KeyError "timestamp").
Proof. vm_compute. reflexivity. Qed.

(** ** Multipart completion *)

(** C7. [complete_multipart_upload] sends one POST whose JSON body is
    [{"parts": [...]}] with one entry per part, the i-th entry holding the
    part number and the ETag of the i-th part of the caller's list, whatever
    the part numbers are; and it returns when the session answers below
    400. *)
Theorem complete_multipart_upload_keeps_order `{Library}
    client bucket key upload_id (parts : list CompletedPart.t) w s :
  (exists request entries,
      sent (fst (Operations.complete_multipart_upload client bucket key upload_id
                   parts w s))
      = (sent s ++ [request])%list
      /\ method request = "POST"
      /\ kw_params (kwargs request) = Some [("uploadId", JStr upload_id)]
      /\ kw_json (kwargs request) = Some (JObj [("parts", JArr entries)])
      /\ List.length entries = List.length parts
      /\ forall (i : nat) p, parts !! i = Some p -> entries !! i = Some (part_entry p))
  /\ (forall response,
        answers w s response ->
        status_code response < 400 ->
        snd (Operations.complete_multipart_upload client bucket key upload_id
               parts w s)
        = Return tt).
Proof.
  unfold Operations.complete_multipart_upload. split.
  - rewrite IO_bind_run.
    match goal with
    | |- context [Client._request ?c ?m ?u ?h ?k w s] =>
        destruct (request_sends c m u h k w s)
          as (request & Hsent & Hmethod & _ & _ & Hparams & _ & Hjson)
    end.
    exists request, (map part_entry parts).
    repeat split.
    + now destruct (Client._request _ _ _ _ _ w s) as [s' [response|e]].
    + assumption.
    + assumption.
    + assumption.
    + apply length_map.
    + intros i p Hi. rewrite list_lookup_fmap, Hi. reflexivity.
  - intros response Hanswer Hok. run_request w s response Hanswer Hok.
    reflexivity.
Qed.

Lemma complete_multipart_upload_keeps_order_witness :
  snd (Operations.complete_multipart_upload (H := reference_library) test_client
         "mybucket" "large.bin" "upload-123" parts_out_of_order
         (world_answering (Return created_response)) no_effects)
  = Return tt.
Proof.
  apply (proj2 (@complete_multipart_upload_keeps_order reference_library
                  test_client "mybucket" "large.bin" "upload-123"
                  parts_out_of_order
                  (world_answering (Return created_response)) no_effects)
           created_response).
  - intros request. reflexivity.
  - cbn. lia.
Defined.

Example complete_multipart_upload_body :
  map (fun request => kw_json (kwargs request))
    (sent (fst (Operations.complete_multipart_upload (H := reference_library)
                  test_client "mybucket" "large.bin" "upload-123"
                  parts_out_of_order
                  (world_answering (Return created_response)) no_effects)))
  = [Some (JObj [("parts",
                  JArr [JObj [("partNumber", JNum 7); ("etag", JStr "etag-7")];
                        JObj [("partNumber", JNum 2); ("etag", JStr "etag-2")]])])].
Proof. vm_compute. reflexivity. Qed.

(** ** Listing objects *)

Lemma object_of_sent `{Library} obj w s :
  sent (fst (Operations.object_of obj w s)) = sent s.
Proof.
  unfold Operations.object_of. do 3 run_lift.
  rewrite IO_bind_run.
  match goal with |- context [truthy ?v] => destruct (truthy v) end.
  - rewrite IO_bind_run. unfold lift at 1.
    destruct (json_get "lastModified" (JStr "") obj ≫= _); [|reflexivity].
    unfold lift at 1. destruct (or_ValueError _); [|reflexivity].
    do 2 run_lift. reflexivity.
  - unfold datetime_now. do 2 run_lift. reflexivity.
Qed.

Lemma objects_of_sent `{Library} contents : forall w s,
  sent (fst (mapM Operations.object_of contents w s)) = sent s.
Proof.
  induction contents as [|obj contents IH]; intros w s; [reflexivity|].
  cbn [mapM]. rewrite IO_bind_run.
  pose proof (object_of_sent obj w s) as Hobj.
  destruct (Operations.object_of obj w s) as [s1 [object|e]]; [|exact Hobj].
  rewrite IO_bind_run. pose proof (IH w s1) as Hrest.
  destruct (mapM Operations.object_of contents w s1) as [s2 [objects|e]];
    cbn in *; congruence.
Qed.

Lemma list_objects_params_lookup prefix max_keys :
  dict_lookup "prefix" (Operations.list_objects_params prefix max_keys)
  = (if String.eqb prefix "" then None else Some (JStr prefix))
  /\ dict_lookup "max-keys" (Operations.list_objects_params prefix max_keys)
     = (if Z.eqb max_keys 0 then None else Some (JNum max_keys)).
Proof.
  unfold Operations.list_objects_params.
  destruct (String.eqb prefix ""), (Z.eqb max_keys 0); split; reflexivity.
Qed.

Lemma list_objects_result `{Library} client bucket prefix max_keys w s response fields :
  answers w s response ->
  status_code response < 400 ->
  json_body response = Some (JObj fields) ->
  exists s1,
    snd (Operations.list_objects client bucket prefix max_keys w s)
    = match json_iter (dict_get "contents" (JArr []) fields) with
      | Return contents =>
          match snd (mapM Operations.object_of contents w s1) with
          | Return objects =>
              Return {| ListObjectsResult.objects := objects;
                        ListObjectsResult.prefix := dict_get "prefix" (JStr "") fields;
                        ListObjectsResult.max_keys :=
                          dict_get "maxKeys" (JNum 1000) fields;
                        ListObjectsResult.is_truncated :=
                          dict_get "isTruncated" (JBool false) fields |}
          | Raise e => Raise e
          end
      | Raise e => Raise e
      end.
Proof.
  intros Hanswer Hok Hbody. unfold Operations.list_objects.
  run_request w s response Hanswer Hok. exists (add_sent request s).
  rewrite IO_bind_run. unfold lift at 1, response_json. rewrite Hbody.
  rewrite IO_bind_run. unfold lift at 1. cbn [json_get mbind result_bind].
  destruct (json_iter (dict_get "contents" (JArr []) fields)) as [contents|];
    [|reflexivity].
  rewrite IO_bind_run.
  destruct (mapM Operations.object_of contents w _) as [s2 [objects|e]];
    reflexivity.
Qed.

(** C8. [list_objects] sends one GET whose query parameters hold [prefix]
    with the given value exactly when the prefix is not empty, and
    [max-keys] with the given value exactly when [max_keys] is not 0. A
    result it returns has as [prefix] the value the response body has under
    [prefix] (the empty string when the body has none), and it returns one
    when the session answers below 400 with a JSON object whose [contents]
    decode. *)
Theorem list_objects_prefix `{Library} client bucket prefix max_keys w s :
  (exists request params,
      sent (fst (Operations.list_objects client bucket prefix max_keys w s))
      = (sent s ++ [request])%list
      /\ method request = "GET"
      /\ kw_params (kwargs request) = Some params
      /\ (dict_lookup "prefix" params = Some (JStr prefix) <-> prefix <> EmptyString)
      /\ (prefix = EmptyString -> dict_lookup "prefix" params = None)
      /\ (dict_lookup "max-keys" params = Some (JNum max_keys) <-> max_keys <> 0)
      /\ (max_keys = 0 -> dict_lookup "max-keys" params = None))
  /\ (forall response fields,
        answers w s response ->
        status_code response < 400 ->
        json_body response = Some (JObj fields) ->
        (forall result,
            snd (Operations.list_objects client bucket prefix max_keys w s)
            = Return result ->
            (forall echoed,
                dict_lookup "prefix" fields = Some echoed ->
                ListObjectsResult.prefix result = echoed)
            /\ (dict_lookup "prefix" fields = None ->
                ListObjectsResult.prefix result = JStr EmptyString))
        /\ (forall contents,
              json_iter (dict_get "contents" (JArr []) fields) = Return contents ->
              (forall s0, exists objects,
                    snd (mapM Operations.object_of contents w s0) = Return objects) ->
              exists result,
                snd (Operations.list_objects client bucket prefix max_keys w s)
                = Return result
                /\ (forall echoed,
                      dict_lookup "prefix" fields = Some echoed ->
                      ListObjectsResult.prefix result = echoed)
                /\ (dict_lookup "prefix" fields = None ->
                    ListObjectsResult.prefix result = JStr EmptyString))).
Proof.
  unfold Operations.list_objects. split.
  - rewrite IO_bind_run.
    match goal with
    | |- context [Client._request ?c ?m ?u ?h ?k w s] =>
        destruct (request_sends c m u h k w s)
          as (request & Hsent & Hmethod & _ & _ & Hparams & _);
        destruct (Client._request c m u h k w s) as [s1 [response|e]]
    end; cbn [fst] in Hsent.
    2: { exists request, (Operations.list_objects_params prefix max_keys).
         destruct (list_objects_params_lookup prefix max_keys) as [Hp Hm].
         rewrite Hp, Hm. repeat split; try assumption.
         all: try (destruct (String.eqb_spec prefix ""); intros; congruence).
         all: destruct (Z.eqb_spec max_keys 0); intros; congruence. }
    exists request, (Operations.list_objects_params prefix max_keys).
    destruct (list_objects_params_lookup prefix max_keys) as [Hp Hm].
    rewrite Hp, Hm. repeat split; try assumption.
    all: try (destruct (String.eqb_spec prefix ""); intros; congruence).
    all: try (destruct (Z.eqb_spec max_keys 0); intros; congruence).
    rewrite <- Hsent.
    rewrite IO_bind_run. unfold lift at 1.
    destruct (response_json response); [|reflexivity].
    rewrite IO_bind_run. unfold lift at 1.
    destruct (json_get "contents" (JArr []) v ≫= _) as [contents|]; [|reflexivity].
    rewrite IO_bind_run. pose proof (objects_of_sent contents w s1) as Hloop.
    destruct (mapM Operations.object_of contents w s1) as [s2 [objects|e]];
      [|exact Hloop].
    cbn [fst] in Hloop.
    do 3 (rewrite IO_bind_run; unfold lift at 1;
          match goal with
          | |- context [match ?r with Return _ => _ | Raise _ => _ end] =>
              destruct r; [|exact Hloop]
          end).
    exact Hloop.
  - intros response fields Hanswer Hok Hbody.
    destruct (list_objects_result client bucket prefix max_keys w s response fields
                Hanswer Hok Hbody) as [s1 Hresult].
    unfold Operations.list_objects in Hresult. rewrite Hresult.
    assert ((forall echoed,
                dict_lookup "prefix" fields = Some echoed ->
                dict_get "prefix" (JStr EmptyString) fields = echoed)
            /\ (dict_lookup "prefix" fields = None ->
                dict_get "prefix" (JStr EmptyString) fields = JStr EmptyString))
      as Hecho.
    { unfold dict_get. split.
      - now intros echoed ->.
      - now intros ->. }
    split.
    + intros result.
      destruct (json_iter (dict_get "contents" (JArr []) fields)) as [contents|];
        [|discriminate].
      destruct (snd (mapM Operations.object_of contents w s1)) as [objects|e];
        [|discriminate].
      intros [= <-]. exact Hecho.
    + intros contents -> Hdecode. destruct (Hdecode s1) as [objects ->].
      eexists. split; [reflexivity | exact Hecho].
Qed.

Lemma list_objects_prefix_witness :
  let run := Operations.list_objects (H := reference_library) test_client
               "mybucket" "app/" 1000
               (world_answering (Return (json_response (JObj listing_fields))))
               no_effects in
  (exists request params,
      sent (fst run) = [request]
      /\ kw_params (kwargs request) = Some params
      /\ dict_lookup "prefix" params = Some (JStr "app/")
      /\ dict_lookup "max-keys" params = Some (JNum 1000))
  /\ (exists result,
        snd run = Return result
        /\ ListObjectsResult.prefix result = JStr "app/").
Proof.
  cbv zeta.
  destruct (@list_objects_prefix reference_library test_client
              "mybucket" "app/" 1000
              (world_answering (Return (json_response (JObj listing_fields))))
              no_effects) as [Hrequest Hresult].
  split.
  - destruct Hrequest
      as (request & params & Hsent & _ & Hparams & Hprefix & _ & Hmax & _).
    exists request, params.
    split; [exact Hsent | split; [exact Hparams | split]].
    + apply Hprefix. discriminate.
    + apply Hmax. discriminate.
  - destruct (proj2 (Hresult (json_response (JObj listing_fields)) listing_fields
                       (fun _ => eq_refl) eq_refl eq_refl)
                [JObj [("key", JStr "app/file1.txt"); ("size", JNum 1024);
                       ("lastModified", JStr "2024-01-15T10:30:00Z");
                       ("etag", JStr "abc123")];
                 JObj [("key", JStr "app/file2.txt"); ("size", JNum 2048)]]
                eq_refl)
      as (result & Hreturn & Hecho & _).
    + intros s0. eexists. reflexivity.
    + exists result. split; [exact Hreturn|]. apply Hecho. reflexivity.
Defined.

Example list_objects_of_test :
  let run := Operations.list_objects (H := reference_library) test_client
               "mybucket" "app/" 1000
               (world_answering (Return (json_response (JObj listing_fields))))
               no_effects in
  map (fun request => kw_params (kwargs request)) (sent (fst run))
  = [Some [("prefix", JStr "app/"); ("max-keys", JNum 1000)]]
  /\ (exists result,
         snd run = Return result
         /\ ListObjectsResult.prefix result = JStr "app/"
         /\ map Object.key (ListObjectsResult.objects result)
            = [JStr "app/file1.txt"; JStr "app/file2.txt"]).
Proof.
  cbv zeta. split; [vm_compute; reflexivity|].
  eexists. split; [vm_compute; reflexivity|]. split; reflexivity.
Qed.

(** ** The configuration *)

(** [rstrip] removes the characters [c] at the end of [s], all of them and
    nothing else. *)
Lemma rstrip_spec c s :
  (exists n, s = rstrip c s +:+ repeated c n) /\ ends_with c (rstrip c s) = false.
Proof.
  induction s as [|a rest [[n Hrest] Hend]]; [split; [now exists O | reflexivity]|].
  cbn [rstrip].
  assert (Hkeep : String a rest = String a (rstrip c rest) +:+ repeated c n).
  { change (String a rest = String a (rstrip c rest +:+ repeated c n)).
    now f_equal. }
  destruct (Ascii.eqb_spec a c) as [->|Hne];
    destruct (String.eqb_spec (rstrip c rest) "") as [Hnil|Hcons]; cbn [andb].
  - split; [|reflexivity]. exists (S n). rewrite Hnil in Hrest.
    cbn in Hrest. now rewrite Hrest.
  - split; [now exists n|].
    cbn [ends_with]. now destruct (rstrip c rest).
  - split; [now exists n|].
    rewrite Hnil. cbn. now apply Ascii.eqb_neq.
  - split; [now exists n|].
    cbn [ends_with]. now destruct (rstrip c rest).
Qed.

(** C9. [Config] raises [ValueError] for a [base_url] that is [None] or
    empty; nothing is sent, a [Config] being needed to make a client. For
    any other [base_url] it stores the URL without the slashes at its end,
    and the other fields as given. *)
Theorem Config_init_base_url base_url token timeout insecure_skip_verify user_agent :
  (base_url = None \/ base_url = Some EmptyString ->
   Config.init base_url token timeout insecure_skip_verify user_agent
   = Raise ValueError)
  /\ (forall url,
        base_url = Some url ->
        url <> EmptyString ->
        exists config,
          Config.init base_url token timeout insecure_skip_verify user_agent
          = Return config
          /\ Config.base_url config = rstrip "/"%char url
          /\ (exists n, url = Config.base_url config +:+ repeated "/"%char n)
          /\ ends_with "/"%char (Config.base_url config) = false
          /\ Config.token config = token
          /\ Config.timeout config = timeout
          /\ Config.insecure_skip_verify config = insecure_skip_verify
          /\ Config.user_agent config = user_agent).
Proof.
  split.
  - intros [-> | ->]; reflexivity.
  - intros url -> Hurl. unfold Config.init.
    destruct (String.eqb_spec url ""); [contradiction|].
    eexists. split; [reflexivity|]. cbn.
    destruct (rstrip_spec "/"%char url) as [Hsplit Hend].
    repeat split; assumption.
Qed.

Lemma Config_init_base_url_witness :
  Config.init (Some EmptyString) None 60 false "astore-python/1.0.0"
  = Raise ValueError
  /\ exists config,
       Config.init (Some "https://test.example.com/") None 60 false
         "astore-python/1.0.0"
       = Return config
       /\ Config.base_url config = "https://test.example.com".
Proof.
  split.
  - apply (proj1 (Config_init_base_url (Some EmptyString) None 60 false
                    "astore-python/1.0.0")).
    now right.
  - destruct (proj2 (Config_init_base_url (Some "https://test.example.com/") None
                       60 false "astore-python/1.0.0")
                "https://test.example.com/" eq_refl)
      as (config & Hconfig & Hbase & _); [discriminate|].
    exists config. split; [exact Hconfig | exact Hbase].
Defined.

(** ** ETags *)

Lemma lstrip_spec c s :
  (exists n, s = repeated c n +:+ lstrip c s) /\ begins_with c (lstrip c s) = false.
Proof.
  induction s as [|a rest [[n Hrest] Hbegin]]; [split; [now exists O | reflexivity]|].
  cbn [lstrip]. destruct (Ascii.eqb_spec a c) as [->|Hne].
  - split; [|assumption]. exists (S n).
    change (String c rest = String c (repeated c n +:+ lstrip c rest)).
    now f_equal.
  - split; [now exists O|]. cbn. now apply Ascii.eqb_neq.
Qed.

Lemma rstrip_begins_with c s :
  begins_with c s = false -> begins_with c (rstrip c s) = false.
Proof.
  destruct s as [|a rest]; [reflexivity|]. cbn [begins_with rstrip].
  intros Hne. rewrite Hne. assumption.
Qed.

(** [strip] removes the characters [c] at both ends of [s], all of them and
    nothing else. *)
Lemma strip_spec c s :
  (exists i j, s = repeated c i +:+ strip c s +:+ repeated c j)
  /\ begins_with c (strip c s) = false
  /\ ends_with c (strip c s) = false.
Proof.
  unfold strip.
  destruct (lstrip_spec c s) as [[i Hleft] Hbegin].
  destruct (rstrip_spec c (lstrip c s)) as [[j Hright] Hend].
  repeat split.
  - exists i, j. now rewrite <- Hright.
  - now apply rstrip_begins_with.
  - assumption.
Qed.

Lemma upload_part_result `{Library} client bucket key upload_id part_number data size
    w s response :
  answers w s response ->
  status_code response < 400 ->
  snd (Operations.upload_part client bucket key upload_id part_number data size w s)
  = Return (strip "034"%char (ci_get "ETag" "" (headers response))).
Proof.
  intros Hanswer Hok. unfold Operations.upload_part.
  run_request w s response Hanswer Hok. reflexivity.
Qed.

(** C10. When the session answers below 400, [upload_part] returns the
    [ETag] header of the response without the double quotes at its ends, and
    the empty string when there is no such header; [get_object_metadata],
    when the size and the date of the response decode, returns an object
    whose [etag] is that same string. *)
Theorem etag_is_stripped `{Library} client bucket key w s response
    (Hanswer : answers w s response)
    (Hok : status_code response < 400) :
  let etag := strip "034"%char (ci_get "ETag" "" (headers response)) in
  (forall upload_id part_number data size,
      snd (Operations.upload_part client bucket key upload_id part_number data size w s)
      = Return etag)
  /\ (forall n last_modified,
        Operations.content_length response = Return n ->
        (if String.eqb (ci_get "Last-Modified" "" (headers response)) ""
         then Some (clock w (ticks s))
         else strptime (ci_get "Last-Modified" "" (headers response))
                       "%a, %d %b %Y %H:%M:%S %Z") = Some last_modified ->
        exists object,
          snd (Operations.get_object_metadata client bucket key w s) = Return object
          /\ Object.etag object = JStr etag)
  /\ (ci_lookup "ETag" (headers response) = None -> etag = EmptyString)
  /\ (forall value,
        ci_lookup "ETag" (headers response) = Some value ->
        (exists i j,
            value = repeated "034"%char i +:+ etag +:+ repeated "034"%char j)
        /\ begins_with "034"%char etag = false
        /\ ends_with "034"%char etag = false).
Proof.
  intros etag. split; [|split; [|split]].
  - intros. now apply upload_part_result.
  - intros n last_modified Hlength Hdate.
    rewrite (get_object_metadata_result client bucket key w s response n
               Hanswer Hok Hlength), Hdate.
    now eexists.
  - intros Habsent. subst etag. unfold ci_get. now rewrite Habsent.
  - intros value Hvalue. subst etag. unfold ci_get. rewrite Hvalue.
    apply strip_spec.
Qed.

Lemma etag_is_stripped_witness :
  snd (Operations.upload_part (H := reference_library) test_client
         "mybucket" "large.bin" "upload-123" 1 (list_byte_of_string "part data") 9
         (world_answering (Return created_response)) no_effects)
  = Return EmptyString
  /\ exists object,
       snd (Operations.get_object_metadata (H := reference_library) test_client
              "mybucket" "myfile.tar.gz"
              (world_answering (Return head_response)) no_effects)
       = Return object
       /\ Object.etag object = JStr "abc123".
Proof.
  split.
  - apply (proj1 (@etag_is_stripped reference_library test_client
                    "mybucket" "large.bin"
                    (world_answering (Return created_response)) no_effects
                    created_response (fun _ => eq_refl) eq_refl)).
  - apply (proj1 (proj2 (@etag_is_stripped reference_library test_client
                    "mybucket" "myfile.tar.gz"
                    (world_answering (Return head_response)) no_effects
                    head_response (fun _ => eq_refl) eq_refl))
             1024
             {| year := 2024; month := 1; day := 15; hour := 10;
                minute := 30; second := 0; utcoffset := None |});
      reflexivity.
Defined.

(** * Further properties of the client *)

(** ** The error mapper on every response *)

(** X1. [raise_for_status] returns exactly for the statuses below 400. What
    it raises otherwise is an [ArtifactStoreError] or one of its subclasses,
    whatever the body of the response: no exception of the [try] block gets
    out. *)
Theorem raise_for_status_raises_only_status_errors response :
  (raise_for_status response = Return tt <-> status_code response < 400)
  /\ (forall e,
        raise_for_status response = Raise e ->
        400 <= status_code response
        /\ e = status_error response
        /\ is_status_error e = true).
Proof.
  unfold raise_for_status, status_error.
  destruct (Z.ltb_spec (status_code response) 400) as [Hlt|Hge]; split.
  - tauto.
  - discriminate.
  - split; [discriminate | lia].
  - intros e [= <-]. repeat split; [assumption|].
    now destruct (error_map (status_code response)) as [[]|].
Qed.

Lemma raise_for_status_raises_only_status_errors_witness :
  400 <= status_code not_found_response
  /\ StoreError NotFoundError (JStr "no such key") (Some 404)
     = status_error not_found_response
  /\ is_status_error (StoreError NotFoundError (JStr "no such key") (Some 404)) = true.
Proof.
  apply (proj2 (raise_for_status_raises_only_status_errors not_found_response)).
  reflexivity.
Defined.

(** X2. The message of the error, for a status of 400 or more. A body that
    is no JSON, or JSON that is no object (a list, a string, a number), gives
    the text of the body, and [HTTP <code>] when the text is empty. An object
    without the key [error] gives the text of the body; an object with it
    gives its value, of whatever type. *)
Theorem raise_for_status_message response (Hstatus : 400 <= status_code response) :
  exists cls code,
    raise_for_status response = Raise (StoreError cls (resolve_message response) code)
    /\ ((json_body response = None
         \/ (exists v, json_body response = Some v /\ forall items, v <> JObj items)) ->
        resolve_message response
        = JStr (if String.eqb (text response) EmptyString
                then "HTTP " +:+ pretty (status_code response)
                else text response))
    /\ (forall items,
          json_body response = Some (JObj items) ->
          resolve_message response
          = match dict_lookup "error" items with
            | Some value => value
            | None => JStr (text response)
            end).
Proof.
  unfold raise_for_status.
  destruct (Z.ltb_spec (status_code response) 400) as [Hlt|_]; [lia|].
  assert (exists cls code, forall message,
             construct (match error_map (status_code response) with
                        | Some c => c
                        | None => ArtifactStoreError
                        end) message
             = StoreError cls message code) as (cls & code & Hconstruct).
  { destruct (error_map (status_code response)) as [[]|]; now eexists _, _. }
  exists cls, code. rewrite Hconstruct. split; [reflexivity|]. split.
  - unfold resolve_message, response_json.
    intros [-> | (v & -> & Hv)]; cbn.
    + now destruct (String.eqb (text response) "").
    + destruct v; cbn; try now destruct (String.eqb (text response) "").
      now contradiction (Hv items).
  - intros items Hbody. unfold resolve_message, response_json. rewrite Hbody.
    reflexivity.
Qed.

Lemma raise_for_status_message_witness :
  exists cls code,
    raise_for_status (teapot_response EmptyString)
    = Raise (StoreError cls (resolve_message (teapot_response EmptyString)) code)
    /\ resolve_message (teapot_response EmptyString) = JStr "HTTP 418".
Proof.
  destruct (raise_for_status_message (teapot_response EmptyString))
    as (cls & code & Hraise & Hmessage & _).
  - cbn. lia.
  - exists cls, code. split; [exact Hraise|].
    rewrite Hmessage; [reflexivity | now left].
Defined.

(** ** One request per call *)

Lemma request_run `{Library} client m u headers kw w s :
  Client._request client m u headers kw w s
  = (after_send w (request_of client m u headers kw) s,
     match session_request w (sent s) (request_of client m u headers kw) with
     | Return response =>
         match raise_for_status response with
         | Return _ => Return response
         | Raise e => Raise e
         end
     | Raise e => Raise e
     end).
Proof.
  unfold Client._request, request_of. rewrite !IO_bind_run. unfold send, lift.
  assert (match kw_timeout kw with
          | Some t => Some t
          | None => Some (Config.timeout (Client.config client))
          end
          = Some (match kw_timeout kw with
                  | Some t => t
                  | None => Config.timeout (Client.config client)
                  end)) as -> by now destruct (kw_timeout kw).
  destruct (session_request w (sent s) _) as [response|e]; [|reflexivity].
  now destruct (raise_for_status response).
Qed.

Lemma request_fails `{Library} client m u headers kw w s e :
  fails w s e ->
  Client._request client m u headers kw w s
  = (after_send w (request_of client m u headers kw) s, Raise e).
Proof. intros Hfails. now rewrite request_run, Hfails. Qed.

Lemma request_refused `{Library} client m u headers kw w s response :
  answers w s response ->
  400 <= status_code response ->
  Client._request client m u headers kw w s
  = (after_send w (request_of client m u headers kw) s, Raise (status_error response)).
Proof.
  intros Hanswer Hstatus. rewrite request_run, Hanswer.
  unfold raise_for_status, status_error.
  destruct (Z.ltb_spec (status_code response) 400); [lia | reflexivity].
Qed.

Lemma request_accepted `{Library} client m u headers kw w s response :
  answers w s response ->
  status_code response < 400 ->
  Client._request client m u headers kw w s
  = (after_send w (request_of client m u headers kw) s, Return response).
Proof.
  intros Hanswer Hstatus. rewrite request_run, Hanswer.
  unfold raise_for_status.
  destruct (Z.ltb_spec (status_code response) 400); [reflexivity | lia].
Qed.

(** [_request] calls the session once, whatever comes of it, and does
    nothing else: it reads no clock, writes nothing, reports no progress
    but what the session's reading of a body that is a [ProgressReader]
    reports, and it does not try again. The request has the method, the URL, the
    parameters, the data and the JSON it was given, and the timeout of the
    configuration unless the caller gave one. An exception of the session
    passes through; a response goes through [raise_for_status] and is
    returned when that returns. *)
Lemma request_is_sent_once `{Library} client m u headers kw w s :
  exists request,
    fst (Client._request client m u headers kw w s) = after_send w request s
    /\ method request = m
    /\ url request = u
    /\ kw_params (kwargs request) = kw_params kw
    /\ kw_data (kwargs request) = kw_data kw
    /\ kw_json (kwargs request) = kw_json kw
    /\ kw_stream (kwargs request) = kw_stream kw
    /\ kw_timeout (kwargs request)
       = Some (match kw_timeout kw with
               | Some t => t
               | None => Config.timeout (Client.config client)
               end)
    /\ snd (Client._request client m u headers kw w s)
       = match session_request w (sent s) request with
         | Return response =>
             match raise_for_status response with
             | Return _ => Return response
             | Raise e => Raise e
             end
         | Raise e => Raise e
         end.
Proof.
  exists (request_of client m u headers kw). rewrite request_run.
  repeat split.
Qed.

Lemma request_rejected `{Library} client m u headers kw w s e :
  refused w s e ->
  Client._request client m u headers kw w s
  = (after_send w (request_of client m u headers kw) s, Raise e).
Proof.
  intros [Hfails | (response & Hanswer & Hstatus & ->)].
  - now apply request_fails.
  - now apply request_refused.
Qed.

Ltac rejected Hrefused :=
  split;
  [ rewrite IO_bind_run, (request_rejected _ _ _ _ _ _ _ _ Hrefused); reflexivity
  | eexists; rewrite IO_bind_run, (request_rejected _ _ _ _ _ _ _ _ Hrefused);
    reflexivity ].

(** X3. When the request of a call is refused (the session raises, or it
    answers with a status of 400 or more), the call raises that exception,
    unchanged, after that one request: no operation tries again, none decodes
    the body of an error response, none turns the error into a result. *)
Theorem operations_raise_what_the_request_raises `{Library} client w s e
    (Hrefused : refused w s e) :
  (forall bucket, raises w s e (Operations.create_bucket client bucket))
  /\ (forall bucket, raises w s e (Operations.delete_bucket client bucket))
  /\ raises w s e (Operations.list_buckets client)
  /\ (forall bucket key data size content_type metadata progress_callback,
        raises w s e (Operations.upload client bucket key data size content_type
                        metadata progress_callback))
  /\ (forall bucket key byte_range progress_callback,
        raises w s e (Operations.download client bucket key byte_range
                        progress_callback))
  /\ (forall bucket key, raises w s e (Operations.get_object_metadata client bucket key))
  /\ (forall bucket key, raises w s e (Operations.delete_object client bucket key))
  /\ (forall bucket prefix max_keys,
        raises w s e (Operations.list_objects client bucket prefix max_keys))
  /\ (forall source_bucket source_key dest_bucket dest_key,
        raises w s e (Operations.copy_object client source_bucket source_key
                        dest_bucket dest_key))
  /\ (forall bucket key content_type metadata,
        raises w s e (Operations.initiate_multipart_upload client bucket key
                        content_type metadata))
  /\ (forall bucket key upload_id part_number data size,
        raises w s e (Operations.upload_part client bucket key upload_id
                        part_number data size))
  /\ (forall bucket key upload_id parts,
        raises w s e (Operations.complete_multipart_upload client bucket key
                        upload_id parts))
  /\ (forall bucket key upload_id,
        raises w s e (Operations.abort_multipart_upload client bucket key upload_id))
  /\ (forall bucket key private_key,
        raises w s e (SupplyChain.sign_artifact client bucket key private_key))
  /\ (forall bucket key, raises w s e (SupplyChain.get_signatures client bucket key))
  /\ (forall bucket key public_keys,
        raises w s e (SupplyChain.verify_signatures client bucket key public_keys))
  /\ (forall bucket key format content,
        raises w s e (SupplyChain.attach_sbom client bucket key format content))
  /\ (forall bucket key, raises w s e (SupplyChain.get_sbom client bucket key))
  /\ (forall bucket key attestation_type data,
        raises w s e (SupplyChain.add_attestation client bucket key
                        attestation_type data))
  /\ (forall bucket key, raises w s e (SupplyChain.get_attestations client bucket key)).
Proof.
  repeat split_and; intros; unfold raises.
  all: unfold Operations.create_bucket, Operations.delete_bucket,
         Operations.list_buckets, Operations.upload, Operations.download,
         Operations.get_object_metadata, Operations.delete_object,
         Operations.list_objects, Operations.copy_object,
         Operations.initiate_multipart_upload, Operations.upload_part,
         Operations.complete_multipart_upload, Operations.abort_multipart_upload,
         SupplyChain.sign_artifact, SupplyChain.get_signatures,
         SupplyChain.verify_signatures, SupplyChain.attach_sbom,
         SupplyChain.get_sbom, SupplyChain.add_attestation,
         SupplyChain.get_attestations.
  all: rejected Hrefused.
Qed.

Lemma operations_raise_what_the_request_raises_witness :
  raises (world_answering (Return conflict_response)) no_effects
    (StoreError ConflictError (JStr "Bucket already exists") (Some 409))
    (Operations.create_bucket (H := reference_library) test_client "mybucket")
  /\ raises world_unreachable no_effects TransportError
       (SupplyChain.get_sbom (H := reference_library) test_client
          "mybucket" "myfile.tar.gz").
Proof.
  split.
  - assert (refused (world_answering (Return conflict_response)) no_effects
              (StoreError ConflictError (JStr "Bucket already exists") (Some 409)))
      as Hrefused.
    { right. exists conflict_response. repeat split. cbn. lia. }
    apply (proj1 (@operations_raise_what_the_request_raises reference_library
                    test_client _ _ _ Hrefused)).
  - assert (refused world_unreachable no_effects TransportError) as Hrefused.
    { left. intros request. reflexivity. }
    apply (@operations_raise_what_the_request_raises reference_library
             test_client _ _ _ Hrefused).
Defined.

(** ** The headers of the session and of a request *)

Lemma ci_lookup_set_same name name' value items :
  lower name' = lower name ->
  ci_lookup name' (ci_set name value items) = Some value.
Proof.
  intros Hsame. induction items as [|[k v] items IH]; cbn.
  - rewrite Hsame. now rewrite String.eqb_refl.
  - destruct (String.eqb_spec (lower k) (lower name)) as [E|E]; cbn.
    + rewrite Hsame. now rewrite String.eqb_refl.
    + rewrite Hsame. destruct (String.eqb_spec (lower k) (lower name));
        [contradiction | assumption].
Qed.

Lemma ci_lookup_set_other name other value items :
  lower name <> lower other ->
  ci_lookup other (ci_set name value items) = ci_lookup other items.
Proof.
  intros Hne. induction items as [|[k v] items IH]; cbn.
  - now destruct (String.eqb_spec (lower name) (lower other)).
  - destruct (String.eqb_spec (lower k) (lower name)) as [E|E]; cbn.
    + rewrite E. now destruct (String.eqb_spec (lower name) (lower other)).
    + now rewrite IH.
Qed.

Lemma ci_lookup_update_other other d : forall items,
  ci_mem other d = false ->
  ci_lookup other (ci_update d items) = ci_lookup other items.
Proof.
  unfold ci_update.
  induction d as [|[n v] d IH]; intros items Hmem; [reflexivity|].
  cbn [ci_mem existsb] in Hmem. apply orb_false_elim in Hmem as [Hn Hd].
  cbn [fold_left fst snd]. rewrite (IH _ Hd). apply ci_lookup_set_other.
  intros E. assert (same_name other (n, v) = true) by now apply same_name_iff.
  congruence.
Qed.

Lemma ci_lookup_update_same d : forall items,
  ci_distinct d = true ->
  forall n v, In (n, v) d -> ci_lookup n (ci_update d items) = Some v.
Proof.
  induction d as [|[n0 v0] d IH]; intros items Hd n v Hin; [contradiction|].
  cbn [ci_distinct fst] in Hd. apply andb_prop in Hd as [Hfresh Hd].
  apply negb_true_iff in Hfresh.
  change (ci_update ((n0, v0) :: d) items) with (ci_update d (ci_set n0 v0 items)).
  destruct Hin as [[= <- <-]|Hin].
  - rewrite (ci_lookup_update_other _ _ _ Hfresh). now apply ci_lookup_set_same.
  - now apply IH.
Qed.

Lemma ci_set_twice name value value' items :
  ci_set name value' (ci_set name value items) = ci_set name value' items.
Proof.
  induction items as [|[k v] items IH]; cbn.
  - now rewrite String.eqb_refl.
  - destruct (String.eqb_spec (lower k) (lower name)) as [E|E]; cbn.
    + now rewrite String.eqb_refl.
    + destruct (String.eqb_spec (lower k) (lower name)); [contradiction|].
      now rewrite IH.
Qed.

(** X4. The headers of a call go over those of the session. When a call
    gives headers, the request carries the session's headers with each given
    header set on top: a given header has the given value, whatever the
    session had under that name in any case, and every other header of the
    session is there unchanged. When a call gives none, or an empty dict,
    the request names no headers and the session's own apply. *)
Theorem request_headers_override_session `{Library} client m u headers kw w s :
  exists request,
    sent (fst (Client._request client m u headers kw w s)) = (sent s ++ [request])%list
    /\ (headers = None \/ headers = Some [] -> kw_headers (kwargs request) = None)
    /\ (forall item items,
          headers = Some (item :: items) ->
          ci_distinct (item :: items) = true ->
          exists merged,
            kw_headers (kwargs request) = Some merged
            /\ (forall n v, In (n, v) (item :: items) -> ci_lookup n merged = Some v)
            /\ (forall n, ci_mem n (item :: items) = false ->
                  ci_lookup n merged = ci_lookup n (Client.session_headers client))
            /\ (ci_distinct (Client.session_headers client) = true ->
                ci_distinct merged = true)).
Proof.
  exists (request_of client m u headers kw). rewrite request_run. cbn [fst sent add_sent].
  split; [reflexivity|]. split.
  - intros [-> | ->]; reflexivity.
  - intros item items -> Hdistinct. eexists. split; [reflexivity|]. repeat split.
    + intros n v Hin. now apply ci_lookup_update_same.
    + intros n Hmem. now apply ci_lookup_update_other.
    + intros Hsession. now apply ci_update_distinct.
Qed.

Lemma request_headers_override_session_witness :
  exists request merged,
    sent (fst (Client._request test_client
                 "PUT" "https://test.example.com/s3/b/k"
                 (Some [("user-agent", "upload/2.0")]) no_kwargs
                 (world_answering (Return created_response)) no_effects))
    = ([] ++ [request])%list
    /\ kw_headers (kwargs request) = Some merged
    /\ ci_lookup "user-agent" merged = Some "upload/2.0"
    /\ ci_lookup "Authorization" merged = Some "Bearer test-token".
Proof.
  destruct (@request_headers_override_session reference_library test_client
              "PUT" "https://test.example.com/s3/b/k"
              (Some [("user-agent", "upload/2.0")]) no_kwargs
              (world_answering (Return created_response)) no_effects)
    as (request & Hsent & _ & Hmerged).
  destruct (Hmerged ("user-agent", "upload/2.0") [] eq_refl eq_refl)
    as (merged & Hheaders & Hgiven & Hkept & _).
  exists request, merged. repeat split; [exact Hsent | exact Hheaders | |].
  - apply Hgiven. now left.
  - rewrite (Hkept "Authorization" eq_refl). reflexivity.
Defined.

Lemma ci_mem_single name k v :
  lower k <> lower name -> ci_mem name [(k, v)] = false.
Proof.
  intros Hne. unfold ci_mem. cbn [existsb]. rewrite orb_false_r.
  destruct (same_name name (k, v)) eqn:E; [|reflexivity].
  apply same_name_iff in E. contradiction.
Qed.

(** X5. The session a client is made with. Its headers are those of a new
    session with [User-Agent] set to the configured one and, when the
    configuration has a token that is not empty, [Authorization] set to
    [Bearer <token>]; without a token no [Authorization] is added. Every
    other header of a new session is kept, and header names stay distinct up
    to case. *)
Theorem Client_init_session_headers `{Library} config :
  let client := Client.init config in
  Client.config client = config
  /\ ci_lookup "User-Agent" (Client.session_headers client)
     = Some (Config.user_agent config)
  /\ (forall token,
        Config.token config = Some token ->
        token <> EmptyString ->
        ci_lookup "Authorization" (Client.session_headers client)
        = Some ("Bearer " +:+ token))
  /\ (Config.token config = None \/ Config.token config = Some EmptyString ->
      ci_lookup "Authorization" (Client.session_headers client)
      = ci_lookup "Authorization" session_default_headers)
  /\ (forall name,
        lower name <> "user-agent" ->
        lower name <> "authorization" ->
        ci_lookup name (Client.session_headers client)
        = ci_lookup name session_default_headers)
  /\ (ci_distinct session_default_headers = true ->
      ci_distinct (Client.session_headers client) = true).
Proof.
  cbv zeta. unfold Client.init. cbn [Client.config Client.session_headers].
  set (agent := ci_update [("User-Agent", Config.user_agent config)]
                          session_default_headers).
  assert (Hagent : ci_lookup "User-Agent" agent = Some (Config.user_agent config))
    by (apply ci_lookup_update_same; [reflexivity | now left]).
  assert (Hother : forall name, lower name <> "user-agent" ->
                     ci_lookup name agent = ci_lookup name session_default_headers).
  { intros name Hname. apply ci_lookup_update_other, ci_mem_single.
    intros E. apply Hname. now rewrite <- E. }
  split; [reflexivity|].
  destruct (Config.token config) as [token|] eqn:Htoken;
    [destruct (String.eqb_spec token "") as [->|Hne]|].
  - repeat split; try assumption.
    + intros token [= <-]. contradiction.
    + intros _. now apply Hother.
    + intros name Hname _. now apply Hother.
    + intros Hd. now apply ci_update_distinct.
  - repeat split.
    + rewrite ci_lookup_update_other by reflexivity. exact Hagent.
    + intros token' [= <-] _. apply ci_lookup_update_same; [reflexivity | now left].
    + intros [Hnone | [= ->]]; [discriminate | contradiction].
    + intros name Hagent_name Hauth.
      rewrite ci_lookup_update_other; [now apply Hother|].
      apply ci_mem_single. intros E. apply Hauth. now rewrite <- E.
    + intros Hd. now apply ci_update_distinct, ci_update_distinct.
  - repeat split; try assumption.
    + intros token [=].
    + intros _. now apply Hother.
    + intros name Hname _. now apply Hother.
    + intros Hd. now apply ci_update_distinct.
Qed.

Lemma Client_init_session_headers_witness :
  ci_lookup "Authorization" (Client.session_headers test_client)
  = Some "Bearer test-token"
  /\ ci_distinct (Client.session_headers test_client) = true.
Proof.
  destruct (@Client_init_session_headers reference_library test_config)
    as (_ & _ & Htoken & _ & _ & Hdistinct).
  split.
  - apply (Htoken "test-token"); [reflexivity | discriminate].
  - apply Hdistinct. reflexivity.
Defined.

(** X6. [set_token] sets the one [Authorization] header of the session to
    [Bearer <token>], for any token, the empty one too; it keeps every other
    header and every other field of the configuration, and the token set
    last is the one that counts. *)
Theorem set_token_replaces_the_token client token :
  let client' := Client.set_token client token in
  Config.token (Client.config client') = Some token
  /\ Config.base_url (Client.config client') = Config.base_url (Client.config client)
  /\ Config.timeout (Client.config client') = Config.timeout (Client.config client)
  /\ Config.user_agent (Client.config client')
     = Config.user_agent (Client.config client)
  /\ ci_lookup "Authorization" (Client.session_headers client')
     = Some ("Bearer " +:+ token)
  /\ (forall name,
        lower name <> "authorization" ->
        ci_lookup name (Client.session_headers client')
        = ci_lookup name (Client.session_headers client))
  /\ (ci_distinct (Client.session_headers client) = true ->
      List.filter (same_name "Authorization") (Client.session_headers client')
      = [("Authorization", "Bearer " +:+ token)]
      /\ ci_distinct (Client.session_headers client') = true)
  /\ (forall earlier,
        Client.set_token (Client.set_token client earlier) token = client').
Proof.
  cbv zeta. unfold Client.set_token.
  cbn [Client.config Client.session_headers Config.token Config.base_url
       Config.timeout Config.user_agent Config.insecure_skip_verify].
  repeat split.
  - apply ci_lookup_update_same; [reflexivity | now left].
  - intros name Hname. apply ci_lookup_update_other, ci_mem_single.
    intros E. apply Hname. now rewrite <- E.
  - apply ci_update_same; [reflexivity | assumption | now left].
  - now apply ci_update_distinct.
  - intros earlier. unfold ci_update. cbn [fold_left fst snd].
    now rewrite ci_set_twice.
Qed.

Lemma set_token_replaces_the_token_witness :
  List.filter (same_name "Authorization")
    (Client.session_headers (Client.set_token test_client "rotated"))
  = [("Authorization", "Bearer rotated")].
Proof.
  apply (set_token_replaces_the_token test_client "rotated"). reflexivity.
Defined.

(** ** Streams *)

Lemma read_bounds size self :
  let '(chunk, self', calls) := ProgressReader.read size self in
  ProgressReader.total_size self' = ProgressReader.total_size self
  /\ (0 <= size -> size_of chunk <= size).
Proof.
  unfold ProgressReader.read, stream_read.
  destruct (Z.ltb_spec size 0) as [Hneg|Hpos].
  - destruct (ProgressReader.data self); cbn; split; try reflexivity; lia.
  - pose proof (length_firstn (Z.to_nat size) (ProgressReader.data self)) as Hlen.
    destruct (firstn (Z.to_nat size) (ProgressReader.data self)) as [|b chunk];
      cbn [ProgressReader.total_size]; split; try reflexivity;
      intros _; unfold size_of; lia.
Qed.

(** X7. A [ProgressReader] read in any way, with any sizes, a negative one
    (read to the end) and 0 among them: the chunks are the start of the
    wrapped stream, unchanged and in order, no chunk is longer than the size
    asked for, [bytes_read] counts exactly the bytes handed out, the callback
    is called once per chunk that is not empty, with the running total, and
    no call reports 0 or more than the stream holds. *)
Theorem reader_hands_out_the_stream sizes : forall self,
  let '(chunks, final, calls) := reads sizes self in
  ProgressReader.data self = (concat chunks ++ ProgressReader.data final)%list
  /\ ProgressReader.bytes_read final
     = ProgressReader.bytes_read self + size_of (concat chunks)
  /\ ProgressReader.total_size final = ProgressReader.total_size self
  /\ Forall2 (fun size chunk => 0 <= size -> size_of chunk <= size) sizes chunks
  /\ calls = totals (ProgressReader.bytes_read self)
                    (map size_of (List.filter non_empty chunks))
  /\ Forall (fun v => ProgressReader.bytes_read self < v
                      <= ProgressReader.bytes_read self
                         + size_of (ProgressReader.data self)) calls.
Proof.
  induction sizes as [|size sizes IH]; intros self.
  - cbn. repeat split; try constructor. unfold size_of. cbn. lia.
  - cbn [reads].
    pose proof (read_chunk size self) as Hread.
    pose proof (read_bounds size self) as Hbounds.
    destruct (ProgressReader.read size self) as [[chunk self'] calls].
    destruct Hread as (Hdata & Hbytes & Hcalls).
    destruct Hbounds as (Htotal & Hsize).
    specialize (IH self').
    destruct (reads sizes self') as [[chunks final] calls'].
    destruct IH as (IHdata & IHbytes & IHtotal & IHsizes & IHcalls & IHbound).
    assert (Hlen : size_of (ProgressReader.data self)
                   = size_of chunk + size_of (ProgressReader.data self')).
    { rewrite Hdata at 1. unfold size_of. rewrite length_app. lia. }
    repeat split.
    + cbn [concat]. rewrite <- app_assoc, <- IHdata. exact Hdata.
    + cbn [concat]. rewrite IHbytes, Hbytes. unfold size_of.
      rewrite length_app. lia.
    + congruence.
    + now constructor.
    + rewrite Hcalls, IHcalls, Hbytes. destruct chunk as [|b chunk].
      * change (size_of []) with 0. now rewrite Z.add_0_r.
      * reflexivity.
    + apply Forall_app. split.
      * rewrite Hcalls. destruct chunk as [|b chunk]; constructor; [|constructor].
        unfold size_of in *. cbn [List.length] in *. lia.
      * eapply Forall_impl; [exact IHbound|]. cbn. intros v Hv.
        unfold size_of in *. lia.
Qed.

Lemma reader_hands_out_the_stream_witness :
  let '(chunks, final, calls) :=
    reads [4; 0; -1; 8192]
      (ProgressReader.init (list_byte_of_string "test data") 9) in
  Forall (fun v => 0 < v <= 0 + size_of (list_byte_of_string "test data")) calls.
Proof.
  pose proof (reader_hands_out_the_stream [4; 0; -1; 8192]
                (ProgressReader.init (list_byte_of_string "test data") 9)) as Hreads.
  destruct (reads [4; 0; -1; 8192] _) as [[chunks final] calls].
  apply Hreads.
Defined.

Example reads_of_test_data :
  let '(chunks, final, calls) :=
    reads [4; 0; -1; 8192]
      (ProgressReader.init (list_byte_of_string "test data") 9) in
  map size_of chunks = [4; 0; 5; 0] /\ calls = [4; 9].
Proof. vm_compute. split; reflexivity. Qed.



Lemma download_loop_quiet `{Library} chunks : forall bytes_transferred w s,
  Operations.download_loop false chunks bytes_transferred w s
  = ({| sent := sent s; ticks := ticks s; progress := progress s;
        written := written s ++ concat chunks |},
     Return (bytes_transferred + total (map size_of chunks))).
Proof.
  induction chunks as [|chunk chunks IH]; intros bt w s.
  - cbn. rewrite app_nil_r, Z.add_0_r. now destruct s.
  - destruct chunk as [|b chunk].
    + cbn [Operations.download_loop]. rewrite IH. cbn. do 2 f_equal.
    + cbn [Operations.download_loop]. unfold mbind, IO_bind, writer_write, mret, IO_ret.
      rewrite IH. cbn [sent ticks progress written map concat].
      f_equal.
      * f_equal. now rewrite <- app_assoc.
      * f_equal. cbn [total]. unfold size_of. lia.
Qed.

Lemma download_run `{Library} client bucket key byte_range progress_callback
    w s response n :
  answers w s response ->
  status_code response < 400 ->
  Operations.content_length response = Return n ->
  exists request,
    Operations.download client bucket key byte_range progress_callback w s
    = ({| sent := sent s ++ [request];
          ticks := ticks s;
          progress :=
            progress s
              ++ (if progress_callback
                  then totals 0 (map size_of (List.filter non_empty (chunks response)))
                  else []);
          written := written s ++ concat (chunks response) |},
       Return tt).
Proof.
  intros Hanswer Hok Hlength. unfold Operations.download.
  rewrite IO_bind_run, (request_accepted _ _ _ _ _ _ _ _ Hanswer Hok).
  rewrite IO_bind_run. unfold lift at 1. rewrite Hlength.
  rewrite IO_bind_run.
  destruct progress_callback; eexists.
  - rewrite download_loop_run. reflexivity.
  - rewrite download_loop_quiet. cbn [fst snd sent ticks progress written add_sent].
    now rewrite app_nil_r.
Qed.

(** X9. [download] writes the body to the writer, chunk after chunk: when
    the session answers below 400 and [Content-Length] is absent or a
    number, what is written is the chunks of the response put together,
    empty chunks making no difference, with a callback or without; without
    one nothing is reported; the clock is not read. The value of
    [Content-Length] does not matter: the writer gets what the stream
    gives. *)
Theorem download_writes_the_body `{Library} client bucket key byte_range
    progress_callback w s response n
    (Hanswer : answers w s response)
    (Hok : status_code response < 400)
    (Hlength : Operations.content_length response = Return n) :
  let run := Operations.download client bucket key byte_range progress_callback w s in
  snd run = Return tt
  /\ written (fst run) = (written s ++ concat (chunks response))%list
  /\ written (fst run)
     = (written s ++ concat (List.filter non_empty (chunks response)))%list
  /\ (progress_callback = false -> progress (fst run) = progress s)
  /\ ticks (fst run) = ticks s.
Proof.
  cbv zeta.
  destruct (download_run client bucket key byte_range progress_callback w s
              response n Hanswer Hok Hlength) as [request ->].
  cbn [fst snd written progress ticks]. rewrite concat_non_empty.
  repeat split. intros ->. apply app_nil_r.
Qed.

Lemma download_writes_the_body_witness :
  written (fst (Operations.download (H := reference_library) test_client
                  "mybucket" "myfile.tar.gz" None false
                  (world_answering (Return download_response)) no_effects))
  = ([] ++ concat (chunks download_response))%list.
Proof.
  apply (@download_writes_the_body reference_library test_client
           "mybucket" "myfile.tar.gz" None false
           (world_answering (Return download_response)) no_effects
           download_response 15 (fun _ => eq_refl) eq_refl eq_refl).
Defined.

(** X10. [download] reads [Content-Length] before it reads the body: when
    the header is there and is no number, the call raises [ValueError]
    after its request, with nothing written and nothing reported, whatever
    the body holds. *)
Theorem download_needs_a_numeric_length `{Library} client bucket key byte_range
    progress_callback w s response value
    (Hanswer : answers w s response)
    (Hok : status_code response < 400)
    (Hheader : ci_lookup "Content-Length" (headers response) = Some value)
    (Hvalue : int_of_str value = None) :
  let run := Operations.download client bucket key byte_range progress_callback w s in
  snd run = Raise ValueError
  /\ written (fst run) = written s
  /\ progress (fst run) = progress s
  /\ exists request, sent (fst run) = (sent s ++ [request])%list.
Proof.
  cbv zeta. unfold Operations.download.
  rewrite IO_bind_run, (request_accepted _ _ _ _ _ _ _ _ Hanswer Hok).
  rewrite IO_bind_run. unfold lift at 1, Operations.content_length.
  rewrite Hheader, Hvalue. cbn. repeat split. now eexists.
Qed.

Lemma download_needs_a_numeric_length_witness :
  snd (Operations.download (H := reference_library) test_client
         "mybucket" "myfile.tar.gz" None true
         (world_answering (Return download_response_unsized)) no_effects)
  = Raise ValueError.
Proof.
  apply (@download_needs_a_numeric_length reference_library test_client
           "mybucket" "myfile.tar.gz" None true
           (world_answering (Return download_response_unsized)) no_effects
           download_response_unsized "fifteen"
           (fun _ => eq_refl) eq_refl eq_refl eq_refl).
Defined.

(** X11. [download] asks for a range only when it is given one: a
    [byte_range] that is not empty goes out as the [Range] header, on top of
    the session's headers, and without one ([None] or the empty string) the
    request names no headers at all. The response is always asked for as a
    stream. *)
Theorem download_sends_the_range `{Library} client bucket key byte_range
    progress_callback w s :
  exists request,
    sent (fst (Operations.download client bucket key byte_range
                 progress_callback w s))
    = (sent s ++ [request])%list
    /\ method request = "GET"
    /\ kw_stream (kwargs request) = Some true
    /\ (byte_range = None \/ byte_range = Some EmptyString ->
        kw_headers (kwargs request) = None)
    /\ (forall range,
          byte_range = Some range ->
          range <> EmptyString ->
          exists merged,
            kw_headers (kwargs request) = Some merged
            /\ ci_lookup "Range" merged = Some range
            /\ forall name, lower name <> "range" ->
                 ci_lookup name merged
                 = ci_lookup name (Client.session_headers client)).
Proof.
  unfold Operations.download. rewrite IO_bind_run, request_run.
  match goal with
  | |- context [request_of ?c ?m ?u ?h ?k] => exists (request_of c m u h k)
  end.
  split.
  { destruct (session_request w (sent s) _) as [response|e];
      [destruct (raise_for_status response)|]; cbn [fst]; [|reflexivity..].
    rewrite IO_bind_run. unfold lift at 1.
    destruct (Operations.content_length response); [|reflexivity].
    rewrite IO_bind_run.
    destruct progress_callback;
      [rewrite download_loop_run | rewrite download_loop_quiet]; reflexivity. }
  split; [reflexivity|]. split; [reflexivity|]. split.
  - intros [-> | ->]; reflexivity.
  - intros range -> Hrange. cbn [request_of kwargs kw_headers].
    destruct (String.eqb_spec range ""); [contradiction|].
    eexists. split; [reflexivity|]. split.
    + apply ci_lookup_update_same; [reflexivity | now left].
    + intros name Hname. apply ci_lookup_update_other, ci_mem_single.
      intros E. apply Hname. now rewrite <- E.
Qed.

Lemma download_sends_the_range_witness :
  exists request merged,
    sent (fst (Operations.download (H := reference_library) test_client
                 "mybucket" "myfile.tar.gz" (Some "bytes=0-6") false
                 (world_answering (Return download_response)) no_effects))
    = ([] ++ [request])%list
    /\ kw_headers (kwargs request) = Some merged
    /\ ci_lookup "Range" merged = Some "bytes=0-6".
Proof.
  destruct (@download_sends_the_range reference_library test_client
              "mybucket" "myfile.tar.gz" (Some "bytes=0-6") false
              (world_answering (Return download_response)) no_effects)
    as (request & Hsent & _ & _ & _ & Hrange).
  destruct (Hrange "bytes=0-6" eq_refl) as (merged & Hheaders & Hlookup & _);
    [discriminate|].
  now exists request, merged.
Defined.

(** ** The metadata of an object *)

Lemma extract_metadata_from_headers items : forall (acc : list (string * string)) key value,
  dict_lookup key
    (fold_left
       (fun metadata item =>
          let '(header_name, header_value) := item in
          if startswith "x-amz-meta-" (lower header_name)
          then dict_set (slice_from 11 header_name) header_value metadata
          else metadata)
       items acc)
  = Some value ->
  dict_lookup key acc = Some value
  \/ exists name,
       In (name, value) items
       /\ startswith "x-amz-meta-" (lower name) = true
       /\ slice_from 11 name = key.
Proof.
  induction items as [|[name v] items IH]; intros acc key value Hlookup;
    [now left|].
  cbn [fold_left] in Hlookup. apply IH in Hlookup as [Hacc | (n & Hin & Hn)].
  - destruct (startswith "x-amz-meta-" (lower name)) eqn:Hmeta; [|now left].
    destruct (String.eqb_spec (slice_from 11 name) key) as [<-|Hne].
    + rewrite dict_lookup_set_same in Hacc. injection Hacc as <-.
      right. exists name. repeat split; [now left | assumption].
    + rewrite dict_lookup_set_other in Hacc by assumption. now left.
  - right. exists n. split; [now right | assumption].
Qed.

(** X12. The metadata [get_object_metadata] returns holds nothing but
    [x-amz-meta-] headers: every key in it is the name of a response header
    that starts with [x-amz-meta-] up to case, without its first 11
    characters and with its letters as received (the key is not lower-cased),
    and the value is that header's. [Content-Type], [ETag] and the like never
    get in. *)
Theorem metadata_comes_from_meta_headers (items : list (string * string)) key value :
  dict_lookup key (Operations.extract_metadata items) = Some value ->
  exists name,
    In (name, value) items
    /\ startswith "x-amz-meta-" (lower name) = true
    /\ slice_from 11 name = key.
Proof.
  unfold Operations.extract_metadata. intros Hlookup.
  apply extract_metadata_from_headers in Hlookup as [Hnil | Hfound];
    [discriminate | assumption].
Qed.

Lemma metadata_comes_from_meta_headers_witness :
  exists name,
    In (name, "1.0.0") (headers head_response)
    /\ startswith "x-amz-meta-" (lower name) = true
    /\ slice_from 11 name = "version".
Proof.
  apply (metadata_comes_from_meta_headers (headers head_response) "version" "1.0.0").
  reflexivity.
Defined.

Example metadata_keeps_the_case_of_the_name :
  Operations.extract_metadata
    [("X-AMZ-META-Build-Id", "42"); ("Content-Type", "text/plain");
     ("x-amz-meta-", "empty name"); ("X-Amz-Metadata", "no dash")]
  = [("Build-Id", "42"); ("", "empty name")].
Proof. reflexivity. Qed.

Lemma get_object_metadata_run `{Library} client bucket key w s response :
  answers w s response ->
  status_code response < 400 ->
  exists request,
    Operations.get_object_metadata client bucket key w s
    = match Operations.content_length response with
      | Raise e => (add_sent request s, Raise e)
      | Return n =>
          let given := ci_get "Last-Modified" "" (headers response) in
          let object last_modified :=
            {| Object.key := JStr key;
               Object.size := JNum n;
               Object.last_modified := last_modified;
               Object.etag :=
                 JStr (strip "034"%char (ci_get "ETag" "" (headers response)));
               Object.content_type :=
                 JStr (ci_get "Content-Type" "" (headers response));
               Object.metadata := Operations.extract_metadata (headers response) |} in
          if String.eqb given ""
          then (tick (add_sent request s), Return (object (clock w (ticks s))))
          else (add_sent request s,
                match strptime given "%a, %d %b %Y %H:%M:%S %Z" with
                | Some date => Return (object date)
                | None => Raise ValueError
                end)
      end.
Proof.
  intros Hanswer Hok. eexists. unfold Operations.get_object_metadata.
  rewrite IO_bind_run, (request_accepted _ _ _ _ _ _ _ _ Hanswer Hok).
  rewrite IO_bind_run. unfold lift at 1.
  destruct (Operations.content_length response) as [n|e]; [|reflexivity].
  rewrite IO_bind_run. cbv zeta.
  destruct (String.eqb (ci_get "Last-Modified" "" (headers response)) "").
  - reflexivity.
  - unfold lift. now destruct (strptime _ _).
Qed.

(** X13. What [get_object_metadata] makes of the headers that are not
    there, when the session answers below 400. Without [Content-Length] the
    size is 0; without [Content-Type] the content type is the empty string;
    the key is the one asked for, not one of the response. A
    [Content-Length] that is no number raises [ValueError]. The clock is
    read once when [Last-Modified] is absent or empty, and not at all
    otherwise. *)
Theorem get_object_metadata_defaults `{Library} client bucket key w s response
    (Hanswer : answers w s response)
    (Hok : status_code response < 400) :
  let run := Operations.get_object_metadata client bucket key w s in
  let given := ci_get "Last-Modified" "" (headers response) in
  (forall value,
      ci_lookup "Content-Length" (headers response) = Some value ->
      int_of_str value = None ->
      snd run = Raise ValueError /\ ticks (fst run) = ticks s)
  /\ (forall object,
        snd run = Return object ->
        Object.key object = JStr key
        /\ (ci_lookup "Content-Length" (headers response) = None ->
            Object.size object = JNum 0)
        /\ (ci_lookup "Content-Type" (headers response) = None ->
            Object.content_type object = JStr EmptyString))
  /\ (given = EmptyString ->
      (ci_lookup "Content-Length" (headers response) = None ->
       exists object, snd run = Return object)
      /\ (forall object, snd run = Return object -> ticks (fst run) = S (ticks s)))
  /\ (given <> EmptyString -> ticks (fst run) = ticks s).
Proof.
  cbv zeta.
  destruct (get_object_metadata_run client bucket key w s response Hanswer Hok)
    as [request ->].
  assert (Hfields : forall n,
             Operations.content_length response = Return n ->
             (ci_lookup "Content-Length" (headers response) = None -> JNum n = JNum 0)
             /\ (ci_lookup "Content-Type" (headers response) = None ->
                 JStr (ci_get "Content-Type" "" (headers response))
                 = JStr EmptyString)).
  { intros n Hn. split.
    - intros Habsent. unfold Operations.content_length in Hn.
      rewrite Habsent in Hn. now injection Hn as <-.
    - intros Habsent. unfold ci_get. now rewrite Habsent. }
  split; [|split; [|split]].
  - intros value Hlength Hvalue. unfold Operations.content_length.
    rewrite Hlength, Hvalue. split; reflexivity.
  - intros object.
    destruct (Operations.content_length response) as [n|e] eqn:Hn; [|discriminate].
    cbv zeta.
    destruct (String.eqb (ci_get "Last-Modified" "" (headers response)) "");
      cbn [snd].
    + intros [= <-]. cbn. split; [reflexivity|].
      destruct (Hfields n eq_refl) as (Hsize & Htype). now split.
    + destruct (strptime _ _) as [date|]; [|discriminate].
      intros [= <-]. cbn. split; [reflexivity|].
      destruct (Hfields n eq_refl) as (Hsize & Htype). now split.
  - intros Hgiven. rewrite Hgiven. cbn [String.eqb]. split.
    + intros Habsent. unfold Operations.content_length. rewrite Habsent.
      now eexists.
    + intros object.
      destruct (Operations.content_length response); [reflexivity | discriminate].
  - intros Hgiven.
    destruct (Operations.content_length response); [|reflexivity].
    cbv zeta.
    now destruct (String.eqb_spec (ci_get "Last-Modified" "" (headers response)) "").
Qed.

Lemma get_object_metadata_defaults_witness :
  exists object,
    snd (Operations.get_object_metadata (H := reference_library) test_client
           "mybucket" "myfile.tar.gz"
           (world_answering (Return created_response)) no_effects)
    = Return object.
Proof.
  apply (@get_object_metadata_defaults reference_library test_client
           "mybucket" "myfile.tar.gz"
           (world_answering (Return created_response)) no_effects
           created_response (fun _ => eq_refl) eq_refl);
    reflexivity.
Defined.

(** ** The entries of a listing *)

Lemma object_of_run `{Library} items w s :
  Operations.object_of (JObj items) w s
  = match dict_lookup "key" items with
    | None => (s, Raise (KeyError "key"))
    | Some key =>
        let object last_modified :=
          {| Object.key := key;
             Object.size := dict_get "size" (JNum 0) items;
             Object.last_modified := last_modified;
             Object.etag := dict_get "etag" (JStr "") items;
             Object.content_type := dict_get "contentType" (JStr "") items;
             Object.metadata := [] |} in
        if truthy (dict_get "lastModified" JNull items)
        then (s,
              match json_replace_Z (dict_get "lastModified" (JStr "") items) with
              | Return text =>
                  match fromisoformat text with
                  | Some date => Return (object date)
                  | None => Raise ValueError
                  end
              | Raise e => Raise e
              end)
        else (tick s, Return (object (clock w (ticks s))))
    end.
Proof.
  unfold Operations.object_of. rewrite IO_bind_run. unfold lift at 1.
  cbn [json_item]. destruct (dict_lookup "key" items) as [key|]; [|reflexivity].
  rewrite IO_bind_run. unfold lift at 1. cbn [json_get].
  rewrite IO_bind_run. unfold lift at 1. cbn [json_get].
  rewrite IO_bind_run. cbv zeta.
  destruct (truthy (dict_get "lastModified" JNull items)).
  - rewrite IO_bind_run. unfold lift at 1. cbn [json_get mbind result_bind].
    destruct (json_replace_Z _) as [text|e]; [|reflexivity].
    unfold lift at 1. destruct (fromisoformat text); reflexivity.
  - reflexivity.
Qed.

Lemma object_of_not_an_object `{Library} entry w s :
  (forall items, entry <> JObj items) ->
  Operations.object_of entry w s = (s, Raise TypeError).
Proof.
  intros Hentry. unfold Operations.object_of. rewrite IO_bind_run. unfold lift at 1.
  destruct entry; try reflexivity. now contradiction (Hentry items).
Qed.

Lemma object_of_returns `{Library} entry w s object :
  snd (Operations.object_of entry w s) = Return object -> entry_fields entry object.
Proof.
  destruct entry as [| | | | |items];
    try (rewrite object_of_not_an_object by discriminate; discriminate).
  rewrite object_of_run. unfold entry_fields. cbn [json_item json_get].
  destruct (dict_lookup "key" items) as [key|]; [|discriminate].
  cbv zeta. destruct (truthy _); cbn [snd].
  - destruct (json_replace_Z _) as [text|]; [|discriminate].
    destruct (fromisoformat text); [|discriminate].
    intros [= <-]. repeat split.
  - intros [= <-]. repeat split.
Qed.

Lemma objects_of_return `{Library} entries : forall w s objects,
  snd (mapM Operations.object_of entries w s) = Return objects ->
  Forall2 entry_fields entries objects.
Proof.
  induction entries as [|entry entries IH]; intros w s objects.
  - cbn. intros [= <-]. constructor.
  - cbn [mapM]. rewrite IO_bind_run.
    pose proof (object_of_returns entry w s) as Hentry.
    destruct (Operations.object_of entry w s) as [s1 [object|e]]; [|discriminate].
    rewrite IO_bind_run. pose proof (IH w s1) as Hrest.
    destruct (mapM Operations.object_of entries w s1) as [s2 [rest|e]];
      [|discriminate].
    cbn. intros [= <-]. constructor; [now apply Hentry | now apply Hrest].
Qed.

Lemma objects_of_undated `{Library} entries : forall w s,
  Forall undated entries ->
  exists objects,
    mapM Operations.object_of entries w s
    = ({| sent := sent s; ticks := (ticks s + List.length entries)%nat;
          progress := progress s; written := written s |},
       Return objects)
    /\ List.length objects = List.length entries
    /\ forall (i : nat) object,
         objects !! i = Some object ->
         Object.last_modified object = clock w (ticks s + i)%nat.
Proof.
  induction entries as [|entry entries IH]; intros w s Hentries.
  - exists []. cbn. rewrite Nat.add_0_r. repeat split; [now destruct s|].
    intros i object [=].
  - inversion Hentries as [|? ? (items & key & -> & Hkey & Hdate) Hrest]; subst.
    destruct (IH w (tick s) Hrest) as (objects & Hrun & Hlength & Htimes).
    cbn [mapM]. rewrite IO_bind_run, object_of_run, Hkey. cbv zeta.
    rewrite Hdate, IO_bind_run, Hrun. eexists. split; [|split].
    + cbn [List.length tick sent ticks progress written].
      now rewrite Nat.add_succ_r.
    + cbn. now rewrite Hlength.
    + intros [|i] object; cbn.
      * intros [= <-]. cbn. now rewrite Nat.add_0_r.
      * intros Hi. rewrite (Htimes i object Hi). cbn. f_equal. lia.
Qed.

Lemma list_objects_run `{Library} client bucket prefix max_keys w s response fields :
  answers w s response ->
  status_code response < 400 ->
  json_body response = Some (JObj fields) ->
  exists request,
    Operations.list_objects client bucket prefix max_keys w s
    = match json_iter (dict_get "contents" (JArr []) fields) with
      | Raise e => (add_sent request s, Raise e)
      | Return entries =>
          match mapM Operations.object_of entries w (add_sent request s) with
          | (s', Raise e) => (s', Raise e)
          | (s', Return objects) =>
              (s',
               Return {| ListObjectsResult.objects := objects;
                         ListObjectsResult.prefix := dict_get "prefix" (JStr "") fields;
                         ListObjectsResult.max_keys :=
                           dict_get "maxKeys" (JNum 1000) fields;
                         ListObjectsResult.is_truncated :=
                           dict_get "isTruncated" (JBool false) fields |})
          end
      end.
Proof.
  intros Hanswer Hok Hbody. eexists. unfold Operations.list_objects.
  rewrite IO_bind_run, (request_accepted _ _ _ _ _ _ _ _ Hanswer Hok).
  rewrite IO_bind_run. unfold lift at 1, response_json. rewrite Hbody.
  rewrite IO_bind_run. unfold lift at 1. cbn [json_get mbind result_bind].
  destruct (json_iter (dict_get "contents" (JArr []) fields)) as [entries|];
    [|reflexivity].
  rewrite IO_bind_run.
  destruct (mapM Operations.object_of entries w _) as [s2 [objects|e]];
    reflexivity.
Qed.

(** X14. An entry of a listing without [lastModified] is dated by the
    clock, each entry by a reading of its own: when no entry of [contents]
    has one, the i-th object has the time of the i-th reading after the
    call began, and the call has read the clock once per entry. *)
Theorem list_objects_dates_each_entry `{Library} client bucket prefix max_keys w s
    response fields entries
    (Hanswer : answers w s response)
    (Hok : status_code response < 400)
    (Hbody : json_body response = Some (JObj fields))
    (Hcontents : json_iter (dict_get "contents" (JArr []) fields) = Return entries)
    (Hundated : Forall undated entries) :
  let run := Operations.list_objects client bucket prefix max_keys w s in
  exists result,
    snd run = Return result
    /\ List.length (ListObjectsResult.objects result) = List.length entries
    /\ (forall (i : nat) object,
          ListObjectsResult.objects result !! i = Some object ->
          Object.last_modified object = clock w (ticks s + i)%nat)
    /\ ticks (fst run) = (ticks s + List.length entries)%nat.
Proof.
  cbv zeta.
  destruct (list_objects_run client bucket prefix max_keys w s response fields
              Hanswer Hok Hbody) as [request ->].
  rewrite Hcontents.
  destruct (objects_of_undated entries w (add_sent request s) Hundated)
    as (objects & -> & Hlength & Htimes).
  eexists. repeat split; cbn; assumption.
Qed.

Lemma list_objects_dates_each_entry_witness :
  exists result,
    snd (Operations.list_objects (H := reference_library) test_client
           "mybucket" "" 0
           (world_answering
              (Return (json_response
                         (JObj [("contents",
                                 JArr [JObj [("key", JStr "a")];
                                       JObj [("key", JStr "b");
                                             ("lastModified", JNull)]])]))))
           no_effects)
    = Return result
    /\ map (fun object => second (Object.last_modified object))
         (ListObjectsResult.objects result)
       = [0; 1].
Proof.
  destruct (@list_objects_dates_each_entry reference_library test_client
              "mybucket" "" 0
              (world_answering
                 (Return (json_response
                            (JObj [("contents",
                                    JArr [JObj [("key", JStr "a")];
                                          JObj [("key", JStr "b");
                                                ("lastModified", JNull)]])]))))
              no_effects
              (json_response
                 (JObj [("contents",
                         JArr [JObj [("key", JStr "a")];
                               JObj [("key", JStr "b"); ("lastModified", JNull)]])]))
              [("contents",
                JArr [JObj [("key", JStr "a")];
                      JObj [("key", JStr "b"); ("lastModified", JNull)]])]
              [JObj [("key", JStr "a")];
               JObj [("key", JStr "b"); ("lastModified", JNull)]]
              (fun _ => eq_refl) eq_refl eq_refl eq_refl)
    as (result & Hresult & _).
  - repeat constructor; eexists _, _; repeat split.
  - exists result. split; [exact Hresult|].
    vm_compute in Hresult. injection Hresult as <-. reflexivity.
Defined.

(** X15. What a listing returns. When [list_objects] returns, its objects
    are the entries of [contents], one for one and in order: each has the
    [key] of its entry, and the [size], [etag] and [contentType] of its
    entry or 0 and the empty string where the entry has none, and no
    metadata. [max_keys] and [is_truncated] are those of the body, or 1000
    and false; a body without [contents] gives no objects. *)
Theorem list_objects_returns_the_entries `{Library} client bucket prefix max_keys
    w s response fields result
    (Hanswer : answers w s response)
    (Hok : status_code response < 400)
    (Hbody : json_body response = Some (JObj fields))
    (Hresult : snd (Operations.list_objects client bucket prefix max_keys w s)
               = Return result) :
  (exists entries,
      json_iter (dict_get "contents" (JArr []) fields) = Return entries
      /\ Forall2 entry_fields entries (ListObjectsResult.objects result))
  /\ ListObjectsResult.max_keys result = dict_get "maxKeys" (JNum 1000) fields
  /\ ListObjectsResult.is_truncated result
     = dict_get "isTruncated" (JBool false) fields
  /\ (dict_lookup "contents" fields = None -> ListObjectsResult.objects result = []).
Proof.
  destruct (list_objects_run client bucket prefix max_keys w s response fields
              Hanswer Hok Hbody) as [request Hrun].
  rewrite Hrun in Hresult. clear Hrun.
  destruct (json_iter (dict_get "contents" (JArr []) fields)) as [entries|] eqn:Hiter;
    [|discriminate].
  pose proof (objects_of_return entries w (add_sent request s)) as Hentries.
  destruct (mapM Operations.object_of entries w (add_sent request s))
    as [s2 [objects|e]]; [|discriminate].
  injection Hresult as <-. cbn.
  repeat split.
  - exists entries. split; [reflexivity | now apply Hentries].
  - intros Habsent. unfold dict_get in Hiter. rewrite Habsent in Hiter.
    injection Hiter as <-. specialize (Hentries objects eq_refl).
    now inversion Hentries.
Qed.

Lemma list_objects_returns_the_entries_witness :
  exists result,
    snd (Operations.list_objects (H := reference_library) test_client
           "mybucket" "app/" 1000
           (world_answering (Return (json_response (JObj listing_fields))))
           no_effects)
    = Return result
    /\ List.length (ListObjectsResult.objects result) = 2%nat
    /\ ListObjectsResult.max_keys result = JNum 1000.
Proof.
  eexists. split; [reflexivity|]. split; [reflexivity|].
  apply (@list_objects_returns_the_entries reference_library test_client
           "mybucket" "app/" 1000
           (world_answering (Return (json_response (JObj listing_fields))))
           no_effects (json_response (JObj listing_fields)) listing_fields _
           (fun _ => eq_refl) eq_refl eq_refl eq_refl).
Defined.

Lemma objects_of_raise `{Library} w before entry after e :
  Forall (listed w) before ->
  (forall s, snd (Operations.object_of entry w s) = Raise e) ->
  forall s,
    snd (mapM Operations.object_of (before ++ entry :: after) w s) = Raise e.
Proof.
  intros Hbefore Hentry. induction Hbefore as [|x before Hx _ IH]; intros s.
  - cbn [app mapM]. rewrite IO_bind_run. specialize (Hentry s).
    destruct (Operations.object_of entry w s) as [s1 [object|e']];
      cbn in Hentry; [discriminate|]. cbn. congruence.
  - cbn [app mapM]. rewrite IO_bind_run.
    destruct (Hx s) as (s1 & object & ->). rewrite IO_bind_run.
    specialize (IH s1).
    destruct (mapM Operations.object_of (before ++ entry :: after) w s1)
      as [s2 [objects|e']]; cbn in IH; [discriminate|]. cbn. congruence.
Qed.

(** X16. One bad entry fails the whole listing. When the entries of
    [contents] before it are read, [list_objects] raises at the first entry
    that is no object ([TypeError]), that has no [key] ([KeyError]), or whose
    [lastModified] is a non-empty string that is no date ([ValueError]): it
    returns no partial listing, and the fallback to the current time is not
    for a date that does not parse. *)
Theorem list_objects_fails_on_a_bad_entry `{Library} client bucket prefix max_keys
    w s response fields before entry after
    (Hanswer : answers w s response)
    (Hok : status_code response < 400)
    (Hbody : json_body response = Some (JObj fields))
    (Hcontents : json_iter (dict_get "contents" (JArr []) fields)
                 = Return (before ++ entry :: after)%list)
    (Hbefore : Forall (listed w) before) :
  let outcome := snd (Operations.list_objects client bucket prefix max_keys w s) in
  ((forall items, entry <> JObj items) -> outcome = Raise TypeError)
  /\ (forall items,
        entry = JObj items -> dict_lookup "key" items = None ->
        outcome = Raise (KeyError "key"))
  /\ (forall items name text,
        entry = JObj items -> dict_lookup "key" items = Some name ->
        dict_lookup "lastModified" items = Some (JStr text) -> text <> "" ->
        fromisoformat (replace "Z"%char "+00:00" text) = None ->
        outcome = Raise ValueError).
Proof.
  cbv zeta.
  destruct (list_objects_run client bucket prefix max_keys w s response fields
              Hanswer Hok Hbody) as [request ->].
  rewrite Hcontents.
  assert (forall e,
             (forall s', snd (Operations.object_of entry w s') = Raise e) ->
             snd (match mapM Operations.object_of (before ++ entry :: after)%list w
                          (add_sent request s) with
                  | (s', Raise e') => (s', Raise e')
                  | (s', Return objects) =>
                      (s',
                       Return {| ListObjectsResult.objects := objects;
                                 ListObjectsResult.prefix :=
                                   dict_get "prefix" (JStr "") fields;
                                 ListObjectsResult.max_keys :=
                                   dict_get "maxKeys" (JNum 1000) fields;
                                 ListObjectsResult.is_truncated :=
                                   dict_get "isTruncated" (JBool false) fields |})
                  end) = Raise e) as Hloop.
  { intros e He.
    pose proof (objects_of_raise w before entry after e Hbefore He
                  (add_sent request s)) as Hraise.
    destruct (mapM Operations.object_of (before ++ entry :: after)%list w _)
      as [s2 [objects|e']]; cbn in Hraise; [discriminate|]. cbn. congruence. }
  repeat split.
  - intros Hentry. apply Hloop. intros s'.
    now rewrite object_of_not_an_object.
  - intros items -> Hkey. apply Hloop. intros s'.
    now rewrite object_of_run, Hkey.
  - intros items name text -> Hkey Hdate Htext Hparse. apply Hloop. intros s'.
    rewrite object_of_run, Hkey. cbv zeta. unfold dict_get. rewrite Hdate.
    cbn [truthy json_replace_Z].
    destruct text as [|c text]; [contradiction|]. cbn [truthy negb String.eqb].
    change (if negb (String.eqb (String c text) "") then ?a else ?b)
      with a.
    cbn [snd]. now rewrite Hparse.
Qed.

Lemma list_objects_fails_on_a_bad_entry_witness :
  snd (Operations.list_objects (H := reference_library) test_client "mybucket" "" 0
         (world_answering
            (Return (json_response (JObj listing_with_a_nameless_entry))))
         no_effects)
  = Raise (KeyError "key").
Proof.
  assert (Forall (listed (H := reference_library)
                    (world_answering
                       (Return (json_response
                                  (JObj listing_with_a_nameless_entry)))))
            [JObj [("key", JStr "app/file1.txt"); ("size", JNum 1024)]])
    as Hbefore.
  { repeat constructor. intros s. eexists _, _. reflexivity. }
  apply (proj1 (proj2
    (@list_objects_fails_on_a_bad_entry reference_library test_client
       "mybucket" "" 0
       (world_answering
          (Return (json_response (JObj listing_with_a_nameless_entry))))
       no_effects
       (json_response (JObj listing_with_a_nameless_entry))
       listing_with_a_nameless_entry
       [JObj [("key", JStr "app/file1.txt"); ("size", JNum 1024)]]
       (JObj [("size", JNum 2048)])
       [JObj [("key", JStr "app/file3.txt")]]
       (fun _ => eq_refl) eq_refl eq_refl eq_refl Hbefore))
    [("size", JNum 2048)] eq_refl eq_refl).
Defined.

(** ** What the supply-chain calls return *)

Lemma mapM_iff {A} (f : json -> result A) entries : forall values,
  mapM f entries = Return values
  <-> Forall2 (fun entry value => f entry = Return value) entries values.
Proof.
  induction entries as [|entry entries IH]; intros values; cbn.
  - split; [intros [= <-]; constructor | now inversion 1].
  - split.
    + destruct (f entry) as [value|e] eqn:Hentry; cbn; [|discriminate].
      destruct (mapM f entries) as [rest|e] eqn:Hrest; cbn; [|discriminate].
      intros [= <-]. constructor; [assumption | now apply IH].
    + inversion 1 as [|? value ? rest Hentry Hrest]; subst.
      rewrite Hentry. cbn. apply IH in Hrest. now rewrite Hrest.
Qed.

Lemma Forall2_iff {A B} (P Q : A -> B -> Prop) xs ys :
  (forall x y, P x y <-> Q x y) -> Forall2 P xs ys <-> Forall2 Q xs ys.
Proof.
  intros HPQ. split; induction 1; constructor; try assumption; now apply HPQ.
Qed.

Lemma timestamp_of_iff `{Library} name v time :
  (x ← json_item name v; SupplyChain.timestamp_of x) = Return time
  <-> dated_by name v time.
Proof.
  unfold dated_by, SupplyChain.timestamp_of. split.
  - destruct (json_item name v) as [x|e]; cbn; [|discriminate].
    destruct x; cbn; try discriminate.
    destruct (fromisoformat _) as [date|] eqn:Hdate; cbn; [|discriminate].
    intros [= <-]. eexists. split; [reflexivity | exact Hdate].
  - intros (text & -> & Hdate). cbn. now rewrite Hdate.
Qed.

Ltac read_field name v :=
  let H := fresh "H" in
  destruct (json_item name v) eqn:H; cbn; [|discriminate].

Lemma signature_of_iff `{Library} v x :
  SupplyChain.signature_of v = Return x <-> signature_fields v x.
Proof.
  unfold signature_fields. rewrite <- timestamp_of_iff.
  unfold SupplyChain.signature_of. split.
  - read_field "id" v. read_field "artifactDigest" v. read_field "signature" v.
    read_field "algorithm" v. read_field "signedBy" v.
    destruct (x0 ← json_item "timestamp" v; SupplyChain.timestamp_of x0)
      as [time|]; cbn; [|discriminate].
    intros [= <-]. repeat split.
  - intros (-> & -> & -> & -> & -> & ->). now destruct x.
Qed.

Lemma sbom_of_iff `{Library} v x :
  SupplyChain.sbom_of v = Return x <-> sbom_fields v x.
Proof.
  unfold sbom_fields. rewrite <- timestamp_of_iff.
  unfold SupplyChain.sbom_of. split.
  - read_field "id" v. read_field "artifactDigest" v. read_field "format" v.
    read_field "content" v.
    destruct (x0 ← json_item "timestamp" v; SupplyChain.timestamp_of x0)
      as [time|]; cbn; [|discriminate].
    intros [= <-]. repeat split.
  - intros (-> & -> & -> & -> & ->). now destruct x.
Qed.

Lemma attestation_of_iff `{Library} v x :
  SupplyChain.attestation_of v = Return x <-> attestation_fields v x.
Proof.
  unfold attestation_fields. rewrite <- timestamp_of_iff.
  unfold SupplyChain.attestation_of. split.
  - read_field "id" v. read_field "artifactDigest" v. read_field "type" v.
    read_field "data" v.
    destruct (x0 ← json_item "timestamp" v; SupplyChain.timestamp_of x0)
      as [time|]; cbn; [|discriminate].
    intros [= <-]. repeat split.
  - intros (-> & -> & -> & -> & ->). now destruct x.
Qed.

(** X17. What the calls that return one value return.  With a response
    below 400 whose body is JSON, [sign_artifact], [attach_sbom], [get_sbom]
    and [add_attestation] return a value exactly when the body is an object
    with every field of the value under its name on the wire and a
    [timestamp] that is a string [fromisoformat] reads; the value has those
    fields, unchanged, and that time. *)
Theorem supply_chain_calls_return_the_fields `{Library} client bucket key w s
    response body
    (Hanswer : answers w s response)
    (Hok : status_code response < 400)
    (Hbody : json_body response = Some body) :
  (forall private_key x,
      snd (SupplyChain.sign_artifact client bucket key private_key w s) = Return x
      <-> signature_fields body x)
  /\ (forall format content x,
        snd (SupplyChain.attach_sbom client bucket key format content w s) = Return x
        <-> sbom_fields body x)
  /\ (forall x,
        snd (SupplyChain.get_sbom client bucket key w s) = Return x
        <-> sbom_fields body x)
  /\ (forall attestation_type data x,
        snd (SupplyChain.add_attestation client bucket key attestation_type data w s)
        = Return x
        <-> attestation_fields body x).
Proof.
  split; [|split; [|split]]; intros.
  - rewrite (sign_artifact_run client bucket key w s response body Hanswer Hok Hbody).
    apply signature_of_iff.
  - rewrite (attach_sbom_run client bucket key w s response body Hanswer Hok Hbody).
    apply sbom_of_iff.
  - rewrite (get_sbom_run client bucket key w s response body Hanswer Hok Hbody).
    apply sbom_of_iff.
  - rewrite (add_attestation_run client bucket key w s response body Hanswer Hok
               Hbody).
    apply attestation_of_iff.
Qed.

Lemma supply_chain_calls_return_the_fields_witness :
  exists x,
    snd (SupplyChain.get_sbom (H := reference_library) test_client
           "mybucket" "myfile.tar.gz"
           (world_answering
              (Return (json_response (sbom_body (JStr "2024-01-15T10:30:00Z")))))
           no_effects)
    = Return x
    /\ SBOM.format x = JStr "spdx"
    /\ hour (SBOM.timestamp x) = 10.
Proof.
  eexists. split; [|split].
  - apply (@supply_chain_calls_return_the_fields reference_library test_client
             "mybucket" "myfile.tar.gz"
             (world_answering
                (Return (json_response (sbom_body (JStr "2024-01-15T10:30:00Z")))))
             no_effects
             (json_response (sbom_body (JStr "2024-01-15T10:30:00Z")))
             (sbom_body (JStr "2024-01-15T10:30:00Z"))
             (fun _ => eq_refl) eq_refl eq_refl).
    instantiate (1 := {| SBOM.id := JStr "sbom-123";
                         SBOM.artifact_digest := JStr "sha256:abc123";
                         SBOM.format := JStr "spdx";
                         SBOM.content := JStr "{}";
                         SBOM.timestamp :=
                           {| year := 2024; month := 1; day := 15; hour := 10;
                              minute := 30; second := 0; utcoffset := Some 0 |} |}).
    repeat split. exists "2024-01-15T10:30:00Z". split; reflexivity.
  - reflexivity.
  - reflexivity.
Defined.

Section ListRuns.
Context `{Library}.
Variables (client : Client.t) (bucket key : string) (w : World) (s : Effects).
Variables (response : Response) (body : json).
Hypothesis Hanswer : answers w s response.
Hypothesis Hok : status_code response < 400.
Hypothesis Hbody : json_body response = Some body.

Lemma get_signatures_outcome :
  snd (SupplyChain.get_signatures client bucket key w s)
  = (entries ← listed_under "signatures" body;
     mapM SupplyChain.signature_of entries).
Proof.
  unfold SupplyChain.get_signatures.
  rewrite IO_bind_run, (request_accepted _ _ _ _ _ _ _ _ Hanswer Hok).
  rewrite IO_bind_run. unfold lift at 1, response_json. rewrite Hbody.
  rewrite IO_bind_run. unfold lift at 1. fold (listed_under "signatures" body).
  now destruct (listed_under "signatures" body).
Qed.

Lemma get_attestations_outcome :
  snd (SupplyChain.get_attestations client bucket key w s)
  = (entries ← listed_under "attestations" body;
     mapM SupplyChain.attestation_of entries).
Proof.
  unfold SupplyChain.get_attestations.
  rewrite IO_bind_run, (request_accepted _ _ _ _ _ _ _ _ Hanswer Hok).
  rewrite IO_bind_run. unfold lift at 1, response_json. rewrite Hbody.
  rewrite IO_bind_run. unfold lift at 1. fold (listed_under "attestations" body).
  now destruct (listed_under "attestations" body).
Qed.

Lemma verify_signatures_outcome public_keys :
  snd (SupplyChain.verify_signatures client bucket key public_keys w s)
  = (entries ← listed_under "signatures" body;
     signatures ← mapM SupplyChain.signature_of entries;
     valid ← json_item "valid" body;
     message ← json_item "message" body;
     mret {| VerificationResult.valid := valid;
             VerificationResult.message := message;
             VerificationResult.signatures := signatures |}).
Proof.
  unfold SupplyChain.verify_signatures.
  rewrite IO_bind_run, (request_accepted _ _ _ _ _ _ _ _ Hanswer Hok).
  rewrite IO_bind_run. unfold lift at 1, response_json. rewrite Hbody.
  rewrite IO_bind_run. unfold lift at 1. fold (listed_under "signatures" body).
  destruct (listed_under "signatures" body) as [entries|]; [|reflexivity].
  rewrite IO_bind_run. unfold lift at 1. cbn [mbind result_bind].
  destruct (mapM SupplyChain.signature_of entries) as [signatures|]; [|reflexivity].
  rewrite IO_bind_run. unfold lift at 1. cbn [mbind result_bind].
  destruct (json_item "valid" body) as [valid|]; [|reflexivity].
  rewrite IO_bind_run. unfold lift at 1. cbn [mbind result_bind].
  now destruct (json_item "message" body).
Qed.

End ListRuns.

Lemma signatures_of_iff `{Library} entries xs :
  mapM SupplyChain.signature_of entries = Return xs
  <-> Forall2 signature_fields entries xs.
Proof.
  rewrite mapM_iff. apply Forall2_iff. intros. apply signature_of_iff.
Qed.

Lemma attestations_of_iff `{Library} entries xs :
  mapM SupplyChain.attestation_of entries = Return xs
  <-> Forall2 attestation_fields entries xs.
Proof.
  rewrite mapM_iff. apply Forall2_iff. intros. apply attestation_of_iff.
Qed.

(** X18. What the calls that return a list return.  With a response below
    400 whose body is JSON, [get_signatures] and [get_attestations] return a
    list exactly when every entry under [signatures] (under [attestations])
    has the fields of a value: the list has one value per entry, in the order
    of the entries, with the fields of its entry; a body without the list
    gives the empty list.  [verify_signatures] returns exactly when, besides,
    the body has [valid] and [message], which the result carries unchanged. *)
Theorem supply_chain_lists_keep_the_entries `{Library} client bucket key w s
    response body
    (Hanswer : answers w s response)
    (Hok : status_code response < 400)
    (Hbody : json_body response = Some body) :
  (forall xs,
      snd (SupplyChain.get_signatures client bucket key w s) = Return xs
      <-> exists entries,
            listed_under "signatures" body = Return entries
            /\ Forall2 signature_fields entries xs)
  /\ (forall xs,
        snd (SupplyChain.get_attestations client bucket key w s) = Return xs
        <-> exists entries,
              listed_under "attestations" body = Return entries
              /\ Forall2 attestation_fields entries xs)
  /\ (forall public_keys result,
        snd (SupplyChain.verify_signatures client bucket key public_keys w s)
        = Return result
        <-> (exists entries,
                listed_under "signatures" body = Return entries
                /\ Forall2 signature_fields entries
                     (VerificationResult.signatures result))
            /\ json_item "valid" body = Return (VerificationResult.valid result)
            /\ json_item "message" body = Return (VerificationResult.message result))
  /\ (forall fields,
        body = JObj fields -> dict_lookup "signatures" fields = None ->
        snd (SupplyChain.get_signatures client bucket key w s) = Return []).
Proof.
  split; [|split; [|split]]; [intros xs | intros xs | intros public_keys outcome
                             | intros fields Hfields Hnone].
  - rewrite (get_signatures_outcome client bucket key w s response body Hanswer Hok
               Hbody).
    destruct (listed_under "signatures" body) as [entries|]; cbn.
    + rewrite signatures_of_iff. split.
      * intros Hfields. now exists entries.
      * now intros (? & [= <-] & Hfields).
    + split; [discriminate | now intros (? & [=] & _)].
  - rewrite (get_attestations_outcome client bucket key w s response body Hanswer Hok
               Hbody).
    destruct (listed_under "attestations" body) as [entries|]; cbn.
    + rewrite attestations_of_iff. split.
      * intros Hfields. now exists entries.
      * now intros (? & [= <-] & Hfields).
    + split; [discriminate | now intros (? & [=] & _)].
  - rewrite (verify_signatures_outcome client bucket key w s response body Hanswer
               Hok Hbody).
    destruct (listed_under "signatures" body) as [entries|]; cbn;
      [|split; [discriminate | now intros ((? & [=] & _) & _)]].
    split.
    + destruct (mapM SupplyChain.signature_of entries) as [signatures|] eqn:Hloop;
        cbn; [|discriminate].
      destruct (json_item "valid" body) as [valid|]; cbn; [|discriminate].
      destruct (json_item "message" body) as [message|]; cbn; [|discriminate].
      intros [= <-]. cbn. repeat split.
      exists entries. split; [reflexivity | now apply signatures_of_iff].
    + intros ((? & [= <-] & Hfields) & -> & ->).
      apply signatures_of_iff in Hfields. rewrite Hfields. cbn.
      now destruct outcome.
  - rewrite (get_signatures_outcome client bucket key w s response body Hanswer Hok
               Hbody).
    unfold listed_under. rewrite Hfields. cbn [json_get]. unfold dict_get.
    now rewrite Hnone.
Qed.

Lemma supply_chain_lists_keep_the_entries_witness :
  let w := world_answering (Return (json_response verification_body)) in
  snd (SupplyChain.get_signatures (H := reference_library) test_client
         "mybucket" "myfile.tar.gz" w no_effects)
  = Return [signature_at "sig-1" 15 10 30; signature_at "sig-2" 16 8 0]
  /\ snd (SupplyChain.verify_signatures (H := reference_library) test_client
            "mybucket" "myfile.tar.gz" ["public-key"] w no_effects)
     = Return {| VerificationResult.valid := JBool true;
                 VerificationResult.message := JStr "all signatures verified";
                 VerificationResult.signatures :=
                   [signature_at "sig-1" 15 10 30; signature_at "sig-2" 16 8 0] |}
  /\ snd (SupplyChain.get_attestations (H := reference_library) test_client
            "mybucket" "myfile.tar.gz" w no_effects)
     = Return [].
Proof.
  cbv zeta.
  destruct (@supply_chain_lists_keep_the_entries reference_library test_client
              "mybucket" "myfile.tar.gz"
              (world_answering (Return (json_response verification_body)))
              no_effects (json_response verification_body) verification_body
              (fun _ => eq_refl) eq_refl eq_refl)
    as (Hsignatures & Hattestations & Hverify & _).
  assert (Forall2 (signature_fields (H := reference_library))
            [signed "sig-1" [("timestamp", JStr "2024-01-15T10:30:00Z")];
             signed "sig-2" [("timestamp", JStr "2024-01-16T08:00:00Z")]]
            [signature_at "sig-1" 15 10 30; signature_at "sig-2" 16 8 0])
    as Hfields.
  { constructor; [|constructor; [|constructor]];
      (repeat split; try reflexivity; eexists; split; reflexivity). }
  split; [|split].
  - apply Hsignatures. eexists. split; [reflexivity | exact Hfields].
  - apply Hverify. split; [|split; reflexivity].
    eexists. split; [reflexivity | exact Hfields].
  - apply Hattestations. exists []. split; [reflexivity | constructor].
Defined.

(** ** A time that is no time *)

Lemma timestamp_of_bad `{Library} v e :
  bad_timestamp v e -> SupplyChain.timestamp_of v = Raise e.
Proof.
  unfold SupplyChain.timestamp_of.
  intros [[Hother ->] | (text & -> & Hdate & ->)].
  - destruct v; try reflexivity. now contradiction (Hother s).
  - cbn. now rewrite Hdate.
Qed.

Lemma signature_of_bad_timestamp `{Library} body v e :
  has_fields ["id"; "artifactDigest"; "signature"; "algorithm"; "signedBy"] body ->
  json_item "timestamp" body = Return v ->
  bad_timestamp v e ->
  SupplyChain.signature_of body = Raise e.
Proof.
  unfold has_fields. rewrite !Forall_cons.
  intros ([? H1] & [? H2] & [? H3] & [? H4] & [? H5] & _) Hstamp Hbad.
  unfold SupplyChain.signature_of. rewrite H1, H2, H3, H4, H5, Hstamp. cbn.
  now rewrite (timestamp_of_bad v e Hbad).
Qed.

Lemma sbom_of_bad_timestamp `{Library} body v e :
  has_fields ["id"; "artifactDigest"; "format"; "content"] body ->
  json_item "timestamp" body = Return v ->
  bad_timestamp v e ->
  SupplyChain.sbom_of body = Raise e.
Proof.
  unfold has_fields. rewrite !Forall_cons.
  intros ([? H1] & [? H2] & [? H3] & [? H4] & _) Hstamp Hbad.
  unfold SupplyChain.sbom_of. rewrite H1, H2, H3, H4, Hstamp. cbn.
  now rewrite (timestamp_of_bad v e Hbad).
Qed.

Lemma attestation_of_bad_timestamp `{Library} body v e :
  has_fields ["id"; "artifactDigest"; "type"; "data"] body ->
  json_item "timestamp" body = Return v ->
  bad_timestamp v e ->
  SupplyChain.attestation_of body = Raise e.
Proof.
  unfold has_fields. rewrite !Forall_cons.
  intros ([? H1] & [? H2] & [? H3] & [? H4] & _) Hstamp Hbad.
  unfold SupplyChain.attestation_of. rewrite H1, H2, H3, H4, Hstamp. cbn.
  now rewrite (timestamp_of_bad v e Hbad).
Qed.

(** X19. A [timestamp] the decoders cannot read fails the call.  When the
    body has the other fields and its [timestamp] is no string (a number, as
    for seconds since the epoch, or null), [sign_artifact], [attach_sbom],
    [get_sbom] and [add_attestation] raise [AttributeError]; when it is a
    string that [fromisoformat] does not read, they raise [ValueError].
    Neither is an error of the client's own classes. *)
Theorem timestamp_must_be_an_iso_string `{Library} client bucket key w s
    response body v e
    (Hanswer : answers w s response)
    (Hok : status_code response < 400)
    (Hbody : json_body response = Some body)
    (Hstamp : json_item "timestamp" body = Return v)
    (Hbad : bad_timestamp v e) :
  (has_fields ["id"; "artifactDigest"; "signature"; "algorithm"; "signedBy"] body ->
   forall private_key,
     snd (SupplyChain.sign_artifact client bucket key private_key w s) = Raise e)
  /\ (has_fields ["id"; "artifactDigest"; "format"; "content"] body ->
      (forall format content,
          snd (SupplyChain.attach_sbom client bucket key format content w s)
          = Raise e)
      /\ snd (SupplyChain.get_sbom client bucket key w s) = Raise e)
  /\ (has_fields ["id"; "artifactDigest"; "type"; "data"] body ->
      forall attestation_type data,
        snd (SupplyChain.add_attestation client bucket key attestation_type data w s)
        = Raise e)
  /\ is_status_error e = false.
Proof.
  split; [|split; [|split]].
  - intros Hfields private_key.
    rewrite (sign_artifact_run client bucket key w s response body Hanswer Hok Hbody).
    now apply (signature_of_bad_timestamp body v e).
  - intros Hfields. split; [intros format content|].
    + rewrite (attach_sbom_run client bucket key w s response body Hanswer Hok Hbody).
      now apply (sbom_of_bad_timestamp body v e).
    + rewrite (get_sbom_run client bucket key w s response body Hanswer Hok Hbody).
      now apply (sbom_of_bad_timestamp body v e).
  - intros Hfields attestation_type data.
    rewrite (add_attestation_run client bucket key w s response body Hanswer Hok
               Hbody).
    now apply (attestation_of_bad_timestamp body v e).
  - now destruct Hbad as [[_ ->] | (? & _ & _ & ->)].
Qed.

Lemma timestamp_must_be_an_iso_string_witness :
  snd (SupplyChain.get_sbom (H := reference_library) test_client
         "mybucket" "myfile.tar.gz"
         (world_answering (Return (json_response (sbom_body (JNum 1705314600)))))
         no_effects)
  = Raise AttributeError.
Proof.
  assert (bad_timestamp (H := reference_library) (JNum 1705314600) AttributeError)
    as Hbad by (left; split; [discriminate | reflexivity]).
  assert (has_fields ["id"; "artifactDigest"; "format"; "content"]
            (sbom_body (JNum 1705314600))) as Hfields
    by (repeat constructor; eexists; reflexivity).
  apply (proj1 (proj2
    (@timestamp_must_be_an_iso_string reference_library test_client
       "mybucket" "myfile.tar.gz"
       (world_answering (Return (json_response (sbom_body (JNum 1705314600)))))
       no_effects
       (json_response (sbom_body (JNum 1705314600)))
       (sbom_body (JNum 1705314600)) (JNum 1705314600) AttributeError
       (fun _ => eq_refl) eq_refl eq_refl eq_refl Hbad)) Hfields).
Defined.

(** ** The list of buckets *)

Lemma bucket_of_iff `{Library} v x :
  Operations.bucket_of v = Return x <-> bucket_fields v x.
Proof.
  unfold bucket_fields. rewrite <- timestamp_of_iff.
  unfold Operations.bucket_of.
  change (x0 ← json_item "creationDate" v;
          s ← json_replace_Z x0; or_ValueError (fromisoformat s))
    with (x0 ← json_item "creationDate" v; SupplyChain.timestamp_of x0).
  split.
  - read_field "name" v.
    destruct (x0 ← json_item "creationDate" v; SupplyChain.timestamp_of x0)
      as [time|]; cbn; [|discriminate].
    intros [= <-]. repeat split.
  - intros (-> & ->). now destruct x.
Qed.

Lemma list_buckets_run `{Library} client w s response body :
  answers w s response ->
  status_code response < 400 ->
  json_body response = Some body ->
  exists request,
    Operations.list_buckets client w s
    = (add_sent request s,
       entries ← listed_under "buckets" body;
       buckets ← mapM Operations.bucket_of entries;
       mret {| ListBucketsResult.buckets := buckets |}).
Proof.
  intros Hanswer Hok Hbody. eexists. unfold Operations.list_buckets.
  rewrite IO_bind_run, (request_accepted _ _ _ _ _ _ _ _ Hanswer Hok).
  rewrite IO_bind_run. unfold lift at 1, response_json. rewrite Hbody.
  rewrite IO_bind_run. unfold lift at 1. fold (listed_under "buckets" body).
  destruct (listed_under "buckets" body) as [entries|]; [|reflexivity].
  rewrite IO_bind_run. unfold lift at 1. cbn [mbind result_bind].
  now destruct (mapM Operations.bucket_of entries).
Qed.

(** X20. What [list_buckets] returns, and that it has no fallback for a
    date.  With a response below 400 whose body is JSON, it returns exactly
    when every entry under [buckets] has a [name] and a [creationDate] that
    is a string [fromisoformat] reads: one bucket per entry, in the order of
    the entries, with that name and that date.  It never reads the clock: one
    entry without [creationDate] and the call does not return, where
    [list_objects] would date the entry by the current time. *)
Theorem list_buckets_returns_the_buckets `{Library} client w s response body
    (Hanswer : answers w s response)
    (Hok : status_code response < 400)
    (Hbody : json_body response = Some body) :
  let run := Operations.list_buckets client w s in
  (forall outcome,
      snd run = Return outcome
      <-> exists entries,
            listed_under "buckets" body = Return entries
            /\ Forall2 bucket_fields entries (ListBucketsResult.buckets outcome))
  /\ ticks (fst run) = ticks s
  /\ (forall entries entry,
        listed_under "buckets" body = Return entries ->
        entry ∈ entries ->
        (forall x, json_item "creationDate" entry <> Return x) ->
        forall outcome, snd run <> Return outcome).
Proof.
  cbv zeta.
  destruct (list_buckets_run client w s response body Hanswer Hok Hbody)
    as [request ->].
  cbn [fst snd].
  assert (forall outcome,
             (entries ← listed_under "buckets" body;
              buckets ← mapM Operations.bucket_of entries;
              mret {| ListBucketsResult.buckets := buckets |}) = Return outcome
             <-> exists entries,
                   listed_under "buckets" body = Return entries
                   /\ Forall2 bucket_fields entries
                        (ListBucketsResult.buckets outcome)) as Hiff.
  { intros outcome.
    destruct (listed_under "buckets" body) as [entries|]; cbn;
      [|split; [discriminate | now intros (? & [=] & _)]].
    split.
    - destruct (mapM Operations.bucket_of entries) as [buckets|] eqn:Hloop; cbn;
        [|discriminate].
      intros [= <-]. exists entries. split; [reflexivity|].
      apply mapM_iff in Hloop.
      eapply Forall2_iff; [|exact Hloop]. intros. symmetry. apply bucket_of_iff.
    - intros (? & [= <-] & Hfields).
      assert (mapM Operations.bucket_of entries
              = Return (ListBucketsResult.buckets outcome)) as ->.
      { apply mapM_iff. eapply Forall2_iff; [|exact Hfields].
        intros. apply bucket_of_iff. }
      now destruct outcome. }
  split; [exact Hiff | split; [reflexivity|]].
  intros entries entry Hentries Hentry Hdate outcome Hreturn.
  apply Hiff in Hreturn. destruct Hreturn as (entries' & Hentries' & Hfields).
  rewrite Hentries in Hentries'. injection Hentries' as <-.
  clear Hentries.
  induction Hfields as [|first bucket rest buckets [_ (text & Htext & _)] _ IH].
  - now apply elem_of_nil in Hentry.
  - apply elem_of_cons in Hentry as [-> | Hentry]; [|now apply IH].
    now apply (Hdate (JStr text)).
Qed.

Lemma list_buckets_returns_the_buckets_witness :
  match snd (Operations.list_buckets (H := reference_library) test_client
               (world_answering (Return (json_response buckets_body))) no_effects)
  with
  | Return _ => False
  | Raise _ => True
  end.
Proof.
  destruct (snd (Operations.list_buckets (H := reference_library) test_client
                   (world_answering (Return (json_response buckets_body)))
                   no_effects)) as [outcome|e] eqn:Hrun; [|exact I].
  apply (proj2 (proj2
    (@list_buckets_returns_the_buckets reference_library test_client
       (world_answering (Return (json_response buckets_body))) no_effects
       (json_response buckets_body) buckets_body
       (fun _ => eq_refl) eq_refl eq_refl))
    [bucket_entry "bucket1" [("creationDate", JStr "2024-01-15T10:30:00Z")];
     bucket_entry "bucket2" []]
    (bucket_entry "bucket2" []) eq_refl) with (outcome := outcome).
  - apply elem_of_cons. right. apply elem_of_cons. now left.
  - discriminate.
  - exact Hrun.
Defined.

(** ** Starting a multipart upload *)

Lemma upload_request `{Library} client bucket key data size content_type metadata
    progress_callback w s :
  sent (fst (Operations.upload client bucket key data size content_type metadata
               progress_callback w s))
  = (sent s
       ++ [request_of client "PUT"
             (Client._url client ("/s3/" +:+ bucket +:+ "/" +:+ key))
             (Some (Operations.upload_headers content_type metadata))
             {| kw_headers := None; kw_params := None; kw_data := Some data;
                kw_data_reader := if progress_callback then Some size else None;
                kw_json := None; kw_stream := None; kw_timeout := None |}])%list.
Proof.
  unfold Operations.upload. rewrite IO_bind_run, request_run.
  destruct (session_request w (sent s) _) as [response|e];
    [destruct (raise_for_status response)|]; reflexivity.
Qed.

Lemma initiate_multipart_upload_run `{Library} client bucket key content_type
    metadata w s :
  let request :=
    request_of client "POST"
      (Client._url client ("/s3/" +:+ bucket +:+ "/" +:+ key))
      (Some (Operations.upload_headers content_type metadata))
      {| kw_headers := None; kw_params := Some [("uploads", JStr "")];
         kw_data := None; kw_data_reader := None; kw_json := None;
       kw_stream := None;
         kw_timeout := None |} in
  Operations.initiate_multipart_upload client bucket key content_type metadata w s
  = (add_sent request s,
     response ← match session_request w (sent s) request with
                | Return response =>
                    match raise_for_status response with
                    | Return _ => Return response
                    | Raise e => Raise e
                    end
                | Raise e => Raise e
                end;
     data ← response_json response;
     upload_id ← json_item "uploadId" data;
     mret {| MultipartUpload.upload_id := upload_id;
             MultipartUpload.bucket := bucket;
             MultipartUpload.key := key |}).
Proof.
  cbv zeta. unfold Operations.initiate_multipart_upload.
  rewrite IO_bind_run, request_run.
  destruct (session_request w (sent s) _) as [response|e]; [|reflexivity].
  destruct (raise_for_status response); [|reflexivity].
  rewrite IO_bind_run. unfold lift at 1. cbn [mbind result_bind].
  destruct (response_json response) as [data|]; [|reflexivity].
  rewrite IO_bind_run. unfold lift at 1. cbn [mbind result_bind].
  destruct (json_item "uploadId" data); reflexivity.
Qed.

(** X21. What [initiate_multipart_upload] returns.  With a response below
    400 whose body is JSON, the call returns exactly when the body is an
    object with [uploadId]: the upload has that id, whatever JSON value it
    is, and the bucket and the key the caller gave, not any the response
    names.  A body without [uploadId] raises [KeyError]. *)
Theorem initiate_multipart_upload_returns_the_upload `{Library} client bucket key
    content_type metadata w s response body
    (Hanswer : answers w s response)
    (Hok : status_code response < 400)
    (Hbody : json_body response = Some body) :
  let outcome :=
    snd (Operations.initiate_multipart_upload client bucket key content_type
           metadata w s) in
  (forall upload,
      outcome = Return upload
      <-> json_item "uploadId" body = Return (MultipartUpload.upload_id upload)
          /\ MultipartUpload.bucket upload = bucket
          /\ MultipartUpload.key upload = key)
  /\ (forall fields,
        body = JObj fields -> dict_lookup "uploadId" fields = None ->
        outcome = Raise (KeyError "uploadId")).
Proof.
  cbv zeta. rewrite initiate_multipart_upload_run. cbv zeta. cbn [snd].
  rewrite Hanswer. unfold raise_for_status, response_json.
  destruct (Z.ltb_spec (status_code response) 400); [|lia].
  cbn [mbind result_bind mret result_ret]. rewrite Hbody. cbn [mbind result_bind].
  split.
  - intros upload. destruct (json_item "uploadId" body) as [upload_id|]; cbn.
    + split.
      * intros [= <-]. repeat split.
      * intros ([= ->] & <- & <-). now destruct upload.
    + split; [discriminate | now intros ([=] & _)].
  - intros fields -> Hnone. cbn [json_item]. now rewrite Hnone.
Qed.

Lemma initiate_multipart_upload_returns_the_upload_witness :
  snd (Operations.initiate_multipart_upload (H := reference_library) test_client
         "mybucket" "large.bin" "application/octet-stream" None
         (world_answering
            (Return (json_response
                       (JObj [("bucket", JStr "other");
                              ("uploadId", JStr "upload-123")]))))
         no_effects)
  = Return {| MultipartUpload.upload_id := JStr "upload-123";
              MultipartUpload.bucket := "mybucket";
              MultipartUpload.key := "large.bin" |}
  /\ snd (Operations.initiate_multipart_upload (H := reference_library) test_client
            "mybucket" "large.bin" "application/octet-stream" None
            (world_answering (Return (json_response (JObj [("bucket", JStr "other")]))))
            no_effects)
     = Raise (KeyError "uploadId").
Proof.
  split.
  - apply (proj1
      (@initiate_multipart_upload_returns_the_upload reference_library test_client
         "mybucket" "large.bin" "application/octet-stream" None
         (world_answering
            (Return (json_response
                       (JObj [("bucket", JStr "other");
                              ("uploadId", JStr "upload-123")]))))
         no_effects
         (json_response
            (JObj [("bucket", JStr "other"); ("uploadId", JStr "upload-123")]))
         (JObj [("bucket", JStr "other"); ("uploadId", JStr "upload-123")])
         (fun _ => eq_refl) eq_refl eq_refl)).
    repeat split.
  - apply (proj2
      (@initiate_multipart_upload_returns_the_upload reference_library test_client
         "mybucket" "large.bin" "application/octet-stream" None
         (world_answering (Return (json_response (JObj [("bucket", JStr "other")]))))
         no_effects
         (json_response (JObj [("bucket", JStr "other")]))
         (JObj [("bucket", JStr "other")])
         (fun _ => eq_refl) eq_refl eq_refl)
      [("bucket", JStr "other")] eq_refl eq_refl).
Defined.

(** X22. [initiate_multipart_upload] asks for the object [upload] would
    write: its one request is a POST to the URL of the PUT of [upload], with
    the headers [upload] sends for the same content type and metadata (so
    with the same [X-Amz-Meta-] headers), with the one parameter [uploads],
    empty, and with no body. *)
Theorem initiate_multipart_upload_sends_the_headers_of_upload `{Library}
    client bucket key content_type metadata data size progress_callback w s :
  exists post put,
    sent (fst (Operations.initiate_multipart_upload client bucket key content_type
                 metadata w s))
    = (sent s ++ [post])%list
    /\ sent (fst (Operations.upload client bucket key data size content_type
                    metadata progress_callback w s))
       = (sent s ++ [put])%list
    /\ method post = "POST"
    /\ method put = "PUT"
    /\ url post = url put
    /\ kw_headers (kwargs post) = kw_headers (kwargs put)
    /\ kw_params (kwargs post) = Some [("uploads", JStr "")]
    /\ kw_data (kwargs post) = None
    /\ kw_json (kwargs post) = None.
Proof.
  eexists _, _. rewrite initiate_multipart_upload_run, upload_request.
  cbv zeta. cbn [fst sent add_sent]. repeat split.
Qed.

(** ** The calls that return nothing *)

Ltac accepted Hanswer Hok :=
  split;
  [ rewrite IO_bind_run, (request_accepted _ _ _ _ _ _ _ _ Hanswer Hok);
    reflexivity
  | eexists;
    rewrite IO_bind_run, (request_accepted _ _ _ _ _ _ _ _ Hanswer Hok);
    split; reflexivity ].

(** X23. The calls that return nothing succeed on the status alone.  When
    the session answers with a status below 400, [create_bucket],
    [delete_bucket], [delete_object], [copy_object],
    [complete_multipart_upload] and [abort_multipart_upload] return after
    their one request, whatever the response holds: none reads the body or a
    header, none reads the clock, reports or writes. *)
Theorem operations_without_a_result_return `{Library} client w s response
    (Hanswer : answers w s response)
    (Hok : status_code response < 400) :
  (forall bucket, done_with "PUT" w s (Operations.create_bucket client bucket))
  /\ (forall bucket, done_with "DELETE" w s (Operations.delete_bucket client bucket))
  /\ (forall bucket key,
        done_with "DELETE" w s (Operations.delete_object client bucket key))
  /\ (forall source_bucket source_key dest_bucket dest_key,
        done_with "PUT" w s
          (Operations.copy_object client source_bucket source_key
             dest_bucket dest_key))
  /\ (forall bucket key upload_id parts,
        done_with "POST" w s
          (Operations.complete_multipart_upload client bucket key upload_id parts))
  /\ (forall bucket key upload_id,
        done_with "DELETE" w s
          (Operations.abort_multipart_upload client bucket key upload_id)).
Proof.
  unfold done_with, Operations.create_bucket, Operations.delete_bucket,
    Operations.delete_object, Operations.copy_object,
    Operations.complete_multipart_upload, Operations.abort_multipart_upload.
  repeat match goal with |- _ /\ _ => split end; intros;
    accepted Hanswer Hok.
Qed.

Lemma operations_without_a_result_return_witness :
  done_with "DELETE"
    (world_answering (Return no_content_response)) no_effects
    (Operations.delete_object (H := reference_library) test_client
       "mybucket" "myfile.tar.gz").
Proof.
  apply (@operations_without_a_result_return reference_library test_client
           (world_answering (Return no_content_response)) no_effects
           no_content_response (fun _ => eq_refl) eq_refl).
Defined.

(** ** A success that is no JSON object *)

Ltac decode_body Hanswer Hok Hbody :=
  rewrite IO_bind_run, (request_accepted _ _ _ _ _ _ _ _ Hanswer Hok);
  rewrite IO_bind_run; unfold lift at 1, response_json; rewrite Hbody;
  try reflexivity;
  try rewrite IO_bind_run; unfold lift;
  match goal with
  | Hother : forall fields, ?body <> JObj fields |- _ =>
      destruct body; try reflexivity;
      match goal with
      | |- context [JObj ?items] => now contradiction (Hother items)
      end
  end.

(** X24. A success whose body the client cannot use.  When the session
    answers below 400 and the body is no JSON, every call that decodes the
    body raises [JSONDecodeError].  When the body is JSON and no object, the
    calls that read it with [get] ([list_buckets], [list_objects],
    [get_signatures], [verify_signatures], [get_attestations]) raise
    [AttributeError] and those that read it with a subscript
    ([initiate_multipart_upload], [sign_artifact], [attach_sbom], [get_sbom],
    [add_attestation]) raise [TypeError].  None of the three is an error of
    the client's own classes, and none of the calls returns. *)
Theorem decoding_calls_need_a_json_object `{Library} client w s response
    (Hanswer : answers w s response)
    (Hok : status_code response < 400) :
  let decoding (e1 e2 : exception) :=
    snd (Operations.list_buckets client w s) = Raise e1
    /\ (forall bucket prefix max_keys,
          snd (Operations.list_objects client bucket prefix max_keys w s) = Raise e1)
    /\ (forall bucket key,
          snd (SupplyChain.get_signatures client bucket key w s) = Raise e1)
    /\ (forall bucket key public_keys,
          snd (SupplyChain.verify_signatures client bucket key public_keys w s)
          = Raise e1)
    /\ (forall bucket key,
          snd (SupplyChain.get_attestations client bucket key w s) = Raise e1)
    /\ (forall bucket key content_type metadata,
          snd (Operations.initiate_multipart_upload client bucket key content_type
                 metadata w s) = Raise e2)
    /\ (forall bucket key private_key,
          snd (SupplyChain.sign_artifact client bucket key private_key w s)
          = Raise e2)
    /\ (forall bucket key format content,
          snd (SupplyChain.attach_sbom client bucket key format content w s)
          = Raise e2)
    /\ (forall bucket key, snd (SupplyChain.get_sbom client bucket key w s) = Raise e2)
    /\ (forall bucket key attestation_type data,
          snd (SupplyChain.add_attestation client bucket key attestation_type data
                 w s) = Raise e2) in
  (json_body response = None -> decoding JSONDecodeError JSONDecodeError)
  /\ (forall body,
        json_body response = Some body ->
        (forall fields, body <> JObj fields) ->
        decoding AttributeError TypeError).
Proof.
  cbv zeta.
  unfold Operations.list_buckets, Operations.list_objects,
    Operations.initiate_multipart_upload, SupplyChain.get_signatures,
    SupplyChain.verify_signatures, SupplyChain.get_attestations,
    SupplyChain.sign_artifact, SupplyChain.attach_sbom, SupplyChain.get_sbom,
    SupplyChain.add_attestation,  SupplyChain.signature_of, SupplyChain.sbom_of,
    SupplyChain.attestation_of.
  split.
  - intros Hbody.
    repeat match goal with |- _ /\ _ => split end; intros;
      decode_body Hanswer Hok Hbody.
  - intros body Hbody Hother.
    repeat match goal with |- _ /\ _ => split end; intros;
      decode_body Hanswer Hok Hbody.
Qed.

Lemma decoding_calls_need_a_json_object_witness :
  snd (Operations.list_buckets (H := reference_library) test_client
         (world_answering (Return (json_response (JArr [])))) no_effects)
  = Raise AttributeError.
Proof.
  apply (proj2
    (@decoding_calls_need_a_json_object reference_library test_client
       (world_answering (Return (json_response (JArr [])))) no_effects
       (json_response (JArr [])) (fun _ => eq_refl) eq_refl)
    (JArr []) eq_refl).
  discriminate.
Defined.
